(** * The assignment manager (assignmentManager.js), embedded in Rocq

    The classes [Assignment], [Observer], [Student] and [ClassList] are
    translated method by method.  Objects live in a store and are referred to
    by reference, as in the JavaScript program: a [Student] is an index into
    the store of students, an [Assignment] is a position in its owner's
    [assignmentStatuses] array (the array only ever grows by [push], so a
    position identifies one object for ever).  The timers of [setTimeout] are
    kept in a table of pending callbacks, [console.log] appends to a list of
    lines, and every method runs in a small state-and-exception monad. *)

From Stdlib Require Import ZArith Floats.SpecFloat.
From stdpp Require Import base numbers list strings relations.

Open Scope string_scope.

(** ** JavaScript values *)

(** A JavaScript number is an IEEE 754 double: a [spec_float] of precision
    53 and exponent bound 1024 (signed zeros, subnormal and normal values,
    the two infinities and [NaN]).  The operations are those of the standard
    library's specification of binary floating-point arithmetic, which round
    to nearest, ties to even, as JavaScript does. *)
Definition number : Type := spec_float.

Definition NaN : number := S754_nan.

(** An integer literal, or an integer such as [graded.length], as a number. *)
Definition of_Z (z : Z) : number := binary_normalize 53 1024 z 0 false.

Arguments of_Z : simpl never.

(** [a > b] *)
Definition gt (a b : number) : bool := SFltb b a.

(** [a <= b] *)
Definition le (a b : number) : bool := SFleb a b.

(** [a + b] *)
Definition add (a b : number) : number := SFadd 53 1024 a b.

(** [a / b] *)
Definition div (a b : number) : number := SFdiv 53 1024 a b.

(** The values a caller can pass where the program expects a grade. *)
Inductive value : Type :=
  | undefined
  | null
  | boolean (b : bool)
  | num (n : number)
  | str (s : string)
  | bigint (z : Z)
  | symbol
  | function
  | object.

Definition typeof (v : value) : string :=
  match v with
  | undefined => "undefined"
  | null => "object"
  | boolean _ => "boolean"
  | num _ => "number"
  | str _ => "string"
  | bigint _ => "bigint"
  | symbol => "symbol"
  | function => "function"
  | object => "object"
  end.

(** What the [observer] field of a [Student] or a [ClassList] can hold.  The
    only function ever stored under [notify] is the method of class
    [Observer] below. *)
Inductive notify_property : Type :=
  | notify_missing
  | notify_not_callable
  | notify_method.

Inductive observer_value : Type :=
  | observer_undefined
  | observer_null
  | observer_primitive (truthy : bool)
  | observer_object (notify : notify_property).

Definition truthy (o : observer_value) : bool :=
  match o with
  | observer_undefined | observer_null => false
  | observer_primitive t => t
  | observer_object _ => true
  end.

(** ** Assignment *)

Record Assignment : Type := mkAssignment {
  assignmentName : string;
  status : string;
  _grade : option number;          (* [None] is [null] *)
  _graded : bool;
  _workTimeoutId : option positive (* [None] is [null]; timer ids are positive *)
}.

Definition new_Assignment (assignmentName : string) : Assignment :=
  {| assignmentName := assignmentName;
     status := "released";
     _grade := None;
     _graded := false;
     _workTimeoutId := None |}.

Definition setGrade (grade : number) (this : Assignment) : Assignment :=
  {| assignmentName := assignmentName this;
     status := if gt grade (of_Z 50) then "Pass" else "Fail";
     _grade := Some grade;
     _graded := true;
     _workTimeoutId := _workTimeoutId this |}.

Definition set_status (st : string) (this : Assignment) : Assignment :=
  {| assignmentName := assignmentName this;
     status := st;
     _grade := _grade this;
     _graded := _graded this;
     _workTimeoutId := _workTimeoutId this |}.

Definition set_workTimeoutId (t : option positive) (this : Assignment) : Assignment :=
  {| assignmentName := assignmentName this;
     status := status this;
     _grade := _grade this;
     _graded := _graded this;
     _workTimeoutId := t |}.

(** ** Student, ClassList and the run-time state *)

Record Student : Type := mkStudent {
  fullName : string;
  email : string;
  assignmentStatuses : list Assignment;
  overallGrade : option number;
  observer : observer_value
}.

(** [fullName || ""]: a missing argument becomes the empty string. *)
Definition or_empty (s : option string) : string :=
  match s with Some x => x | None => "" end.

Definition new_Student (fullName email : option string) (observer : observer_value) : Student :=
  {| fullName := or_empty fullName;
     email := or_empty email;
     assignmentStatuses := [];
     overallGrade := None;
     observer := observer |}.

Definition with_assignments (l : list Assignment) (s : Student) : Student :=
  {| fullName := fullName s;
     email := email s;
     assignmentStatuses := l;
     overallGrade := overallGrade s;
     observer := observer s |}.

Definition with_overallGrade (g : option number) (s : Student) : Student :=
  {| fullName := fullName s;
     email := email s;
     assignmentStatuses := assignmentStatuses s;
     overallGrade := g;
     observer := observer s |}.

Definition with_fullName (n : string) (s : Student) : Student :=
  {| fullName := n;
     email := email s;
     assignmentStatuses := assignmentStatuses s;
     overallGrade := overallGrade s;
     observer := observer s |}.

Definition with_email (e : string) (s : Student) : Student :=
  {| fullName := fullName s;
     email := e;
     assignmentStatuses := assignmentStatuses s;
     overallGrade := overallGrade s;
     observer := observer s |}.

Definition with_observer (o : observer_value) (s : Student) : Student :=
  {| fullName := fullName s;
     email := email s;
     assignmentStatuses := assignmentStatuses s;
     overallGrade := overallGrade s;
     observer := o |}.

(** The closures handed to [setTimeout].  Each records the variables it
    captured: [this], the [assignment] object (its position in the array of
    [this]) and, for the auto-submit closure, [assignmentName]. *)
Inductive callback : Type :=
  | auto_submit (this : nat) (assignment : nat) (assignmentName : string)
  | auto_grade (this : nat) (assignment : nat)
  | release (student : nat) (assignmentName : string).

Record timer : Type := mkTimer {
  timer_id : positive;
  timer_callback : callback;
  timer_delay : nat
}.

Record World : Type := mkWorld {
  heap : list Student;          (* the Student objects, by reference *)
  students : list nat;          (* ClassList.students *)
  class_observer : observer_value; (* ClassList.observer *)
  timers : list timer;          (* scheduled and neither fired nor cleared *)
  next_timer : positive;
  console : list string         (* the lines written by console.log *)
}.

Definition with_heap (h : list Student) (w : World) : World :=
  {| heap := h; students := students w; class_observer := class_observer w;
     timers := timers w; next_timer := next_timer w; console := console w |}.

Definition with_students (r : list nat) (w : World) : World :=
  {| heap := heap w; students := r; class_observer := class_observer w;
     timers := timers w; next_timer := next_timer w; console := console w |}.

Definition with_timers (t : list timer) (w : World) : World :=
  {| heap := heap w; students := students w; class_observer := class_observer w;
     timers := t; next_timer := next_timer w; console := console w |}.

Definition with_next_timer (n : positive) (w : World) : World :=
  {| heap := heap w; students := students w; class_observer := class_observer w;
     timers := timers w; next_timer := n; console := console w |}.

Definition with_console (c : list string) (w : World) : World :=
  {| heap := heap w; students := students w; class_observer := class_observer w;
     timers := timers w; next_timer := next_timer w; console := c |}.

(** ** The monad of method bodies *)

Inductive Completion (A : Type) : Type :=
  | Normal (a : A)
  | Throw (error : string).
Arguments Normal {A} a.
Arguments Throw {A} error.

Definition M (A : Type) : Type := World → Completion (A * World).

Definition ret {A} (a : A) : M A := λ w, Normal (a, w).

Definition bind {A B} (m : M A) (k : A → M B) : M B :=
  λ w, match m w with
       | Normal (a, w') => k a w'
       | Throw e => Throw e
       end.

Definition throw {A} (e : string) : M A := λ _, Throw e.

Declare Scope js_scope.
Delimit Scope js_scope with js.
Notation "'let!' x ':=' m 'in' k" := (bind m (λ x, k))
  (at level 10, x name, m at level 100, k at level 200) : js_scope.
Notation "m ';;' k" := (bind m (λ _, k))
  (at level 100, k at level 200, right associativity) : js_scope.
Open Scope js_scope.

Fixpoint forEach {A} (l : list A) (f : A → M unit) : M unit :=
  match l with
  | [] => ret tt
  | x :: l' => f x ;; forEach l' f
  end.

Definition TypeError : string := "TypeError".

(** Dereferencing.  A reference outside the store cannot be written in the
    program; reading through one fails like a property read on [undefined]. *)
Definition getStudent (r : nat) : M Student :=
  λ w, match heap w !! r with
       | Some s => Normal (s, w)
       | None => Throw TypeError
       end.

Definition putStudent (r : nat) (s : Student) : M unit :=
  λ w, Normal (tt, with_heap (<[r := s]> (heap w)) w).

Definition getAssignment (this i : nat) : M Assignment :=
  let! s := getStudent this in
  match assignmentStatuses s !! i with
  | Some a => ret a
  | None => throw TypeError
  end.

(** A field assignment [assignment.f = v], as a function on the object. *)
Definition updateAssignment (this i : nat) (f : Assignment → Assignment) : M unit :=
  let! s := getStudent this in
  match assignmentStatuses s !! i with
  | Some a => putStudent this (with_assignments (<[i := f a]> (assignmentStatuses s)) s)
  | None => throw TypeError
  end.

(** [this.assignmentStatuses.push(assignment)]; the result is the reference
    to the pushed object. *)
Definition pushAssignment (this : nat) (a : Assignment) : M nat :=
  let! s := getStudent this in
  putStudent this (with_assignments (assignmentStatuses s ++ [a]) s) ;;
  ret (length (assignmentStatuses s)).

Definition console_log (msg : string) : M unit :=
  λ w, Normal (tt, with_console (console w ++ [msg]) w).

Definition setTimeout (cb : callback) (delay : nat) : M positive :=
  λ w, Normal (next_timer w,
               with_next_timer (Pos.succ (next_timer w))
                 (with_timers (timers w ++ [mkTimer (next_timer w) cb delay]) w)).

Definition clearTimeout (id : positive) : M unit :=
  λ w, Normal (tt, with_timers (filter (λ t, timer_id t ≠ id) (timers w)) w).

(** ** Observer *)

(** The property read [o.notify]; it throws on [undefined] and [null]. *)
Definition get_notify (o : observer_value) : M notify_property :=
  match o with
  | observer_undefined | observer_null => throw TypeError
  | observer_primitive _ => ret notify_missing
  | observer_object p => ret p
  end.

Definition is_function (p : notify_property) : bool :=
  match p with notify_method => true | _ => false end.

Definition notify_message (name aName status : string) (isReminder : bool) : string :=
  if isReminder || String.eqb status "final reminder" then
    "Observer → " ++ name ++ ", final reminder for " ++ aName ++ "."
  else if String.eqb status "released" then
    "Observer → " ++ name ++ ", " ++ aName ++ " has been released."
  else if String.eqb status "working" then
    "Observer → " ++ name ++ " is working on " ++ aName ++ "."
  else if String.eqb status "submitted" then
    "Observer → " ++ name ++ " has submitted " ++ aName ++ "."
  else if String.eqb status "Pass" then
    "Observer → " ++ name ++ " has passed " ++ aName
  else if String.eqb status "Fail" then
    "Observer → " ++ name ++ " has failed " ++ aName
  else
    "Observer → " ++ name ++ ", " ++ aName ++ " status updated to " ++ status ++ ".".

(** [Observer.prototype.notify(student, assignment, isReminder)] *)
Definition Observer_notify (student assignment : nat) (isReminder : bool) : M unit :=
  let! s := getStudent student in
  let! a := getAssignment student assignment in
  console_log (notify_message (fullName s) (assignmentName a) (status a) isReminder).

(** [if (o && typeof o.notify === "function") o.notify(student, assignment, isReminder)];
    the second operand of [&&] is evaluated only when the first is truthy. *)
Definition notify_if_present (o : observer_value) (student assignment : nat)
    (isReminder : bool) : M unit :=
  if truthy o then
    let! p := get_notify o in
    if is_function p then Observer_notify student assignment isReminder
    else ret tt
  else ret tt.

(** ** Student *)

(** The position of the first element that satisfies [p]
    ([Array.prototype.find] returns that element, or [undefined]). *)
Fixpoint find_index {A} (p : A → bool) (l : list A) : option nat :=
  match l with
  | [] => None
  | x :: l' => if p x then Some 0 else S <$> find_index p l'
  end.

Definition has_name (name : string) (a : Assignment) : bool :=
  String.eqb (assignmentName a) name.

Definition _findAssignment (this : nat) (assignmentName : string) : M (option nat) :=
  let! s := getStudent this in
  ret (find_index (has_name assignmentName) (assignmentStatuses s)).

Definition _notifyObserver (this assignment : nat) (isReminder : bool) : M unit :=
  let! s := getStudent this in
  notify_if_present (observer s) this assignment isReminder.

(** [sum + a._grade]: a [null] operand counts as [0]. *)
Definition grade_operand (g : option number) : number :=
  match g with Some x => x | None => of_Z 0 end.

Definition graded_assignments (l : list Assignment) : list Assignment :=
  filter (λ a, is_Some (_grade a)) l.

Definition _recalculateOverallGrade (this : nat) : M (option number) :=
  let! s := getStudent this in
  let graded := graded_assignments (assignmentStatuses s) in
  if Nat.eqb (length graded) 0 then
    putStudent this (with_overallGrade None s) ;;
    ret None
  else
    let total := fold_left (λ sum a, add sum (grade_operand (_grade a))) graded (of_Z 0) in
    let mean := div total (of_Z (Z.of_nat (length graded))) in
    putStudent this (with_overallGrade (Some mean) s) ;;
    ret (Some mean).

(** The block that opens [updateAssignmentStatus], [startWorking] and
    [submitAssignment]: look the assignment up and, when there is none,
    create it, push it and notify ("released"). *)
Definition find_or_create (this : nat) (assignmentName : string) : M nat :=
  let! found := _findAssignment this assignmentName in
  match found with
  | Some assignment => ret assignment
  | None =>
      let! assignment := pushAssignment this (new_Assignment assignmentName) in
      _notifyObserver this assignment false ;;
      ret assignment
  end.

Definition updateAssignmentStatus (this : nat) (assignmentName : string) (grade : value)
    : M unit :=
  let! assignment := find_or_create this assignmentName in
  match grade with
  | num g =>   (* typeof grade === "number", see [typeof_number] *)
      updateAssignment this assignment (setGrade g) ;;
      _notifyObserver this assignment false ;;
      _recalculateOverallGrade this ;;
      ret tt
  | _ => ret tt
  end.

Definition not_assigned : string := "Hasn't been assigned".

Definition getAssignmentStatus (this : nat) (assignmentName : string) : M string :=
  let! found := _findAssignment this assignmentName in
  match found with
  | None => ret not_assigned
  | Some assignment =>
      let! a := getAssignment this assignment in
      ret (status a)
  end.

(** [if (assignment._workTimeoutId) clearTimeout(assignment._workTimeoutId)] *)
Definition clear_work_timer (this assignment : nat) : M unit :=
  let! a := getAssignment this assignment in
  match _workTimeoutId a with
  | Some id => clearTimeout id
  | None => ret tt
  end.

(** [if (assignment._workTimeoutId) { clearTimeout(assignment._workTimeoutId);
    assignment._workTimeoutId = null; }], in [submitAssignment] and in
    [sendReminder]. *)
Definition cancel_work_timer (this assignment : nat) : M unit :=
  let! a := getAssignment this assignment in
  match _workTimeoutId a with
  | Some id =>
      clearTimeout id ;;
      updateAssignment this assignment (set_workTimeoutId None)
  | None => ret tt
  end.

Definition startWorking (this : nat) (assignmentName : string) : M unit :=
  let! assignment := find_or_create this assignmentName in
  updateAssignment this assignment (set_status "working") ;;
  _notifyObserver this assignment false ;;
  clear_work_timer this assignment ;;
  let! id := setTimeout (auto_submit this assignment assignmentName) 500 in
  updateAssignment this assignment (set_workTimeoutId (Some id)).

Definition is_done (st : string) : bool :=
  String.eqb st "submitted" || String.eqb st "Pass" || String.eqb st "Fail".

Definition submitAssignment (this : nat) (assignmentName : string) : M unit :=
  let! assignment := find_or_create this assignmentName in
  let! a := getAssignment this assignment in
  if is_done (status a) then ret tt
  else
    cancel_work_timer this assignment ;;
    updateAssignment this assignment (set_status "submitted") ;;
    _notifyObserver this assignment false ;;
    let! _ := setTimeout (auto_grade this assignment) 500 in
    ret tt.

Definition getGrade (this : nat) : M (option number) :=
  _recalculateOverallGrade this.

Definition setFullName (this : nat) (name : string) : M unit :=
  let! s := getStudent this in putStudent this (with_fullName name s).

Definition setEmail (this : nat) (email : string) : M unit :=
  let! s := getStudent this in putStudent this (with_email email s).

(** *** The timer callbacks *)

Definition is_unsubmitted (st : string) : bool :=
  String.eqb st "working" || String.eqb st "released" || String.eqb st "final reminder".

(** The closure of [startWorking]. *)
Definition run_auto_submit (this assignment : nat) (assignmentName : string) : M unit :=
  let! a := getAssignment this assignment in
  if is_unsubmitted (status a) then submitAssignment this assignmentName
  else ret tt.

(** The closure of [submitAssignment]; [random_grade] is the value of
    [Math.floor(Math.random() * 101)]. *)
Definition run_auto_grade (this assignment : nat) (random_grade : Z) : M unit :=
  let! a := getAssignment this assignment in
  if _graded a then ret tt
  else
    updateAssignment this assignment (setGrade (of_Z random_grade)) ;;
    _notifyObserver this assignment false ;;
    _recalculateOverallGrade this ;;
    ret tt.

(** ** ClassList *)

Definition includes {A} `{EqDecision A} (l : list A) (x : A) : bool :=
  bool_decide (x ∈ l).

(** [addStudent(student)]; [student] is a reference here, so the first
    operand of [student && ...] is truthy. *)
Definition addStudent (student : nat) : M unit :=
  λ w, if includes (students w) student then Normal (tt, w)
       else (let! s := getStudent student in
             (λ w', Normal (tt, with_students (students w' ++ [student]) w')) ;;
             console_log (fullName s ++ " has been added to the classlist.")) w.

(** [removeStudent] takes a Student or a full name. *)
Definition removeStudent (studentOrName : nat + string) : M unit :=
  let! name := match studentOrName with
               | inr name => ret name
               | inl student => let! s := getStudent student in ret (fullName s)
               end in
  λ w, Normal (tt, with_students
                     (filter (λ r, fullName <$> heap w !! r ≠ Some name) (students w)) w).

Definition findStudentByName (name : string) : M (option nat) :=
  λ w, Normal (snd <$> list_find (λ r, fullName <$> heap w !! r = Some name) (students w),
               w).

(** [if (assignmentName)]: an omitted argument and the empty string are falsy. *)
Definition name_given (assignmentName : option string) : bool :=
  match assignmentName with
  | Some n => negb (String.eqb n "")
  | None => false
  end.

(** The test of the first branch of [findOutstandingAssignments]. *)
Definition outstanding_for (assignmentName : string) (s : Student) : bool :=
  match find (has_name assignmentName) (assignmentStatuses s) with
  | Some assignment =>
      negb (String.eqb (status assignment) "submitted")
      && negb (String.eqb (status assignment) "Pass")
      && negb (String.eqb (status assignment) "Fail")
  | None => false
  end.

(** The test of the second branch. *)
Definition hasOutstanding (s : Student) : bool :=
  existsb (λ a, includes ["released"; "working"; "final reminder"] (status a))
          (assignmentStatuses s).

(** [this.students.forEach (student => { if (test(student)) result.push(student.fullName) })] *)
Fixpoint collect_names (test : Student → bool) (roster : list nat) (result : list string)
    : M (list string) :=
  match roster with
  | [] => ret result
  | student :: rest =>
      let! s := getStudent student in
      collect_names test rest (if test s then result ++ [fullName s] else result)
  end.

Definition findOutstandingAssignments (assignmentName : option string) : M (list string) :=
  λ w, (if name_given assignmentName then
          collect_names (outstanding_for (or_empty assignmentName)) (students w) []
        else
          collect_names hasOutstanding (students w) []) w.

(** [releaseAssignmentsParallel]: the body up to its [await] schedules, for
    every name and every student, a task of delay [0] that calls
    [student.updateAssignmentStatus(assignmentName)].  The promises carry no
    state of their own and are left out. *)
Definition releaseAssignmentsParallel (assignmentNames : list string) : M unit :=
  λ w, forEach assignmentNames (λ assignmentName,
         forEach (students w) (λ student,
           let! _ := setTimeout (release student assignmentName) 0 in ret tt)) w.

Definition run_release (student : nat) (assignmentName : string) : M unit :=
  updateAssignmentStatus student assignmentName undefined.

(** The body of the [forEach] of [sendReminder]. *)
Definition remind (observer : observer_value) (outstanding : list string)
    (assignmentName : string) (student : nat) : M unit :=
  let! s := getStudent student in
  if negb (includes outstanding (fullName s)) then ret tt
  else
    let! found := _findAssignment student assignmentName in
    let! assignment :=
      match found with
      | Some assignment => ret assignment
      | None =>
          updateAssignmentStatus student assignmentName undefined ;;
          let! again := _findAssignment student assignmentName in
          match again with
          | Some assignment => ret assignment
          | None => throw TypeError   (* [assignment.status = ...] on [undefined] *)
          end
      end in
    updateAssignment student assignment (set_status "final reminder") ;;
    notify_if_present observer student assignment true ;;
    cancel_work_timer student assignment ;;
    submitAssignment student assignmentName.

Definition sendReminder (assignmentName : string) : M unit :=
  let! outstanding := findOutstandingAssignments (Some assignmentName) in
  λ w, forEach (students w) (remind (class_observer w) outstanding assignmentName) w.

(** ** Programs: sequences of calls and timer firings *)

(** [new ClassList(observer)] in an otherwise empty program. *)
Definition new_ClassList (observer : observer_value) : World :=
  {| heap := []; students := []; class_observer := observer;
     timers := []; next_timer := 1%positive; console := [] |}.

(** [new Student(fullName, email, observer)]: the new object gets the next
    free reference. *)
Definition alloc_Student (fullName email : option string) (observer : observer_value)
    : M nat :=
  λ w, Normal (length (heap w), with_heap (heap w ++ [new_Student fullName email observer]) w).

Definition run_callback (cb : callback) (random_grade : Z) : M unit :=
  match cb with
  | auto_submit this assignment assignmentName =>
      run_auto_submit this assignment assignmentName
  | auto_grade this assignment => run_auto_grade this assignment random_grade
  | release student assignmentName => run_release student assignmentName
  end.

(** A pending timer fires: it leaves the table, then its callback runs.
    A timer that is not pending (fired or cleared) does nothing.  Time itself
    is not represented: any pending timer may be the next to fire, which
    covers every order in which the event loop can run them. *)
Definition fire (id : positive) (random_grade : Z) : M unit :=
  λ w, match find (λ t, bool_decide (timer_id t = id)) (timers w) with
       | Some t => (clearTimeout id ;; run_callback (timer_callback t) random_grade) w
       | None => Normal (tt, w)
       end.

Inductive call : Type :=
  | call_new_Student (fullName email : option string) (observer : observer_value)
  | call_setFullName (this : nat) (name : string)
  | call_setEmail (this : nat) (email : string)
  | call_updateAssignmentStatus (this : nat) (assignmentName : string) (grade : value)
  | call_getAssignmentStatus (this : nat) (assignmentName : string)
  | call_startWorking (this : nat) (assignmentName : string)
  | call_submitAssignment (this : nat) (assignmentName : string)
  | call_getGrade (this : nat)
  | call_addStudent (student : nat)
  | call_removeStudent (studentOrName : nat + string)
  | call_findStudentByName (name : string)
  | call_findOutstandingAssignments (assignmentName : option string)
  | call_releaseAssignmentsParallel (assignmentNames : list string)
  | call_sendReminder (assignmentName : string)
  | timer_fires (id : positive) (random_grade : Z).

Definition discard {A} (m : M A) : M unit := let! _ := m in ret tt.

Definition exec (c : call) : M unit :=
  match c with
  | call_new_Student fullName email observer => discard (alloc_Student fullName email observer)
  | call_setFullName this name => setFullName this name
  | call_setEmail this email => setEmail this email
  | call_updateAssignmentStatus this assignmentName grade =>
      updateAssignmentStatus this assignmentName grade
  | call_getAssignmentStatus this assignmentName =>
      discard (getAssignmentStatus this assignmentName)
  | call_startWorking this assignmentName => startWorking this assignmentName
  | call_submitAssignment this assignmentName => submitAssignment this assignmentName
  | call_getGrade this => discard (getGrade this)
  | call_addStudent student => addStudent student
  | call_removeStudent studentOrName => removeStudent studentOrName
  | call_findStudentByName name => discard (findStudentByName name)
  | call_findOutstandingAssignments assignmentName =>
      discard (findOutstandingAssignments assignmentName)
  | call_releaseAssignmentsParallel assignmentNames =>
      releaseAssignmentsParallel assignmentNames
  | call_sendReminder assignmentName => sendReminder assignmentName
  | timer_fires id random_grade => fire id random_grade
  end.

(** What a program can write: the receiver of a method is an existing
    object, and a random grade is an integer from 0 to 100. *)
Definition well_formed (c : call) (w : World) : bool :=
  match c with
  | call_setFullName this _ | call_setEmail this _
  | call_updateAssignmentStatus this _ _ | call_getAssignmentStatus this _
  | call_startWorking this _ | call_submitAssignment this _ | call_getGrade this
  | call_addStudent this | call_removeStudent (inl this) =>
      bool_decide (this < length (heap w))
  | timer_fires _ random_grade => bool_decide (0 ≤ random_grade ≤ 100)%Z
  | _ => true
  end.

Inductive step (w : World) (c : call) (w' : World) : Prop :=
  | step_intro : well_formed c w = true → exec c w = Normal (tt, w') → step w c w'.

Inductive reachable : World → Prop :=
  | reachable_new observer : reachable (new_ClassList observer)
  | reachable_step w c w' : reachable w → step w c w' → reachable w'.

(** Running a whole program; [None] when a call is ill-formed or throws. *)
Fixpoint run (program : list call) (w : World) : option World :=
  match program with
  | [] => Some w
  | c :: rest =>
      if well_formed c w then
        match exec c w with
        | Normal (_, w') => run rest w'
        | Throw _ => None
        end
      else None
  end.

(** * Definitions used by the properties *)

(** ** The mean of the grades *)

(** The grades of exactly the assignments that have one, in array order. *)
Definition present_grades (s : Student) : list number :=
  omap _grade (assignmentStatuses s).

(** The sum of a list of numbers, added from the left starting from [0]. *)
Definition sum (l : list number) : number := fold_left add l (of_Z 0).

(** The mean of a list of numbers in double arithmetic: the sum divided by
    the count, with the rounding of each operation; there is none for the
    empty list. *)
Definition arithmetic_mean (l : list number) : option number :=
  match l with
  | [] => None
  | _ :: _ => Some (div (sum l) (of_Z (Z.of_nat (length l))))
  end.

(** The value computed by [_recalculateOverallGrade] from the array. *)
Definition computed_mean (l : list Assignment) : option number :=
  if Nat.eqb (length (graded_assignments l)) 0 then None
  else Some (div (fold_left (λ sum a, add sum (grade_operand (_grade a)))
                            (graded_assignments l) (of_Z 0))
                 (of_Z (Z.of_nat (length (graded_assignments l))))).


(** ** Observers that can be notified *)

(** An observer is usable when it is an object whose [notify] is a function. *)
Definition usable (o : observer_value) : bool :=
  match o with
  | observer_object notify_method => true
  | _ => false
  end.

(** The line written for a newly created assignment. *)
Definition released_message (name aName : string) : string :=
  "Observer → " ++ name ++ ", " ++ aName ++ " has been released.".

(** What a notification adds to the console. *)
Definition notification (o : observer_value) (s : Student) (a : Assignment)
    (isReminder : bool) : list string :=
  if usable o then [notify_message (fullName s) (assignmentName a) (status a) isReminder]
  else [].

(** ** Reasoning about method bodies *)

(** The assignment object [i] of student [this]. *)
Definition assignment_at (w : World) (this i : nat) : option Assignment :=
  heap w !! this ≫= λ s, assignmentStatuses s !! i.

(** The state after [this] has been replaced by [s]. *)
Definition store (this : nat) (s : Student) (w : World) : World :=
  with_heap (<[this := s]> (heap w)) w.

(** The student and the state after a lazy creation. *)
Definition created_student (name : string) (s : Student) : Student :=
  with_assignments (assignmentStatuses s ++ [new_Assignment name]) s.

Definition created (this : nat) (name : string) (s : Student) (w : World) : World :=
  with_console (console w ++ notification (observer s) s (new_Assignment name) false)
               (store this (created_student name s) w).

(** ** Sample states *)

Definition Ada : Student := new_Student (Some "Ada") (Some "ada@example.org")
                                        (observer_object notify_method).

(** Ada has submitted HW1; the auto-grade task is pending. *)
Definition Ada_submitted : World :=
  {| heap := [with_assignments [set_status "submitted" (new_Assignment "HW1")] Ada];
     students := [];
     class_observer := observer_object notify_method;
     timers := [mkTimer 1 (auto_grade 0 0) 500];
     next_timer := 2;
     console := [released_message "Ada" "HW1"; "Observer → Ada has submitted HW1."] |}.


(** Ada with no assignment yet. *)
Definition Ada_new : World :=
  {| heap := [Ada]; students := []; class_observer := observer_object notify_method;
     timers := []; next_timer := 1; console := [] |}.

(** ** The roster *)

(** Every reference in the roster is a Student of the store. *)
Definition roster_valid (w : World) : Prop :=
  Forall (λ r, r < length (heap w)) (students w).

(** The Student objects of the roster, in order. *)
Definition roster_students (w : World) : list Student :=
  omap (λ r, heap w !! r) (students w).

(** An assignment is outstanding when it is released, being worked on or
    under final reminder. *)
Definition outstanding (a : Assignment) : Prop :=
  status a = "released" ∨ status a = "working" ∨ status a = "final reminder".

(** Two students called Bob: the first has no assignment, the second has HW1
    released. *)
Definition two_Bobs_program : list call :=
  [call_new_Student (Some "Bob") (Some "bob1@example.org") (observer_object notify_method);
   call_new_Student (Some "Bob") (Some "bob2@example.org") (observer_object notify_method);
   call_addStudent 0;
   call_addStudent 1;
   call_updateAssignmentStatus 1 "HW1" undefined].

Definition two_Bobs : World :=
  {| heap := [new_Student (Some "Bob") (Some "bob1@example.org") (observer_object notify_method);
              with_assignments [new_Assignment "HW1"]
                (new_Student (Some "Bob") (Some "bob2@example.org")
                             (observer_object notify_method))];
     students := [0; 1];
     class_observer := observer_object notify_method;
     timers := [];
     next_timer := 1;
     console := ["Bob has been added to the classlist.";
                 "Bob has been added to the classlist.";
                 "Observer → Bob, HW1 has been released."] |}.

(** ** Elementary changes of state *)

(** [clearTimeout] on the table. *)
Definition without (id : positive) (ts : list timer) : list timer :=
  filter (λ t, timer_id t ≠ id) ts.

Definition put_assignment (this i : nat) (a : Assignment) (s : Student) (w : World) : World :=
  store this (with_assignments (<[i := a]> (assignmentStatuses s)) s) w.

(** Every method changes the state by a sequence of the following changes.
    [explicit] tells whether the caller supplies a grade, [who] which Student
    objects the method may write to. *)
Inductive change (explicit : bool) (who : nat → Prop) (w : World) : World → Prop :=
  | change_console lines :
      change explicit who w (with_console (console w ++ lines) w)
  | change_roster r :
      (roster_valid w → Forall (λ x, x < length (heap w)) r) →
      (NoDup (students w) → NoDup r) →
      change explicit who w (with_students r w)
  | change_alloc s :
      who (length (heap w)) →
      assignmentStatuses s = [] →
      change explicit who w (with_heap (heap w ++ [s]) w)
  | change_fields this s s' :
      who this →
      heap w !! this = Some s →
      assignmentStatuses s' = assignmentStatuses s →
      change explicit who w (store this s' w)
  | change_push this s name :
      who this →
      heap w !! this = Some s →
      change explicit who w
        (store this (with_assignments (assignmentStatuses s ++ [new_Assignment name]) s) w)
  | change_status this s i a st :
      who this →
      heap w !! this = Some s →
      assignmentStatuses s !! i = Some a →
      st = "working" ∨ st = "submitted" ∨ st = "final reminder" →
      change explicit who w (put_assignment this i (set_status st a) s w)
  | change_grade this s i a g :
      who this →
      heap w !! this = Some s →
      assignmentStatuses s !! i = Some a →
      explicit = true ∨ _graded a = false →
      change explicit who w (put_assignment this i (setGrade g a) s w)
  | change_schedule_submit this s i a name delay :
      who this →
      heap w !! this = Some s →
      assignmentStatuses s !! i = Some a →
      change explicit who w
        (put_assignment this i (set_workTimeoutId (Some (next_timer w)) a) s
           (with_next_timer (Pos.succ (next_timer w))
              (with_timers
                 (match _workTimeoutId a with
                  | Some id => without id (timers w)
                  | None => timers w
                  end ++ [mkTimer (next_timer w) (auto_submit this i name) delay]) w)))
  | change_cancel this s i a id :
      who this →
      heap w !! this = Some s →
      assignmentStatuses s !! i = Some a →
      _workTimeoutId a = Some id →
      change explicit who w
        (put_assignment this i (set_workTimeoutId None a) s
           (with_timers (without id (timers w)) w))
  | change_schedule cb delay :
      (∀ this i name, cb ≠ auto_submit this i name) →
      change explicit who w
        (with_next_timer (Pos.succ (next_timer w))
           (with_timers (timers w ++ [mkTimer (next_timer w) cb delay]) w))
  | change_unschedule id :
      change explicit who w (with_timers (without id (timers w)) w).

Definition changes (explicit : bool) (who : nat → Prop) : relation World :=
  rtc (change explicit who).

(** No restriction on the Student objects written. *)
Definition anyone : nat → Prop := λ _, True.

(** [m] relates every state to the state it leaves. *)
Definition respects {A} (R : relation World) (m : M A) : Prop :=
  ∀ w a w', m w = Normal (a, w') → R w w'.

(** Whether a call supplies a grade of type "number". *)
Definition supplies_grade (c : call) : bool :=
  match c with
  | call_updateAssignmentStatus _ _ (num _) => true
  | _ => false
  end.

(** ** Invariants *)

(** Grade, flag and status of one assignment. *)
Definition grade_consistent (a : Assignment) : Prop :=
  (is_Some (_grade a) ↔ _graded a = true)
  ∧ (status a = "Pass" ∨ status a = "Fail" →
     ∃ g, _grade a = Some g ∧ (status a = "Pass" ↔ gt g (of_Z 50) = true)).

Definition all_assignments (P : Assignment → Prop) (w : World) : Prop :=
  ∀ this i a, assignment_at w this i = Some a → P a.

(** Timers and handles: ids are fresh and distinct, and a pending auto-submit
    timer is the one its assignment holds in [_workTimeoutId]. *)
Definition timers_ok (w : World) : Prop :=
  NoDup (timer_id <$> timers w)
  ∧ (∀ t, t ∈ timers w → (timer_id t < next_timer w)%positive)
  ∧ (∀ t this i name,
       t ∈ timers w → timer_callback t = auto_submit this i name →
       ∃ a, assignment_at w this i = Some a ∧ _workTimeoutId a = Some (timer_id t)).

(** Between two states: a graded assignment is still there and still graded;
    with [same_grade], its grade has not changed either. *)
Definition graded_kept (same_grade : bool) (w0 w : World) : Prop :=
  ∀ this i a,
    assignment_at w0 this i = Some a → _graded a = true →
    ∃ a', assignment_at w this i = Some a' ∧ _graded a' = true
          ∧ (same_grade = true → _grade a' = _grade a).

(** How one elementary change can alter an assignment object. *)
Inductive edit (explicit : bool) (a : Assignment) : Assignment → Prop :=
  | edit_status st :
      st = "working" ∨ st = "submitted" ∨ st = "final reminder" →
      edit explicit a (set_status st a)
  | edit_grade g :
      explicit = true ∨ _graded a = false →
      edit explicit a (setGrade g a)
  | edit_handle t :
      edit explicit a (set_workTimeoutId t a).

(** ** Sample programs *)

(** Ada is given 75 for HW1. *)
Definition grade_program : list call :=
  [call_new_Student (Some "Ada") (Some "ada@example.org") (observer_object notify_method);
   call_updateAssignmentStatus 0 "HW1" (num (of_Z 75))].

Definition Ada_passed : World :=
  {| heap := [with_overallGrade (Some (of_Z 75))
                (with_assignments [setGrade (of_Z 75) (new_Assignment "HW1")] Ada)];
     students := [];
     class_observer := observer_null;
     timers := [];
     next_timer := 1;
     console := ["Observer → Ada, HW1 has been released.";
                 "Observer → Ada has passed HW1"] |}.

(** ... and then starts working on HW1 again. *)
Definition rework_program : list call :=
  grade_program ++ [call_startWorking 0 "HW1"].

Definition Ada_reworking : World :=
  {| heap := [with_overallGrade (Some (of_Z 75))
                (with_assignments
                   [set_workTimeoutId (Some 1%positive)
                      (set_status "working" (setGrade (of_Z 75) (new_Assignment "HW1")))]
                   Ada)];
     students := [];
     class_observer := observer_null;
     timers := [mkTimer 1 (auto_submit 0 0 "HW1") 500];
     next_timer := 2;
     console := ["Observer → Ada, HW1 has been released.";
                 "Observer → Ada has passed HW1";
                 "Observer → Ada is working on HW1."] |}.

(** ... or is given 30 for it instead. *)
Definition Ada_failed : World :=
  {| heap := [with_overallGrade (Some (of_Z 30))
                (with_assignments
                   [setGrade (of_Z 30) (setGrade (of_Z 75) (new_Assignment "HW1"))] Ada)];
     students := [];
     class_observer := observer_null;
     timers := [];
     next_timer := 1;
     console := ["Observer → Ada, HW1 has been released.";
                 "Observer → Ada has passed HW1";
                 "Observer → Ada has failed HW1"] |}.

(** Ada submits HW1 and then starts working on it: two tasks are pending. *)
Definition submit_work_program : list call :=
  [call_new_Student (Some "Ada") (Some "ada@example.org") (observer_object notify_method);
   call_submitAssignment 0 "HW1";
   call_startWorking 0 "HW1"].

Definition Ada_two_timers : World :=
  {| heap := [with_assignments
                [set_workTimeoutId (Some 2%positive)
                   (set_status "working" (new_Assignment "HW1"))] Ada];
     students := [];
     class_observer := observer_null;
     timers := [mkTimer 1 (auto_grade 0 0) 500; mkTimer 2 (auto_submit 0 0 "HW1") 500];
     next_timer := 3;
     console := ["Observer → Ada, HW1 has been released.";
                 "Observer → Ada has submitted HW1.";
                 "Observer → Ada is working on HW1."] |}.

(** ** Completion *)

(** [m] completes normally wherever the assignment object [i] of [this]
    exists, and leaves it in existence. *)
Definition safe {A} (this i : nat) (m : M A) : Prop :=
  ∀ w, is_Some (assignment_at w this i) →
       ∃ a w', m w = Normal (a, w') ∧ is_Some (assignment_at w' this i).

(** ** The mutators of Student *)

Inductive mutator : Type :=
  | mutator_updateAssignmentStatus (assignmentName : string) (grade : value)
  | mutator_startWorking (assignmentName : string)
  | mutator_submitAssignment (assignmentName : string).

Definition call_mutator (this : nat) (m : mutator) : M unit :=
  match m with
  | mutator_updateAssignmentStatus assignmentName grade =>
      updateAssignmentStatus this assignmentName grade
  | mutator_startWorking assignmentName => startWorking this assignmentName
  | mutator_submitAssignment assignmentName => submitAssignment this assignmentName
  end.

(** The state in which the [observer] field of [this] holds [o]. *)
Definition set_observer (this : nat) (o : observer_value) (w : World) : World :=
  with_heap (alter (with_observer o) this (heap w)) w.

(** The state seen through a Student whose observer is [o] and cannot be
    notified: the console stays at [lines]. *)
Definition muted (this : nat) (o : observer_value) (lines : list string) (w : World)
    : World :=
  with_console lines (set_observer this o w).

(** [m] does to the muted state what it does to the state. *)
Definition mutes {A} (this : nat) (o : observer_value) (lines : list string) (m : M A)
    : Prop :=
  ∀ w a w', m w = Normal (a, w') →
            m (muted this o lines w) = Normal (a, muted this o lines w').

(** Ada with an observer that is [null]. *)
Definition Ada_unobserved : World :=
  {| heap := [new_Student (Some "Ada") (Some "ada@example.org") observer_null];
     students := []; class_observer := observer_null;
     timers := []; next_timer := 1; console := [] |}.

(** What of the state a method of Student [b] is concerned with: the fields
    of [b] and the console. *)
Definition view (b : nat) (s : Student) (lines : list string) (w : World) : Prop :=
  heap w !! b = Some s ∧ console w = lines.

(** The test applied by [findOutstandingAssignments(assignmentName)]. *)
Definition outstanding_test (assignmentName : option string) : Student → bool :=
  if name_given assignmentName then outstanding_for (or_empty assignmentName)
  else hasOutstanding.

(** ** Further invariants of the store *)

(** The statements that grade an assignment, in [updateAssignmentStatus] and
    in the auto-grade task. *)
Definition grading (this assignment : nat) (grade : number) : M unit :=
  updateAssignment this assignment (setGrade grade) ;;
  _notifyObserver this assignment false ;;
  _recalculateOverallGrade this ;;
  ret tt.

(** [P] survives [m]. *)
Definition keeps (P : World → Prop) : relation World := λ w w', P w → P w'.

(** The stored average of a student is the mean of the grades present. *)
Definition average_current (s : Student) : Prop :=
  overallGrade s = arithmetic_mean (present_grades s).

(** No two assignments of a student have the same name. *)
Definition names_distinct (s : Student) : Prop :=
  NoDup (assignmentName <$> assignmentStatuses s).

Definition all_students (P : Student → Prop) (w : World) : Prop :=
  ∀ r s, heap w !! r = Some s → P s.

(** The six statuses the program assigns. *)
Definition known_status (a : Assignment) : Prop :=
  status a = "released" ∨ status a = "working" ∨ status a = "submitted"
  ∨ status a = "final reminder" ∨ status a = "Pass" ∨ status a = "Fail".

(** The full name that [removeStudent] looks for. *)
Definition name_to_remove (w : World) (studentOrName : nat + string) : option string :=
  match studentOrName with
  | inr name => Some name
  | inl student => fullName <$> heap w !! student
  end.

(** The assignment of that name a method works on: the first one of the
    Student, or the one it creates. *)
Definition named_assignment (name : string) (s : Student) : Assignment :=
  default (new_Assignment name) (find (has_name name) (assignmentStatuses s)).

(** The table of timers after [clearTimeout] of a handle. *)
Definition cleared (handle : option positive) (ts : list timer) : list timer :=
  match handle with
  | Some id => without id ts
  | None => ts
  end.

(** Between two states: the roster is the same. *)
Definition roster_kept : relation World := λ w w', students w' = students w.

(** The pending timer of that id, as [fire] looks it up. *)
Definition pending (id : positive) (w : World) : option timer :=
  find (λ t, bool_decide (timer_id t = id)) (timers w).

(** Ada starts working on HW1 and is then given 80 for it: the auto-submit
    task is still pending. *)
Definition work_grade_program : list call :=
  [call_new_Student (Some "Ada") (Some "ada@example.org") (observer_object notify_method);
   call_startWorking 0 "HW1";
   call_updateAssignmentStatus 0 "HW1" (num (of_Z 80))].

Definition Ada_graded_at_work : World :=
  {| heap := [with_overallGrade (Some (of_Z 80))
                (with_assignments
                   [setGrade (of_Z 80)
                      (set_workTimeoutId (Some 1%positive)
                         (set_status "working" (new_Assignment "HW1")))]
                   Ada)];
     students := [];
     class_observer := observer_null;
     timers := [mkTimer 1 (auto_submit 0 0 "HW1") 500];
     next_timer := 2;
     console := ["Observer → Ada, HW1 has been released.";
                 "Observer → Ada is working on HW1.";
                 "Observer → Ada has passed HW1"] |}.

(** The tasks scheduled by [releaseAssignmentsParallel], in the order of
    their creation: for each name in turn, one per student of the roster. *)
Definition release_tasks (assignmentNames : list string) (roster : list nat) : list callback :=
  assignmentNames ≫= λ assignmentName, (λ student, release student assignmentName) <$> roster.

(** Between two states: the observer of the class list is the same. *)
Definition class_observer_kept : relation World :=
  λ w w', class_observer w' = class_observer w.

Definition release_call (c : call) : bool :=
  match c with
  | call_releaseAssignmentsParallel _ => true
  | _ => false
  end.

(** The calls that write to the roster. *)
Definition roster_call (c : call) : bool :=
  match c with
  | call_addStudent _ | call_removeStudent _ => true
  | _ => false
  end.

(** What a task refers to exists: its assignment, or its student. *)
Definition callback_target (w : World) (cb : callback) : Prop :=
  match cb with
  | auto_submit this i _ | auto_grade this i => is_Some (assignment_at w this i)
  | release student _ => (student < length (heap w))%nat
  end.

Definition callbacks_ok (w : World) : Prop :=
  ∀ t, t ∈ timers w → callback_target w (timer_callback t).

(** Between two states: the objects of the earlier one are still there. *)
Definition extends : relation World := λ w w',
  (length (heap w) ≤ length (heap w'))%nat
  ∧ ∀ r j, is_Some (assignment_at w r j) → is_Some (assignment_at w' r j).

(** The line logged when an assignment is created, if there was none of that
    name. *)
Definition released_line (name : string) (s : Student) : list string :=
  match find (has_name name) (assignmentStatuses s) with
  | Some _ => []
  | None => [released_message (fullName s) name]
  end.

(** A submitted assignment holds no timer handle. *)
Definition unarmed_when_submitted (s : Student) : Prop :=
  ∀ j a, assignmentStatuses s !! j = Some a →
         status a = "submitted" → _workTimeoutId a = None.

(** The call that grades by hand the assignment [a] of Student [this]:
    [this.updateAssignmentStatus(a.assignmentName, g)] with a number [g]. *)
Definition regrades (c : call) (this : nat) (a : Assignment) : Prop :=
  ∃ g, c = call_updateAssignmentStatus this (assignmentName a) (num g).

(** * Properties *)

Open Scope list_scope.

(** ** Numbers and values *)

Lemma typeof_number (v : value) : typeof v = "number" ↔ ∃ g, v = num g.
Proof.
  split.
  - destruct v; simpl; intros H; try discriminate H. eauto.
  - intros [g ->]. reflexivity.
Qed.

Lemma SFcompare_antisym (a b : number) :
  SFcompare b a = CompOpp <$> SFcompare a b.
Proof.
  destruct a as [sa|sa| |sa ma ea], b as [sb|sb| |sb mb eb]; simpl;
    try reflexivity; try (destruct sa; reflexivity); try (destruct sb; reflexivity);
    try (destruct sa, sb; reflexivity).
  change (Pos.compare_cont Eq ma mb) with (ma ?= mb)%positive.
  change (Pos.compare_cont Eq mb ma) with (mb ?= ma)%positive.
  rewrite (Z.compare_antisym ea eb), (Pos.compare_antisym ma mb).
  destruct sa, sb; try reflexivity; f_equal;
    destruct (ea ?= eb)%Z; simpl; try reflexivity;
    destruct (ma ?= mb)%positive; reflexivity.
Qed.

Lemma SFcompare_None (a b : number) : SFcompare a b = None → a = NaN ∨ b = NaN.
Proof.
  destruct a as [sa|sa| |sa ma ea], b as [sb|sb| |sb mb eb]; simpl; intros H;
    try discriminate H; auto.
Qed.

(** On every number but [NaN], [<=] is the negation of [>]. *)
Lemma le_not_gt (a b : number) : a ≠ NaN → b ≠ NaN → le a b = negb (gt a b).
Proof.
  intros Ha Hb. unfold le, gt, SFleb, SFltb. rewrite (SFcompare_antisym a b).
  destruct (SFcompare a b) as [[]|] eqn:Hc; try reflexivity.
  apply SFcompare_None in Hc as [H|H]; contradiction.
Qed.

(** ** Assignment.setGrade *)

Lemma setGrade_status (g : number) (a : Assignment) :
  status (setGrade g a) = if gt g (of_Z 50) then "Pass" else "Fail".
Proof. reflexivity. Qed.

Lemma setGrade_pass (g : number) (a : Assignment) :
  status (setGrade g a) = "Pass" ↔ gt g (of_Z 50) = true.
Proof. rewrite setGrade_status. destruct (gt g (of_Z 50)); split; congruence. Qed.

Lemma setGrade_fail (g : number) (a : Assignment) :
  status (setGrade g a) = "Fail" ↔ gt g (of_Z 50) = false.
Proof. rewrite setGrade_status. destruct (gt g (of_Z 50)); split; congruence. Qed.


Lemma graded_assignments_grades (l : list Assignment) :
  omap _grade (graded_assignments l) = omap _grade l.
Proof.
  unfold graded_assignments. induction l as [|a l IH]; [reflexivity|].
  destruct (_grade a) as [g|] eqn:Hg.
  - rewrite filter_cons_True by (rewrite Hg; eauto). simpl. rewrite Hg.
    f_equal. exact IH.
  - rewrite filter_cons_False by (rewrite Hg; apply is_Some_None). simpl. rewrite Hg.
    exact IH.
Qed.

Lemma graded_assignments_length (l : list Assignment) :
  length (graded_assignments l) = length (omap _grade l).
Proof.
  rewrite <- graded_assignments_grades. unfold graded_assignments.
  induction l as [|a l IH]; [reflexivity|].
  destruct (_grade a) as [g|] eqn:Hg.
  - rewrite filter_cons_True by (rewrite Hg; eauto). simpl. rewrite Hg. simpl.
    f_equal. exact IH.
  - rewrite filter_cons_False by (rewrite Hg; apply is_Some_None). exact IH.
Qed.

Lemma fold_total (l : list Assignment) (acc : number) :
  fold_left (λ sum a, add sum (grade_operand (_grade a))) (graded_assignments l) acc
  = fold_left add (omap _grade l) acc.
Proof.
  unfold graded_assignments. revert acc. induction l as [|a l IH]; intros acc.
  - reflexivity.
  - destruct (_grade a) as [g|] eqn:Hg.
    + rewrite filter_cons_True by (rewrite Hg; eauto). simpl. rewrite Hg. simpl.
      apply IH.
    + rewrite filter_cons_False by (rewrite Hg; apply is_Some_None). simpl. rewrite Hg.
      apply IH.
Qed.

Lemma computed_mean_spec (l : list Assignment) :
  computed_mean l = arithmetic_mean (omap _grade l).
Proof.
  unfold computed_mean, arithmetic_mean, sum.
  rewrite fold_total, graded_assignments_length.
  destruct (omap _grade l); reflexivity.
Qed.

Lemma _recalculateOverallGrade_eq (this : nat) (w : World) (s : Student) :
  heap w !! this = Some s →
  _recalculateOverallGrade this w
  = Normal (computed_mean (assignmentStatuses s),
            with_heap (<[this := with_overallGrade (computed_mean (assignmentStatuses s)) s]>
                         (heap w)) w).
Proof.
  intros Hs. unfold _recalculateOverallGrade, computed_mean, bind, getStudent.
  rewrite Hs. destruct (Nat.eqb _ 0); reflexivity.
Qed.

(** ** Stepping through method bodies *)

Lemma bind_eq {A B} (m : M A) (k : A → M B) w a w' :
  m w = Normal (a, w') → bind m k w = k a w'.
Proof. intros Hm. unfold bind. rewrite Hm. reflexivity. Qed.

Lemma getStudent_eq this w s : heap w !! this = Some s → getStudent this w = Normal (s, w).
Proof. intros H. unfold getStudent. rewrite H. reflexivity. Qed.

Lemma getAssignment_eq this i w s a :
  heap w !! this = Some s → assignmentStatuses s !! i = Some a →
  getAssignment this i w = Normal (a, w).
Proof.
  intros Hs Ha. unfold getAssignment. rewrite (bind_eq _ _ _ _ _ (getStudent_eq _ _ _ Hs)).
  rewrite Ha. reflexivity.
Qed.

Lemma updateAssignment_eq this i f w s a :
  heap w !! this = Some s → assignmentStatuses s !! i = Some a →
  updateAssignment this i f w
  = Normal (tt, store this (with_assignments (<[i := f a]> (assignmentStatuses s)) s) w).
Proof.
  intros Hs Ha. unfold updateAssignment.
  rewrite (bind_eq _ _ _ _ _ (getStudent_eq _ _ _ Hs)). rewrite Ha. reflexivity.
Qed.

Lemma pushAssignment_eq this a w s :
  heap w !! this = Some s →
  pushAssignment this a w
  = Normal (length (assignmentStatuses s),
            store this (with_assignments (assignmentStatuses s ++ [a]) s) w).
Proof.
  intros Hs. unfold pushAssignment.
  rewrite (bind_eq _ _ _ _ _ (getStudent_eq _ _ _ Hs)). reflexivity.
Qed.

Lemma _findAssignment_eq this name w s :
  heap w !! this = Some s →
  _findAssignment this name w
  = Normal (find_index (has_name name) (assignmentStatuses s), w).
Proof.
  intros Hs. unfold _findAssignment.
  rewrite (bind_eq _ _ _ _ _ (getStudent_eq _ _ _ Hs)). reflexivity.
Qed.

Lemma heap_store this s w : this < length (heap w) → heap (store this s w) !! this = Some s.
Proof. intros H. simpl. apply list_lookup_insert_eq, H. Qed.

Lemma find_index_Some {A} (p : A → bool) (l : list A) (i : nat) :
  find_index p l = Some i →
  ∃ a, l !! i = Some a ∧ p a = true ∧ find p l = Some a.
Proof.
  revert i. induction l as [|x l IH]; intros i; simpl; [discriminate|].
  destruct (p x) eqn:Hp.
  - intros [= <-]. exists x. auto.
  - destruct (find_index p l) as [j|]; simpl; [|discriminate].
    intros [= <-]. destruct (IH j eq_refl) as (a & Ha & Hpa & Hf). exists a. auto.
Qed.

Lemma find_index_app_new {A} (p : A → bool) (l : list A) (x : A) :
  find_index p l = None → p x = true → find_index p (l ++ [x]) = Some (length l).
Proof.
  induction l as [|y l IH]; simpl; intros H Hx.
  - rewrite Hx. reflexivity.
  - destruct (p y); [discriminate|].
    destruct (find_index p l); [discriminate|]. rewrite IH; auto.
Qed.

(** ** The observer guard *)

Lemma notify_if_present_unusable o student assignment isReminder w :
  usable o = false → notify_if_present o student assignment isReminder w = Normal (tt, w).
Proof.
  intros H. unfold notify_if_present.
  destruct o as [| |[]|[]]; try reflexivity. discriminate H.
Qed.

Lemma notify_if_present_usable o student assignment isReminder w s a :
  usable o = true →
  heap w !! student = Some s → assignmentStatuses s !! assignment = Some a →
  notify_if_present o student assignment isReminder w
  = Normal (tt, with_console
                  (console w ++ [notify_message (fullName s) (assignmentName a) (status a)
                                                isReminder]) w).
Proof.
  intros H Hs Ha. destruct o as [| |[]|[]]; try discriminate H.
  unfold notify_if_present. simpl. unfold bind at 1. simpl. unfold Observer_notify.
  rewrite (bind_eq _ _ _ _ _ (getStudent_eq _ _ _ Hs)).
  rewrite (bind_eq _ _ _ _ _ (getAssignment_eq _ _ _ _ _ Hs Ha)). reflexivity.
Qed.

Lemma notify_if_present_eq o student assignment isReminder w s a :
  heap w !! student = Some s → assignmentStatuses s !! assignment = Some a →
  notify_if_present o student assignment isReminder w
  = Normal (tt, with_console (console w ++ notification o s a isReminder) w).
Proof.
  intros Hs Ha. unfold notification. destruct (usable o) eqn:Ho.
  - eapply notify_if_present_usable; eauto.
  - rewrite notify_if_present_unusable by exact Ho. rewrite app_nil_r.
    destruct w; reflexivity.
Qed.

Lemma _notifyObserver_eq this assignment isReminder w s a :
  heap w !! this = Some s → assignmentStatuses s !! assignment = Some a →
  _notifyObserver this assignment isReminder w
  = Normal (tt, with_console (console w ++ notification (observer s) s a isReminder) w).
Proof.
  intros Hs Ha. unfold _notifyObserver.
  rewrite (bind_eq _ _ _ _ _ (getStudent_eq _ _ _ Hs)).
  eapply notify_if_present_eq; eauto.
Qed.

(** ** The creation block *)

Lemma find_or_create_found this name w s i :
  heap w !! this = Some s →
  find_index (has_name name) (assignmentStatuses s) = Some i →
  find_or_create this name w = Normal (i, w).
Proof.
  intros Hs Hi. unfold find_or_create.
  rewrite (bind_eq _ _ _ _ _ (_findAssignment_eq _ name _ _ Hs)). rewrite Hi. reflexivity.
Qed.

Lemma find_or_create_new this name w s :
  heap w !! this = Some s →
  find_index (has_name name) (assignmentStatuses s) = None →
  find_or_create this name w
  = Normal (length (assignmentStatuses s), created this name s w).
Proof.
  intros Hs Hi. unfold find_or_create.
  rewrite (bind_eq _ _ _ _ _ (_findAssignment_eq _ name _ _ Hs)). rewrite Hi.
  rewrite (bind_eq _ _ _ _ _ (pushAssignment_eq _ _ _ _ Hs)).
  assert (Hlt : this < length (heap w)) by (eapply lookup_lt_Some; eauto).
  erewrite bind_eq; [reflexivity|].
  rewrite (_notifyObserver_eq _ _ _ _ (created_student name s) (new_Assignment name)).
  - reflexivity.
  - apply heap_store, Hlt.
  - simpl. apply list_lookup_middle. reflexivity.
Qed.

Lemma created_lookup this name w s :
  heap w !! this = Some s →
  heap (created this name s w) !! this = Some (created_student name s).
Proof.
  intros Hs. unfold created. simpl. apply list_lookup_insert_eq.
  eapply lookup_lt_Some; eauto.
Qed.

(** ** Assignment.setGrade: grade, flag and status *)

(** C2 (as amended): for every number [g], [setGrade(g)] records [g], marks the
    assignment graded and sets the status to "Pass" exactly when [g > 50];
    the status is "Fail" exactly when [g <= 50] or [g] is [NaN]; and
    [setGrade(50)] yields "Fail". *)
Theorem setGrade_correct (g : number) (a : Assignment) :
  _grade (setGrade g a) = Some g
  ∧ _graded (setGrade g a) = true
  ∧ (status (setGrade g a) = "Pass" ↔ gt g (of_Z 50) = true)
  ∧ (status (setGrade g a) = "Fail" ↔ le g (of_Z 50) = true ∨ g = NaN)
  ∧ status (setGrade (of_Z 50) a) = "Fail".
Proof.
  split; [reflexivity|]. split; [reflexivity|]. split; [apply setGrade_pass|].
  split; [|reflexivity].
  rewrite setGrade_fail.
  assert (g = NaN ∨ g ≠ NaN) as [->|Hg]
    by (destruct g; first [left; reflexivity | right; discriminate]).
  - simpl. split; auto.
  - rewrite le_not_gt by (auto; discriminate).
    destruct (gt g (of_Z 50)); simpl; split; auto.
    intros [H|H]; [discriminate | contradiction].
Qed.

(** C2 as stated fails at [NaN], which is of type "number": the status
    becomes "Fail" although [NaN <= 50] is false. *)
Lemma setGrade_NaN_not_le :
  status (setGrade NaN (new_Assignment "HW1")) = "Fail"
  ∧ ¬ (status (setGrade NaN (new_Assignment "HW1")) = "Fail" ↔ le NaN (of_Z 50) = true).
Proof.
  split; [reflexivity|]. intros [H _]. specialize (H eq_refl). discriminate H.
Qed.

(** ** submitAssignment on a submitted or graded assignment *)

(** C5: when the named assignment exists with status "submitted", "Pass" or
    "Fail", [submitAssignment(name)] returns normally and leaves the whole
    state as it was: status and grade, the table of timers, the console. *)
Theorem submitAssignment_noop this name w s i a :
  heap w !! this = Some s →
  find_index (has_name name) (assignmentStatuses s) = Some i →
  assignmentStatuses s !! i = Some a →
  status a = "submitted" ∨ status a = "Pass" ∨ status a = "Fail" →
  submitAssignment this name w = Normal (tt, w).
Proof.
  intros Hs Hi Ha Hst. unfold submitAssignment.
  rewrite (bind_eq _ _ _ _ _ (find_or_create_found _ _ _ _ _ Hs Hi)).
  rewrite (bind_eq _ _ _ _ _ (getAssignment_eq _ _ _ _ _ Hs Ha)).
  destruct Hst as [->|[->| ->]]; reflexivity.
Qed.

Lemma submitAssignment_noop_witness :
  submitAssignment 0 "HW1" Ada_submitted = Normal (tt, Ada_submitted).
Proof.
  eapply (submitAssignment_noop 0 "HW1" Ada_submitted _ 0 _).
  - reflexivity.
  - reflexivity.
  - reflexivity.
  - left. reflexivity.
Defined.

(** ** getGrade *)



(** ** updateAssignmentStatus with something that is not a number *)

Lemma updateAssignmentStatus_no_grade this name v w :
  typeof v ≠ "number" →
  updateAssignmentStatus this name v w
  = (let! _ := find_or_create this name in ret tt) w.
Proof.
  intros Hv. destruct v; try reflexivity. exfalso. apply Hv. reflexivity.
Qed.

(** C7: with a [grade] that is not of type "number", [updateAssignmentStatus]
    does what it does with no grade at all ([undefined]); it returns normally;
    when the assignment exists nothing changes (no grading, same status);
    when it does not, the new assignment is pushed in status "released" and
    the released notification is written if the observer can be notified,
    and nothing else changes. *)
Theorem updateAssignmentStatus_non_number this name v w s :
  heap w !! this = Some s →
  typeof v ≠ "number" →
  updateAssignmentStatus this name v w = updateAssignmentStatus this name undefined w
  ∧ updateAssignmentStatus this name v w
    = Normal (tt,
        match find_index (has_name name) (assignmentStatuses s) with
        | Some _ => w
        | None =>
            {| heap := <[this := with_assignments
                                   (assignmentStatuses s ++ [new_Assignment name]) s]> (heap w);
               students := students w;
               class_observer := class_observer w;
               timers := timers w;
               next_timer := next_timer w;
               console := console w ++ (if usable (observer s)
                                        then [released_message (fullName s) name]
                                        else []) |}
        end).
Proof.
  intros Hs Hv. split.
  - rewrite !updateAssignmentStatus_no_grade; [reflexivity | discriminate | exact Hv].
  - rewrite updateAssignmentStatus_no_grade by exact Hv.
    destruct (find_index (has_name name) (assignmentStatuses s)) as [i|] eqn:Hi.
    + rewrite (bind_eq _ _ _ _ _ (find_or_create_found _ _ _ _ _ Hs Hi)). reflexivity.
    + rewrite (bind_eq _ _ _ _ _ (find_or_create_new _ _ _ _ Hs Hi)).
      unfold created, notification. destruct (usable (observer s)); reflexivity.
Qed.

Lemma updateAssignmentStatus_non_number_witness :
  updateAssignmentStatus 0 "HW1" (str "75") Ada_new
  = updateAssignmentStatus 0 "HW1" undefined Ada_new
  ∧ updateAssignmentStatus 0 "HW1" (str "75") Ada_new
    = Normal (tt, {| heap := [with_assignments [new_Assignment "HW1"] Ada];
                     students := []; class_observer := observer_object notify_method;
                     timers := []; next_timer := 1;
                     console := ["Observer → Ada, HW1 has been released."] |}).
Proof.
  apply (updateAssignmentStatus_non_number 0 "HW1" (str "75") Ada_new Ada).
  - reflexivity.
  - discriminate.
Defined.

(** ** Programs *)

Lemma run_reachable program w w' : reachable w → run program w = Some w' → reachable w'.
Proof.
  revert w. induction program as [|c rest IH]; simpl; intros w Hw H.
  - injection H as <-. exact Hw.
  - destruct (well_formed c w) eqn:Hwf; [|discriminate].
    destruct (exec c w) as [[[] w1]|e] eqn:He; [|discriminate].
    apply (IH w1); [|exact H]. apply (reachable_step w c w1 Hw). split; assumption.
Qed.

Lemma two_Bobs_reachable : reachable two_Bobs.
Proof.
  apply (run_reachable two_Bobs_program (new_ClassList (observer_object notify_method)));
    [constructor | reflexivity].
Qed.

(** ** findOutstandingAssignments *)

Lemma collect_names_eq test roster result w :
  Forall (λ r, r < length (heap w)) roster →
  collect_names test roster result w
  = Normal ((result ++ (fullName <$> filter (λ s, test s = true)
                                            (omap (λ r, heap w !! r) roster)))%list, w).
Proof.
  revert result. induction roster as [|r roster IH]; intros result Hv.
  - simpl. rewrite app_nil_r. reflexivity.
  - apply Forall_cons in Hv as [Hr Hv].
    destruct (lookup_lt_is_Some_2 _ _ Hr) as [s Hs].
    cbn [collect_names]. rewrite (bind_eq _ _ _ _ _ (getStudent_eq _ _ _ Hs)).
    rewrite IH by exact Hv. cbn [omap list_omap]. rewrite Hs.
    destruct (test s) eqn:Ht.
    + rewrite filter_cons_True by exact Ht. rewrite fmap_cons, <- app_assoc. reflexivity.
    + rewrite filter_cons_False by (rewrite Ht; discriminate). reflexivity.
Qed.

Lemma findOutstandingAssignments_all w :
  roster_valid w →
  findOutstandingAssignments None w
  = Normal (fullName <$> filter (λ s, hasOutstanding s = true) (roster_students w), w).
Proof.
  intros Hv. unfold findOutstandingAssignments. simpl.
  rewrite collect_names_eq by exact Hv. reflexivity.
Qed.

Lemma hasOutstanding_spec s :
  hasOutstanding s = true ↔ ∃ a, a ∈ assignmentStatuses s ∧ outstanding a.
Proof.
  unfold hasOutstanding, includes, outstanding. rewrite existsb_exists.
  split; intros (a & Ha & H); exists a.
  - split; [apply list_elem_of_In, Ha|].
    apply bool_decide_eq_true_1 in H.
    repeat (apply elem_of_cons in H as [H|H]; auto). inversion H.
  - split; [apply list_elem_of_In, Ha|].
    apply bool_decide_eq_true_2. destruct H as [H|[H|H]]; rewrite H; repeat constructor.
Qed.

Lemma elem_of_roster_students w s :
  s ∈ roster_students w ↔ ∃ r, r ∈ students w ∧ heap w !! r = Some s.
Proof. unfold roster_students. apply list_elem_of_omap. Qed.

(** C8 (as amended): without an argument, [findOutstandingAssignments()]
    returns, in roster order, the full names of the students that have at
    least one assignment in status released, working or final reminder; so a
    name is listed exactly when some student of that name has such an
    assignment, and a student with no assignment contributes no entry. *)
Theorem findOutstandingAssignments_no_filter w :
  roster_valid w →
  ∃ result,
    findOutstandingAssignments None w = Normal (result, w)
    ∧ result = fullName <$> filter (λ s, hasOutstanding s = true) (roster_students w)
    ∧ ∀ n, n ∈ result ↔
           ∃ r s a, r ∈ students w ∧ heap w !! r = Some s ∧ fullName s = n
                    ∧ a ∈ assignmentStatuses s ∧ outstanding a.
Proof.
  intros Hv. eexists. split; [apply findOutstandingAssignments_all, Hv|].
  split; [reflexivity|]. intros n. rewrite list_elem_of_fmap. split.
  - intros (s & -> & Hs). apply list_elem_of_filter in Hs as [Ho Hs].
    apply elem_of_roster_students in Hs as (r & Hr & Hs).
    apply hasOutstanding_spec in Ho as (a & Ha & Ho). exists r, s, a. auto.
  - intros (r & s & a & Hr & Hs & <- & Ha & Ho). exists s. split; [reflexivity|].
    apply list_elem_of_filter. split.
    + apply hasOutstanding_spec. eauto.
    + apply elem_of_roster_students. eauto.
Qed.

Lemma findOutstandingAssignments_no_filter_witness :
  ∃ result,
    findOutstandingAssignments None two_Bobs = Normal (result, two_Bobs)
    ∧ result = ["Bob"]
    ∧ ∀ n, n ∈ result ↔
           ∃ r s a, r ∈ students two_Bobs ∧ heap two_Bobs !! r = Some s ∧ fullName s = n
                    ∧ a ∈ assignmentStatuses s ∧ outstanding a.
Proof.
  apply (findOutstandingAssignments_no_filter two_Bobs).
  repeat constructor.
Defined.

(** C8 as stated fails when two students share a full name: in a reachable
    roster the first Bob has no assignment, and that student's full name is
    listed. *)
Lemma findOutstandingAssignments_lists_namesake :
  reachable two_Bobs
  ∧ ∃ s result,
      0 ∈ students two_Bobs
      ∧ heap two_Bobs !! 0 = Some s
      ∧ assignmentStatuses s = []
      ∧ findOutstandingAssignments None two_Bobs = Normal (result, two_Bobs)
      ∧ fullName s ∈ result.
Proof.
  split; [exact two_Bobs_reachable|].
  eexists _, ["Bob"]. split; [left|].
  split; [reflexivity|]. split; [reflexivity|]. split; [reflexivity|]. left.
Qed.

(** ** Every method is a sequence of elementary changes *)

Lemma bind_inv {A B} (m : M A) (k : A → M B) w b w'' :
  bind m k w = Normal (b, w'') →
  ∃ a w', m w = Normal (a, w') ∧ k a w' = Normal (b, w'').
Proof.
  unfold bind. destruct (m w) as [[a w']|e]; [|discriminate]. eauto.
Qed.

Lemma getStudent_inv r w s w' :
  getStudent r w = Normal (s, w') → w' = w ∧ heap w !! r = Some s.
Proof.
  unfold getStudent. destruct (heap w !! r) as [s0|]; [|discriminate].
  intros [= -> ->]. auto.
Qed.

Lemma getAssignment_inv this i w a w' :
  getAssignment this i w = Normal (a, w') →
  w' = w ∧ ∃ s, heap w !! this = Some s ∧ assignmentStatuses s !! i = Some a.
Proof.
  intros H. apply bind_inv in H as (s & w1 & Hs & H).
  apply getStudent_inv in Hs as [-> Hs].
  destruct (assignmentStatuses s !! i) as [a0|] eqn:Ha; [|discriminate].
  injection H as <- <-. eauto.
Qed.

Lemma updateAssignment_inv this i f w u w' :
  updateAssignment this i f w = Normal (u, w') →
  ∃ s a, heap w !! this = Some s ∧ assignmentStatuses s !! i = Some a
         ∧ w' = put_assignment this i (f a) s w.
Proof.
  intros H. apply bind_inv in H as (s & w1 & Hs & H).
  apply getStudent_inv in Hs as [-> Hs].
  destruct (assignmentStatuses s !! i) as [a|] eqn:Ha; [|discriminate].
  injection H as <-. eauto.
Qed.

Section Respects.
Context (R : relation World) `{!Reflexive R, !Transitive R}.

Lemma respects_ret {A} (a : A) : respects R (ret a).
Proof. intros w a' w' [= _ <-]. reflexivity. Qed.

Lemma respects_throw {A} e : respects R (@throw A e).
Proof. intros w a w' H. discriminate H. Qed.

Lemma respects_bind {A B} (m : M A) (k : A → M B) :
  respects R m → (∀ a, respects R (k a)) → respects R (bind m k).
Proof.
  intros Hm Hk w b w'' H. apply bind_inv in H as (a & w' & H1 & H2).
  transitivity w'; [eapply Hm | eapply Hk]; eassumption.
Qed.

Lemma respects_forEach {A} (l : list A) (f : A → M unit) :
  (∀ x, respects R (f x)) → respects R (forEach l f).
Proof.
  intros Hf. induction l as [|x l IH]; simpl.
  - apply respects_ret.
  - apply respects_bind; auto.
Qed.

Lemma respects_getStudent r : respects R (getStudent r).
Proof. intros w s w' H. apply getStudent_inv in H as [-> _]. reflexivity. Qed.

Lemma respects_getAssignment this i : respects R (getAssignment this i).
Proof. intros w s w' H. apply getAssignment_inv in H as [-> _]. reflexivity. Qed.

Lemma respects__findAssignment this name : respects R (_findAssignment this name).
Proof.
  apply respects_bind; [apply respects_getStudent | intros s; apply respects_ret].
Qed.

Lemma respects_collect_names test roster result :
  respects R (collect_names test roster result).
Proof.
  revert result. induction roster as [|r roster IH]; intros result; simpl.
  - apply respects_ret.
  - apply respects_bind; [apply respects_getStudent | intros s; apply IH].
Qed.

Lemma respects_findOutstandingAssignments name :
  respects R (findOutstandingAssignments name).
Proof.
  intros w a w'. unfold findOutstandingAssignments.
  destruct (name_given name); apply respects_collect_names.
Qed.
End Respects.

Global Instance changes_refl x who : Reflexive (changes x who).
Proof. unfold changes. apply _. Qed.

Global Instance changes_trans x who : Transitive (changes x who).
Proof. unfold changes. apply _. Qed.

Section Changes.
Context (x : bool) (who : nat → Prop).

Local Abbreviation ok := (respects (changes x who)).

Lemma ok_ret {A} (a : A) : ok (ret a).
Proof. apply respects_ret. apply _. Qed.

Lemma ok_bind {A B} (m : M A) (k : A → M B) : ok m → (∀ a, ok (k a)) → ok (bind m k).
Proof. apply respects_bind. apply _. Qed.

Lemma ok_forEach {A} (l : list A) (f : A → M unit) :
  (∀ a, ok (f a)) → ok (forEach l f).
Proof. apply respects_forEach; apply _. Qed.

Lemma ok_getStudent r : ok (getStudent r).
Proof. apply respects_getStudent. apply _. Qed.

Lemma ok_getAssignment this i : ok (getAssignment this i).
Proof. apply respects_getAssignment. apply _. Qed.

Lemma ok__findAssignment this name : ok (_findAssignment this name).
Proof. apply respects__findAssignment; apply _. Qed.

Lemma ok_once {A} (m : M A) :
  (∀ w a w', m w = Normal (a, w') → change x who w w') → ok m.
Proof. intros H w a w' Hm. apply rtc_once. eauto. Qed.

Lemma ok_console_log msg : ok (console_log msg).
Proof. apply ok_once. intros w a w' [= _ <-]. apply (change_console x who w [msg]). Qed.

Lemma ok_Observer_notify student assignment isReminder :
  ok (Observer_notify student assignment isReminder).
Proof.
  unfold Observer_notify.
  apply ok_bind; [apply ok_getStudent | intros s].
  apply ok_bind; [apply ok_getAssignment | intros a].
  apply ok_console_log.
Qed.

Lemma ok_notify_if_present o student assignment isReminder :
  ok (notify_if_present o student assignment isReminder).
Proof.
  unfold notify_if_present. destruct (truthy o); [|apply ok_ret].
  apply ok_bind; [|intros p].
  - destruct o; simpl; try apply respects_throw; apply ok_ret.
  - destruct (is_function p); [apply ok_Observer_notify | apply ok_ret].
Qed.

Lemma ok__notifyObserver this assignment isReminder :
  ok (_notifyObserver this assignment isReminder).
Proof.
  unfold _notifyObserver.
  apply ok_bind; [apply ok_getStudent | intros s].
  apply ok_notify_if_present.
Qed.

Lemma ok_pushAssignment this name :
  who this → ok (pushAssignment this (new_Assignment name)).
Proof.
  intros Hwho. apply ok_once. intros w a w' H. apply bind_inv in H as (s & w1 & Hs & H).
  apply getStudent_inv in Hs as [-> Hs]. injection H as _ <-.
  apply change_push; assumption.
Qed.

Lemma ok_set_status this i st :
  who this →
  st = "working" ∨ st = "submitted" ∨ st = "final reminder" →
  ok (updateAssignment this i (set_status st)).
Proof.
  intros Hwho Hst. apply ok_once. intros w a w' H.
  apply updateAssignment_inv in H as (s & a0 & Hs & Ha & ->).
  eapply change_status; eauto.
Qed.

Lemma ok_setGrade this i g :
  who this → x = true → ok (updateAssignment this i (setGrade g)).
Proof.
  intros Hwho Hx. apply ok_once. intros w a w' H.
  apply updateAssignment_inv in H as (s & a0 & Hs & Ha & ->).
  eapply change_grade; eauto.
Qed.

Lemma ok__recalculateOverallGrade this : who this → ok (_recalculateOverallGrade this).
Proof.
  intros Hwho. apply ok_once. intros w a w' H. destruct (heap w !! this) as [s|] eqn:Hs.
  - rewrite (_recalculateOverallGrade_eq _ _ _ Hs) in H. injection H as _ <-.
    eapply change_fields; eauto.
  - unfold _recalculateOverallGrade, bind, getStudent in H. rewrite Hs in H.
    discriminate H.
Qed.

Lemma ok_setFullName this name : who this → ok (setFullName this name).
Proof.
  intros Hwho. apply ok_once. intros w a w' H. apply bind_inv in H as (s & w1 & Hs & H).
  apply getStudent_inv in Hs as [-> Hs]. injection H as _ <-.
  eapply change_fields; eauto.
Qed.

Lemma ok_setEmail this email : who this → ok (setEmail this email).
Proof.
  intros Hwho. apply ok_once. intros w a w' H. apply bind_inv in H as (s & w1 & Hs & H).
  apply getStudent_inv in Hs as [-> Hs]. injection H as _ <-.
  eapply change_fields; eauto.
Qed.

Lemma ok_setTimeout cb delay :
  (∀ this i name, cb ≠ auto_submit this i name) → ok (setTimeout cb delay).
Proof.
  intros Hcb. apply ok_once. intros w a w' [= _ <-]. apply change_schedule, Hcb.
Qed.

Lemma ok_clearTimeout id : ok (clearTimeout id).
Proof. apply ok_once. intros w a w' [= _ <-]. apply change_unschedule. Qed.

Lemma ok_find_or_create this name : who this → ok (find_or_create this name).
Proof.
  intros Hwho. unfold find_or_create.
  apply ok_bind; [apply ok__findAssignment | intros [i|]].
  - apply ok_ret.
  - apply ok_bind; [apply ok_pushAssignment, Hwho | intros i].
    apply ok_bind; [apply ok__notifyObserver | intros _].
    apply ok_ret.
Qed.

(** The three statements that re-arm the auto-submit timer are one change. *)
Lemma ok_rearm this i name delay :
  who this →
  ok (clear_work_timer this i ;;
      let! id := setTimeout (auto_submit this i name) delay in
      updateAssignment this i (set_workTimeoutId (Some id))).
Proof.
  intros Hwho. apply ok_once. intros w u w' H.
  apply bind_inv in H as (u1 & w1 & H1 & H).
  apply bind_inv in H1 as (a & w0 & Ha & H1).
  apply getAssignment_inv in Ha as [-> (s & Hs & Ha)].
  apply bind_inv in H as (id & w2 & H2 & H).
  injection H2 as <- <-.
  pose proof (change_schedule_submit x who w this s i a name delay Hwho Hs Ha) as C.
  destruct (_workTimeoutId a) as [old|] eqn:Hold; injection H1 as _ <-.
  - rewrite (updateAssignment_eq this i _ _ s a) in H; [|exact Hs|exact Ha].
    injection H as H. subst w'. exact C.
  - rewrite (updateAssignment_eq this i _ _ s a) in H; [|exact Hs|exact Ha].
    injection H as H. subst w'. exact C.
Qed.

Lemma ok_cancel_work_timer this i : who this → ok (cancel_work_timer this i).
Proof.
  intros Hwho w u w' H.
  apply bind_inv in H as (a & w0 & Ha & H).
  apply getAssignment_inv in Ha as [-> (s & Hs & Ha)].
  destruct (_workTimeoutId a) as [id|] eqn:Hid.
  - apply rtc_once. apply bind_inv in H as (u1 & w1 & H1 & H).
    injection H1 as _ <-.
    rewrite (updateAssignment_eq this i _ _ s a) in H; [|exact Hs|exact Ha].
    injection H as H. subst w'. eapply change_cancel; eauto.
  - injection H as H. subst w'. reflexivity.
Qed.

Lemma ok_startWorking this name : who this → ok (startWorking this name).
Proof.
  intros Hwho. unfold startWorking.
  apply ok_bind; [apply ok_find_or_create, Hwho | intros i].
  apply ok_bind; [apply ok_set_status; auto | intros _].
  apply ok_bind; [apply ok__notifyObserver | intros _].
  apply ok_rearm, Hwho.
Qed.

Lemma ok_submitAssignment this name : who this → ok (submitAssignment this name).
Proof.
  intros Hwho. unfold submitAssignment.
  apply ok_bind; [apply ok_find_or_create, Hwho | intros i].
  apply ok_bind; [apply ok_getAssignment | intros a].
  destruct (is_done (status a)); [apply ok_ret|].
  apply ok_bind; [apply ok_cancel_work_timer, Hwho | intros _].
  apply ok_bind; [apply ok_set_status; auto | intros _].
  apply ok_bind; [apply ok__notifyObserver | intros _].
  apply ok_bind; [apply ok_setTimeout; discriminate | intros _].
  apply ok_ret.
Qed.

Lemma ok_updateAssignmentStatus this name v :
  who this → x = true ∨ typeof v ≠ "number" → ok (updateAssignmentStatus this name v).
Proof.
  intros Hwho Hv. unfold updateAssignmentStatus.
  apply ok_bind; [apply ok_find_or_create, Hwho | intros i].
  destruct v; try apply ok_ret.
  destruct Hv as [Hx|Hv]; [|exfalso; apply Hv; reflexivity].
  apply ok_bind; [apply ok_setGrade; assumption | intros _].
  apply ok_bind; [apply ok__notifyObserver | intros _].
  apply ok_bind; [apply ok__recalculateOverallGrade, Hwho | intros _].
  apply ok_ret.
Qed.

Lemma ok_run_auto_grade this i random_grade :
  who this → ok (run_auto_grade this i random_grade).
Proof.
  intros Hwho w u w' H.
  apply bind_inv in H as (a & w0 & Ha & H).
  apply getAssignment_inv in Ha as [-> (s & Hs & Ha)].
  destruct (_graded a) eqn:Hg.
  - injection H as H. subst w'. reflexivity.
  - apply bind_inv in H as (u1 & w1 & H1 & H).
    rewrite (updateAssignment_eq this i _ _ s a) in H1; [|exact Hs|exact Ha].
    injection H1 as H1. subst w1.
    eapply rtc_l; [eapply change_grade; eauto|].
    assert (Hrest : ok (_notifyObserver this i false ;;
                        _recalculateOverallGrade this ;; ret tt)).
    { apply ok_bind; [apply ok__notifyObserver | intros _].
      apply ok_bind; [apply ok__recalculateOverallGrade, Hwho | intros _].
      apply ok_ret. }
    eapply Hrest. exact H.
Qed.

Lemma ok_run_auto_submit this i name : who this → ok (run_auto_submit this i name).
Proof.
  intros Hwho. unfold run_auto_submit.
  apply ok_bind; [apply ok_getAssignment | intros a].
  destruct (is_unsubmitted (status a)); [apply ok_submitAssignment, Hwho | apply ok_ret].
Qed.

Lemma ok_remind o outstanding name student :
  who student → ok (remind o outstanding name student).
Proof.
  intros Hwho. unfold remind.
  apply ok_bind; [apply ok_getStudent | intros s].
  destruct (negb _); [apply ok_ret|].
  apply ok_bind; [apply ok__findAssignment | intros found].
  apply ok_bind; [|intros i].
  - destruct found as [i|]; [apply ok_ret|].
    apply ok_bind; [apply ok_updateAssignmentStatus; [exact Hwho | right; discriminate]
                   | intros _].
    apply ok_bind; [apply ok__findAssignment | intros again].
    destruct again; [apply ok_ret | apply respects_throw].
  - apply ok_bind; [apply ok_set_status; auto | intros _].
    apply ok_bind; [apply ok_notify_if_present | intros _].
    apply ok_bind; [apply ok_cancel_work_timer, Hwho | intros _].
    apply ok_submitAssignment, Hwho.
Qed.

Lemma ok_sendReminder name : (∀ r, who r) → ok (sendReminder name).
Proof.
  intros Hwho. unfold sendReminder.
  apply ok_bind; [apply respects_findOutstandingAssignments; apply _ | intros outstanding].
  intros w u w'. apply ok_forEach. intros student. apply ok_remind, Hwho.
Qed.

Lemma ok_releaseAssignmentsParallel names : ok (releaseAssignmentsParallel names).
Proof.
  intros w u w'. unfold releaseAssignmentsParallel. generalize (students w) as roster.
  intros roster. revert w u w'.
  apply ok_forEach. intros name.
  apply ok_forEach. intros student.
  apply ok_bind; [apply ok_setTimeout; discriminate | intros _].
  apply ok_ret.
Qed.

Lemma ok_addStudent student : ok (addStudent student).
Proof.
  intros w u w'. unfold addStudent.
  destruct (includes (students w) student) eqn:Hin.
  - intros H. injection H as H. subst w'. reflexivity.
  - intros H. apply bind_inv in H as (s & w0 & Hs & H).
    apply getStudent_inv in Hs as [-> Hs].
    apply bind_inv in H as (u1 & w1 & H1 & H). injection H1 as H1. subst w1.
    eapply rtc_l; [|eapply ok_console_log; exact H].
    apply change_roster.
    + intros Hv. apply Forall_app. split; [exact Hv|].
      apply Forall_singleton. eapply lookup_lt_Some, Hs.
    + intros Hnd. apply NoDup_app. split; [exact Hnd|]. split; [|apply NoDup_singleton].
      intros r Hr Hr'. apply list_elem_of_singleton in Hr'. subst r.
      unfold includes in Hin. apply bool_decide_eq_false_1 in Hin. contradiction.
Qed.

Lemma ok_removeStudent studentOrName : ok (removeStudent studentOrName).
Proof.
  unfold removeStudent. apply ok_bind; [|intros name].
  - destruct studentOrName as [student|name]; [|apply ok_ret].
    apply ok_bind; [apply ok_getStudent | intros s; apply ok_ret].
  - apply ok_once. intros w u w' H. injection H as H. subst w'.
    apply change_roster.
    + intros Hv. apply Forall_forall. intros r Hr.
      apply list_elem_of_filter in Hr as [_ Hr].
      exact (proj1 (Forall_forall _ _) Hv r Hr).
    + intros Hnd. apply NoDup_filter, Hnd.
Qed.

Lemma ok_findStudentByName name : ok (findStudentByName name).
Proof. intros w a w' H. injection H as _ H. subst w'. reflexivity. Qed.

Lemma ok_alloc_Student fullName email o :
  (∀ r, who r) → ok (alloc_Student fullName email o).
Proof.
  intros Hwho. apply ok_once. intros w a w' H. injection H as _ H. subst w'.
  apply change_alloc; [apply Hwho | reflexivity].
Qed.

Lemma ok_getAssignmentStatus this name : ok (getAssignmentStatus this name).
Proof.
  unfold getAssignmentStatus.
  apply ok_bind; [apply ok__findAssignment | intros [i|]]; [|apply ok_ret].
  apply ok_bind; [apply ok_getAssignment | intros a; apply ok_ret].
Qed.

Lemma ok_discard {A} (m : M A) : ok m → ok (discard m).
Proof. intros H. apply ok_bind; [exact H | intros _; apply ok_ret]. Qed.

Lemma ok_run_callback cb random_grade :
  (∀ r, who r) → ok (run_callback cb random_grade).
Proof.
  intros Hwho. destruct cb as [this i name|this i|student name]; simpl.
  - apply ok_run_auto_submit, Hwho.
  - apply ok_run_auto_grade, Hwho.
  - apply ok_updateAssignmentStatus; [apply Hwho | right; discriminate].
Qed.

Lemma ok_fire id random_grade : (∀ r, who r) → ok (fire id random_grade).
Proof.
  intros Hwho w u w'. unfold fire. destruct (find _ (timers w)) as [t|].
  - apply ok_bind; [apply ok_clearTimeout | intros _].
    apply ok_run_callback, Hwho.
  - intros H. injection H as H. subst w'. reflexivity.
Qed.
End Changes.

Lemma change_mono x who who' w w' :
  (∀ r, who r → who' r) → change false who w w' → change x who' w w'.
Proof.
  intros Hw H. destruct H; try (econstructor; eauto; fail).
  eapply change_grade; eauto.
  match goal with H : _ ∨ _ |- _ => destruct H as [H|H]; [discriminate H | auto] end.
Qed.

Lemma changes_mono x who who' w w' :
  (∀ r, who r → who' r) → changes false who w w' → changes x who' w w'.
Proof.
  intros Hw. induction 1 as [|w1 w2 w3 H _ IH]; [reflexivity|].
  eapply rtc_l; [eapply change_mono; eauto | exact IH].
Qed.

(** Every call is a sequence of elementary changes; a grade is set
    explicitly only by a call that supplies one. *)
Lemma exec_changes c : respects (changes (supplies_grade c) anyone) (exec c).
Proof.
  assert (Hany : ∀ r, anyone r) by (intros r; exact I).
  destruct c; simpl exec.
  - apply ok_discard, ok_alloc_Student, Hany.
  - apply ok_setFullName, Hany.
  - apply ok_setEmail, Hany.
  - apply ok_updateAssignmentStatus; [apply Hany|].
    destruct grade; simpl; auto; right; discriminate.
  - apply ok_discard, ok_getAssignmentStatus.
  - apply ok_startWorking, Hany.
  - apply ok_submitAssignment, Hany.
  - apply ok_discard. unfold getGrade. apply ok__recalculateOverallGrade, Hany.
  - apply ok_addStudent.
  - apply ok_removeStudent.
  - apply ok_discard, ok_findStudentByName.
  - apply ok_discard. apply respects_findOutstandingAssignments; apply _.
  - apply ok_releaseAssignmentsParallel.
  - apply ok_sendReminder, Hany.
  - apply ok_fire, Hany.
Qed.

Lemma step_changes w c w' : step w c w' → changes (supplies_grade c) anyone w w'.
Proof. intros [_ H]. eapply exec_changes, H. Qed.

(** ** What an elementary change does to the assignments *)

Lemma assignment_at_store this s s' w r j :
  heap w !! this = Some s →
  assignment_at (store this s' w) r j
  = if decide (r = this) then assignmentStatuses s' !! j else assignment_at w r j.
Proof.
  intros Hs. unfold assignment_at. simpl. destruct (decide (r = this)) as [->|Hne].
  - rewrite list_lookup_insert_eq by (eapply lookup_lt_Some; eauto). reflexivity.
  - rewrite list_lookup_insert_ne by auto. reflexivity.
Qed.

Lemma assignment_at_put this i a a' s w r j :
  heap w !! this = Some s → assignmentStatuses s !! i = Some a →
  assignment_at (put_assignment this i a' s w) r j
  = if decide (r = this ∧ j = i) then Some a' else assignment_at w r j.
Proof.
  intros Hs Ha. unfold put_assignment. rewrite (assignment_at_store _ s) by exact Hs.
  destruct (decide (r = this)) as [->|Hne].
  - simpl. destruct (decide (j = i)) as [->|Hj].
    + rewrite decide_True by auto.
      apply list_lookup_insert_eq. eapply lookup_lt_Some; eauto.
    + rewrite decide_False by tauto. rewrite list_lookup_insert_ne by auto.
      unfold assignment_at. rewrite Hs. reflexivity.
  - rewrite decide_False by tauto. reflexivity.
Qed.

Lemma assignment_at_change x who w w' r j :
  change x who w w' →
  match assignment_at w r j with
  | Some a => assignment_at w' r j = Some a
              ∨ ∃ a', edit x a a' ∧ assignment_at w' r j = Some a'
  | None => assignment_at w' r j = None
            ∨ ∃ name, assignment_at w' r j = Some (new_Assignment name)
  end.
Proof.
  set (G := λ w1 : World,
         match assignment_at w r j with
         | Some a => assignment_at w1 r j = Some a
                     ∨ ∃ a2, edit x a a2 ∧ assignment_at w1 r j = Some a2
         | None => assignment_at w1 r j = None
                   ∨ ∃ name, assignment_at w1 r j = Some (new_Assignment name)
         end).
  change (change x who w w' → G w').
  assert (Hsame : G w) by (unfold G; destruct (assignment_at w r j); auto).
  assert (Hput : ∀ this s i a a1 w0,
             heap w !! this = Some s → assignmentStatuses s !! i = Some a →
             heap w0 = heap w → edit x a a1 →
             G (put_assignment this i a1 s w0)).
  { intros this s i a a1 w0 Hs Ha Hw0 He. unfold G.
    rewrite (assignment_at_put this i a a1 s w0) by (rewrite ?Hw0; assumption).
    assert (Hat : assignment_at w0 r j = assignment_at w r j)
      by (unfold assignment_at; rewrite Hw0; reflexivity).
    rewrite Hat. destruct (decide (r = this ∧ j = i)) as [[-> ->]|Hne].
    - unfold assignment_at at 1. rewrite Hs. simpl. rewrite Ha. eauto.
    - destruct (assignment_at w r j); auto. }
  intros H. destruct H as [c|rs Hr Hnd|s _ Hs|this s s' _ Hs Hl|this s name _ Hs
                           |this s i a st _ Hs Ha Hst|this s i a g _ Hs Ha Hg
                           |this s i a name delay _ Hs Ha|this s i a id _ Hs Ha Hid
                           |cb delay Hcb|id]; try exact Hsame.
  - (* a new student *)
    unfold G, assignment_at in *. simpl. destruct (heap w !! r) as [s0|] eqn:Hr.
    + rewrite (lookup_app_l_Some _ _ _ _ Hr). exact Hsame.
    + simpl. destruct (decide (r = length (heap w))) as [->|Hne].
      * rewrite list_lookup_middle by reflexivity. simpl. rewrite Hs. left. apply lookup_nil.
      * left. rewrite lookup_ge_None_2; [reflexivity|].
        rewrite length_app. simpl. apply lookup_ge_None_1 in Hr. lia.
  - (* other fields of a student *)
    unfold G. rewrite (assignment_at_store _ s) by exact Hs.
    destruct (decide (r = this)) as [->|Hne]; [|exact Hsame].
    rewrite Hl. unfold G, assignment_at in *. rewrite Hs in *. exact Hsame.
  - (* push *)
    unfold G. rewrite (assignment_at_store _ s) by exact Hs.
    destruct (decide (r = this)) as [->|Hne]; [|exact Hsame].
    unfold G, assignment_at in *. rewrite Hs in *. simpl in *.
    destruct (assignmentStatuses s !! j) as [a|] eqn:Hj.
    + left. apply lookup_app_l_Some, Hj.
    + destruct (decide (j = length (assignmentStatuses s))) as [->|Hne].
      * right. exists name. apply list_lookup_middle. reflexivity.
      * left. apply lookup_ge_None_2. rewrite length_app. simpl.
        apply lookup_ge_None_1 in Hj. lia.
  - eapply Hput; eauto. constructor. exact Hst.
  - eapply Hput; eauto. constructor. exact Hg.
  - eapply Hput; eauto. constructor.
  - eapply Hput; eauto. constructor.
Qed.

Lemma change_all_assignments (P : Assignment → Prop) x who w w' :
  (∀ name, P (new_Assignment name)) →
  (∀ a a', P a → edit x a a' → P a') →
  change x who w w' → all_assignments P w → all_assignments P w'.
Proof.
  intros Hnew Hedit Hc HP r j a' Ha'.
  pose proof (assignment_at_change x who w w' r j Hc) as H.
  destruct (assignment_at w r j) as [a|] eqn:Ha.
  - destruct H as [H|(a2 & He & H)]; rewrite H in Ha'; injection Ha' as <-.
    + eapply HP, Ha.
    + eapply Hedit; [eapply HP, Ha | exact He].
  - destruct H as [H|(name & H)]; rewrite H in Ha'; [discriminate|].
    injection Ha' as <-. apply Hnew.
Qed.

Lemma changes_all_assignments (P : Assignment → Prop) x who w w' :
  (∀ name, P (new_Assignment name)) →
  (∀ a a', P a → edit x a a' → P a') →
  changes x who w w' → all_assignments P w → all_assignments P w'.
Proof.
  intros Hnew Hedit. induction 1 as [|w1 w2 w3 H _ IH]; [auto|].
  intros HP. apply IH. eapply change_all_assignments; eauto.
Qed.

Lemma all_assignments_new P o : all_assignments P (new_ClassList o).
Proof. intros r j a H. unfold assignment_at in H. simpl in H. discriminate H. Qed.

Lemma reachable_all_assignments (P : Assignment → Prop) w :
  (∀ name, P (new_Assignment name)) →
  (∀ a a', P a → edit true a a' → P a') →
  reachable w → all_assignments P w.
Proof.
  intros Hnew Hedit. induction 1 as [o|w c w' _ IH Hstep].
  - apply all_assignments_new.
  - eapply (changes_all_assignments P true anyone); eauto.
    apply step_changes in Hstep. destruct (supplies_grade c); [exact Hstep|].
    eapply changes_mono; [|exact Hstep]. auto.
Qed.

(** ** Grade, flag and status *)

Lemma grade_consistent_new name : grade_consistent (new_Assignment name).
Proof.
  split; simpl.
  - split; [intros [g Hg]; discriminate | discriminate].
  - intros [H|H]; discriminate.
Qed.

Lemma grade_consistent_edit x a a' : grade_consistent a → edit x a a' → grade_consistent a'.
Proof.
  intros [H1 H2] He. destruct He as [st Hst|g Hg|t].
  - split; [exact H1|]. simpl.
    intros [H|H]; rewrite H in Hst; destruct Hst as [?|[?|?]]; discriminate.
  - split; simpl.
    + split; eauto.
    + intros _. exists g. split; [reflexivity|]. apply (setGrade_pass g a).
  - split; [exact H1 | exact H2].
Qed.

Lemma Ada_passed_reachable : reachable Ada_passed.
Proof.
  apply (run_reachable grade_program (new_ClassList observer_null));
    [constructor | reflexivity].
Qed.

Lemma Ada_reworking_reachable : reachable Ada_reworking.
Proof.
  apply (run_reachable rework_program (new_ClassList observer_null));
    [constructor | reflexivity].
Qed.

Lemma Ada_two_timers_reachable : reachable Ada_two_timers.
Proof.
  apply (run_reachable submit_work_program (new_ClassList observer_null));
    [constructor | reflexivity].
Qed.

Lemma assignment_at_elem w this s a :
  heap w !! this = Some s → a ∈ assignmentStatuses s →
  ∃ i, assignment_at w this i = Some a.
Proof.
  intros Hs Ha. apply list_elem_of_lookup in Ha as [i Hi]. exists i.
  unfold assignment_at. rewrite Hs. exact Hi.
Qed.

(** C1 (as amended): in every reachable state and for every assignment, the
    grade is present if and only if the assignment has been graded
    ([_graded]); and when the status is "Pass" or "Fail" the grade is present
    and the status is "Pass" exactly when the grade is greater than 50. *)
Theorem grade_status_invariant w this s a :
  reachable w →
  heap w !! this = Some s →
  a ∈ assignmentStatuses s →
  (is_Some (_grade a) ↔ _graded a = true)
  ∧ (status a = "Pass" ∨ status a = "Fail" →
     ∃ g, _grade a = Some g ∧ (status a = "Pass" ↔ gt g (of_Z 50) = true)).
Proof.
  intros Hw Hs Ha. destruct (assignment_at_elem w this s a Hs Ha) as [i Hi].
  eapply (reachable_all_assignments grade_consistent w); eauto.
  - apply grade_consistent_new.
  - intros a1 a2. apply grade_consistent_edit.
Qed.

Lemma grade_status_invariant_witness :
  (is_Some (_grade (setGrade (of_Z 75) (new_Assignment "HW1")))
   ↔ _graded (setGrade (of_Z 75) (new_Assignment "HW1")) = true)
  ∧ (status (setGrade (of_Z 75) (new_Assignment "HW1")) = "Pass"
     ∨ status (setGrade (of_Z 75) (new_Assignment "HW1")) = "Fail" →
     ∃ g, _grade (setGrade (of_Z 75) (new_Assignment "HW1")) = Some g
          ∧ (status (setGrade (of_Z 75) (new_Assignment "HW1")) = "Pass"
             ↔ gt g (of_Z 50) = true)).
Proof.
  eapply (grade_status_invariant Ada_passed 0 _ _ Ada_passed_reachable).
  - reflexivity.
  - left.
Defined.

(** C1 as stated fails: after [updateAssignmentStatus("HW1", 75)] and
    [startWorking("HW1")] the grade 75 is present, it is greater than 50, and
    the status is "working", neither "Pass" nor "Fail". *)
Lemma grade_without_pass_or_fail :
  reachable Ada_reworking
  ∧ ∃ s a, heap Ada_reworking !! 0 = Some s
           ∧ a ∈ assignmentStatuses s
           ∧ _grade a = Some (of_Z 75)
           ∧ gt (of_Z 75) (of_Z 50) = true
           ∧ status a = "working"
           ∧ ¬ (is_Some (_grade a) ↔ status a = "Pass" ∨ status a = "Fail")
           ∧ ¬ (status a = "Pass" ↔ gt (of_Z 75) (of_Z 50) = true).
Proof.
  split; [exact Ada_reworking_reachable|].
  eexists _, _. split; [reflexivity|]. split; [left|].
  split; [reflexivity|]. split; [reflexivity|]. split; [reflexivity|]. split.
  - intros [H _]. destruct H as [H|H]; [eexists; reflexivity | discriminate | discriminate].
  - intros [_ H]. discriminate (H eq_refl).
Qed.

(** ** Graded assignments stay graded *)

Lemma graded_kept_refl b w : graded_kept b w w.
Proof. intros r j a Ha Hg. exists a. auto. Qed.

Lemma graded_kept_trans b w1 w2 w3 :
  graded_kept b w1 w2 → graded_kept b w2 w3 → graded_kept b w1 w3.
Proof.
  intros H12 H23 r j a Ha Hg.
  destruct (H12 r j a Ha Hg) as (a2 & Ha2 & Hg2 & He2).
  destruct (H23 r j a2 Ha2 Hg2) as (a3 & Ha3 & Hg3 & He3).
  exists a3. split; [exact Ha3|]. split; [exact Hg3|].
  intros Hb. rewrite (He3 Hb). exact (He2 Hb).
Qed.

Lemma change_graded_kept x who w w' : change x who w w' → graded_kept (negb x) w w'.
Proof.
  intros Hc r j a Ha Hg.
  pose proof (assignment_at_change x who w w' r j Hc) as H. rewrite Ha in H.
  destruct H as [H|(a' & He & H)]; [exists a; auto|].
  exists a'. split; [exact H|]. destruct He as [st Hst|g Hx|t]; simpl; auto.
  split; [reflexivity|]. intros Hb. destruct Hx as [->|Hx]; [discriminate Hb|].
  rewrite Hx in Hg. discriminate Hg.
Qed.

Lemma changes_graded_kept x who w w' : changes x who w w' → graded_kept (negb x) w w'.
Proof.
  induction 1 as [|w1 w2 w3 H _ IH]; [apply graded_kept_refl|].
  eapply graded_kept_trans; [eapply change_graded_kept, H | exact IH].
Qed.

Lemma run_auto_grade_graded this i random_grade w a :
  assignment_at w this i = Some a → _graded a = true →
  run_auto_grade this i random_grade w = Normal (tt, w).
Proof.
  unfold assignment_at. intros Ha Hg.
  destruct (heap w !! this) as [s|] eqn:Hs; [|discriminate]. simpl in Ha.
  unfold run_auto_grade. rewrite (bind_eq _ _ _ _ _ (getAssignment_eq _ _ _ _ _ Hs Ha)).
  rewrite Hg. reflexivity.
Qed.

(** C3 as stated fails: [updateAssignmentStatus("HW1", 30)] on an assignment
    already graded 75 ("Pass") grades it again: the grade becomes 30 and the
    status "Fail". *)
Lemma graded_twice :
  reachable Ada_passed
  ∧ step Ada_passed (call_updateAssignmentStatus 0 "HW1" (num (of_Z 30))) Ada_failed
  ∧ ∃ a a', assignment_at Ada_passed 0 0 = Some a
            ∧ _graded a = true ∧ _grade a = Some (of_Z 75) ∧ status a = "Pass"
            ∧ assignment_at Ada_failed 0 0 = Some a'
            ∧ _grade a' = Some (of_Z 30) ∧ status a' = "Fail"
            ∧ _grade a' ≠ _grade a.
Proof.
  split; [exact Ada_passed_reachable|]. split; [split; reflexivity|].
  eexists _, _. repeat (split; [reflexivity|]). discriminate.
Qed.

(** ** Timers and handles *)

Lemma NoDup_fmap_inj {A B} (f : A → B) (l : list A) (x y : A) :
  NoDup (f <$> l) → x ∈ l → y ∈ l → f x = f y → x = y.
Proof.
  induction l as [|z l IH]; simpl; intros Hnd Hx Hy Hf.
  - inversion Hx.
  - apply NoDup_cons in Hnd as [Hz Hnd].
    apply elem_of_cons in Hx as [->|Hx]; apply elem_of_cons in Hy as [->|Hy]; auto.
    + exfalso. apply Hz. rewrite Hf. apply list_elem_of_fmap. eauto.
    + exfalso. apply Hz. rewrite <- Hf. apply list_elem_of_fmap. eauto.
Qed.

Lemma without_sub id ts t : t ∈ without id ts → t ∈ ts ∧ timer_id t ≠ id.
Proof. unfold without. rewrite list_elem_of_filter. tauto. Qed.

Lemma NoDup_without id ts : NoDup (timer_id <$> ts) → NoDup (timer_id <$> without id ts).
Proof.
  intros H. eapply sublist_NoDup; [exact H|]. apply fmap_sublist, sublist_filter.
Qed.

(** Adding a timer with the next free id. *)
Lemma timers_fresh (ts ts' : list timer) (next : positive) cb delay :
  NoDup (timer_id <$> ts) →
  (∀ t, t ∈ ts → (timer_id t < next)%positive) →
  (∀ t, t ∈ ts' → t ∈ ts) → NoDup (timer_id <$> ts') →
  NoDup (timer_id <$> (ts' ++ [mkTimer next cb delay]))
  ∧ ∀ t, t ∈ ts' ++ [mkTimer next cb delay] → (timer_id t < Pos.succ next)%positive.
Proof.
  intros Hnd Hlt Hsub Hnd'. split.
  - rewrite fmap_app. apply NoDup_app. split; [exact Hnd'|]. split.
    + intros id Hin Hid. apply list_elem_of_fmap in Hin as (t & -> & Ht).
      simpl in Hid. apply list_elem_of_singleton in Hid.
      specialize (Hlt t (Hsub t Ht)). lia.
    + simpl. apply NoDup_singleton.
  - intros t Ht. apply elem_of_app in Ht as [Ht|Ht].
    + specialize (Hlt t (Hsub t Ht)). lia.
    + apply list_elem_of_singleton in Ht. subst t. simpl. lia.
Qed.

(** A change that keeps the table of timers and every handle. *)
Lemma timers_ok_kept w w' :
  timers w' = timers w → next_timer w' = next_timer w →
  (∀ r j a, assignment_at w r j = Some a →
            ∃ a', assignment_at w' r j = Some a' ∧ _workTimeoutId a' = _workTimeoutId a) →
  timers_ok w → timers_ok w'.
Proof.
  intros Ht Hn Hk (Hnd & Hlt & Hh). unfold timers_ok. rewrite Ht, Hn.
  split; [exact Hnd|]. split; [exact Hlt|].
  intros t r j name Hin Hcb. destruct (Hh t r j name Hin Hcb) as (a & Ha & Hid).
  destruct (Hk r j a Ha) as (a' & Ha' & Hid'). exists a'. split; [exact Ha'|].
  rewrite Hid'. exact Hid.
Qed.

Lemma edit_keeps_handle_put this i a a' s w r j b :
  heap w !! this = Some s → assignmentStatuses s !! i = Some a →
  _workTimeoutId a' = _workTimeoutId a →
  assignment_at w r j = Some b →
  ∃ b', assignment_at (put_assignment this i a' s w) r j = Some b'
        ∧ _workTimeoutId b' = _workTimeoutId b.
Proof.
  intros Hs Ha Hid Hb. rewrite (assignment_at_put this i a a' s w) by assumption.
  destruct (decide (r = this ∧ j = i)) as [[-> ->]|Hne]; [|eauto].
  exists a'. split; [reflexivity|]. rewrite Hid.
  unfold assignment_at in Hb. rewrite Hs in Hb. simpl in Hb. congruence.
Qed.

Lemma change_timers_ok x who w w' : change x who w w' → timers_ok w → timers_ok w'.
Proof.
  intros Hc Hok.
  destruct Hc as [c|rs Hr Hrnd|s _ Hs|this s s' _ Hs Hl|this s name _ Hs
                  |this s i a st _ Hs Ha Hst|this s i a g _ Hs Ha Hg
                  |this s i a name delay _ Hs Ha|this s i a id _ Hs Ha Hid
                  |cb delay Hcb0|id].
  - exact Hok.
  - exact Hok.
  - (* a new student *)
    apply (timers_ok_kept w); [reflexivity | reflexivity | | exact Hok].
    intros r j a Ha. exists a. split; [|reflexivity].
    unfold assignment_at in *. simpl. destruct (heap w !! r) as [s0|] eqn:Hs0; [|discriminate].
    rewrite (lookup_app_l_Some _ _ _ _ Hs0). exact Ha.
  - (* other fields *)
    apply (timers_ok_kept w); [reflexivity | reflexivity | | exact Hok].
    intros r j a Ha. exists a. split; [|reflexivity].
    rewrite (assignment_at_store _ s) by exact Hs.
    destruct (decide (r = this)) as [->|Hne]; [|exact Ha].
    rewrite Hl. unfold assignment_at in Ha. rewrite Hs in Ha. exact Ha.
  - (* push *)
    apply (timers_ok_kept w); [reflexivity | reflexivity | | exact Hok].
    intros r j a Ha. exists a. split; [|reflexivity].
    rewrite (assignment_at_store _ s) by exact Hs.
    destruct (decide (r = this)) as [->|Hne]; [|exact Ha].
    unfold assignment_at in Ha. rewrite Hs in Ha. simpl in *.
    apply lookup_app_l_Some, Ha.
  - (* status *)
    apply (timers_ok_kept w); [reflexivity | reflexivity | | exact Hok].
    intros r j b Hb. eapply edit_keeps_handle_put; eauto.
  - (* grade *)
    apply (timers_ok_kept w); [reflexivity | reflexivity | | exact Hok].
    intros r j b Hb. eapply edit_keeps_handle_put; eauto.
  - (* the auto-submit timer is re-armed *)
    destruct Hok as (Hnd & Hlt & Hh).
    set (ts' := match _workTimeoutId a with
                | Some id => without id (timers w)
                | None => timers w
                end).
    assert (Hsub : ∀ t, t ∈ ts' → t ∈ timers w).
    { intros t. unfold ts'. destruct (_workTimeoutId a); [|auto].
      intros Ht. apply without_sub in Ht. tauto. }
    assert (Hnd' : NoDup (timer_id <$> ts')).
    { unfold ts'. destruct (_workTimeoutId a); [apply NoDup_without|]; exact Hnd. }
    destruct (timers_fresh (timers w) ts' (next_timer w) (auto_submit this i name) delay
                Hnd Hlt Hsub Hnd') as [F1 F2].
    split; [exact F1|]. split; [exact F2|].
    intros t r j n Hin Hcb. simpl in Hin.
    rewrite (assignment_at_put this i a _ s) by assumption.
    apply elem_of_app in Hin as [Hin|Hin].
    + destruct (Hh t r j n (Hsub t Hin) Hcb) as (b & Hb & Hid).
      destruct (decide (r = this ∧ j = i)) as [[-> ->]|Hne]; [|eauto].
      exfalso. unfold assignment_at in Hb. rewrite Hs in Hb. simpl in Hb.
      rewrite Ha in Hb. injection Hb as <-.
      unfold ts' in Hin. rewrite Hid in Hin. apply without_sub in Hin. tauto.
    + apply list_elem_of_singleton in Hin. subst t. simpl in Hcb.
      injection Hcb as -> -> _. rewrite decide_True by auto. eauto.
  - (* the auto-submit timer is cancelled *)
    destruct Hok as (Hnd & Hlt & Hh).
    split; [apply NoDup_without, Hnd|]. split.
    { intros t Ht. simpl in Ht. apply without_sub in Ht. apply Hlt. tauto. }
    intros t r j n Hin Hcb. simpl in Hin. apply without_sub in Hin as [Hin Hne].
    rewrite (assignment_at_put this i a _ s) by assumption.
    destruct (Hh t r j n Hin Hcb) as (b & Hb & Hidb).
    destruct (decide (r = this ∧ j = i)) as [[-> ->]|Hno]; [|eauto].
    exfalso. unfold assignment_at in Hb. rewrite Hs in Hb. simpl in Hb.
    rewrite Ha in Hb. injection Hb as <-. congruence.
  - (* another task is scheduled *)
    destruct Hok as (Hnd & Hlt & Hh).
    destruct (timers_fresh (timers w) (timers w) (next_timer w) cb delay
                Hnd Hlt (λ t H, H) Hnd) as [F1 F2].
    split; [exact F1|]. split; [exact F2|].
    intros t r j n Hin Hcb. simpl in Hin. apply elem_of_app in Hin as [Hin|Hin].
    + exact (Hh t r j n Hin Hcb).
    + apply list_elem_of_singleton in Hin. subst t. simpl in Hcb.
      exfalso. exact (Hcb0 r j n Hcb).
  - (* a timer leaves the table *)
    destruct Hok as (Hnd & Hlt & Hh).
    split; [apply NoDup_without, Hnd|]. split.
    + intros t Ht. simpl in Ht. apply without_sub in Ht. apply Hlt. tauto.
    + intros t r j n Hin Hcb. simpl in Hin. apply without_sub in Hin as [Hin _].
      exact (Hh t r j n Hin Hcb).
Qed.

Lemma changes_timers_ok x who w w' : changes x who w w' → timers_ok w → timers_ok w'.
Proof.
  induction 1 as [|w1 w2 w3 H _ IH]; [auto|].
  intros Hok. apply IH. eapply change_timers_ok; eauto.
Qed.

Lemma reachable_timers_ok w : reachable w → timers_ok w.
Proof.
  induction 1 as [o|w c w' _ IH Hstep].
  - split; [constructor|]. split.
    + intros t Ht. inversion Ht.
    + intros t r j n Ht. inversion Ht.
  - eapply changes_timers_ok; [apply step_changes, Hstep | exact IH].
Qed.

(** C4 as stated fails: after [submitAssignment("HW1")] and then
    [startWorking("HW1")] the assignment has two pending timers, the auto-grade
    one and the auto-submit one; the handle identifies the second only, and
    [startWorking] has not cancelled the first. *)
Lemma two_pending_timers :
  reachable Ada_two_timers
  ∧ ∃ t1 t2 a,
      t1 ∈ timers Ada_two_timers ∧ t2 ∈ timers Ada_two_timers ∧ t1 ≠ t2
      ∧ timer_callback t1 = auto_grade 0 0
      ∧ timer_callback t2 = auto_submit 0 0 "HW1"
      ∧ assignment_at Ada_two_timers 0 0 = Some a
      ∧ _workTimeoutId a = Some (timer_id t2)
      ∧ _workTimeoutId a ≠ Some (timer_id t1).
Proof.
  split; [exact Ada_two_timers_reachable|].
  exists (mkTimer 1 (auto_grade 0 0) 500), (mkTimer 2 (auto_submit 0 0 "HW1") 500).
  eexists. split; [left|]. split; [right; left|]. split; [discriminate|].
  split; [reflexivity|]. split; [reflexivity|]. split; [reflexivity|].
  split; [reflexivity | discriminate].
Qed.

(** ** The roster stays valid *)

Lemma change_heap_length x who w w' :
  change x who w w' → (length (heap w) ≤ length (heap w'))%nat.
Proof.
  intros H. destruct H; simpl; unfold put_assignment; simpl;
    rewrite ?length_insert, ?length_app; lia.
Qed.

Lemma change_roster_valid x who w w' :
  change x who w w' → roster_valid w → roster_valid w'.
Proof.
  intros Hc Hv. pose proof (change_heap_length x who w w' Hc) as Hlen.
  assert (Hmono : students w' = students w → roster_valid w').
  { intros Hst. unfold roster_valid. rewrite Hst.
    eapply Forall_impl; [exact Hv|]. simpl. intros r Hr. lia. }
  destruct Hc; try (apply Hmono; reflexivity).
  unfold roster_valid. simpl. auto.
Qed.

Lemma reachable_roster_valid w : reachable w → roster_valid w.
Proof.
  induction 1 as [o|w c w' _ IH Hstep]; [constructor|].
  apply step_changes in Hstep. revert IH.
  induction Hstep as [|w1 w2 w3 H _ IH']; [auto|].
  intros Hv. apply IH'. eapply change_roster_valid; eauto.
Qed.

Lemma change_roster_NoDup x who w w' :
  change x who w w' → NoDup (students w) → NoDup (students w').
Proof. intros Hc Hnd. destruct Hc; simpl; auto. Qed.

Lemma reachable_roster_NoDup w : reachable w → NoDup (students w).
Proof.
  induction 1 as [o|w c w' _ IH Hstep]; [constructor|].
  apply step_changes in Hstep. revert IH.
  induction Hstep as [|w1 w2 w3 H _ IH']; [auto|].
  intros Hv. apply IH'. eapply change_roster_NoDup; eauto.
Qed.

(** ** What a method leaves alone *)

(** A Student that the method may not write to keeps all its fields. *)
Lemma change_frame x who w w' b :
  change x who w w' → ¬ who b → b < length (heap w) → heap w' !! b = heap w !! b.
Proof.
  intros Hc Hb Hlt.
  assert (Hne : ∀ this, who this → this ≠ b) by (intros this Hw ->; auto).
  destruct Hc; simpl; unfold put_assignment; simpl;
    try reflexivity; try (apply list_lookup_insert_ne; auto; fail).
  apply lookup_app_l, Hlt.
Qed.

Lemma changes_frame x who w w' b :
  changes x who w w' → ¬ who b → b < length (heap w) → heap w' !! b = heap w !! b.
Proof.
  induction 1 as [|w1 w2 w3 H _ IH]; [reflexivity|]. intros Hb Hlt.
  rewrite IH; [eapply change_frame; eauto | exact Hb |].
  pose proof (change_heap_length _ _ _ _ H). lia.
Qed.

Lemma changes_heap_length x who w w' :
  changes x who w w' → (length (heap w) ≤ length (heap w'))%nat.
Proof.
  induction 1 as [|w1 w2 w3 H _ IH]; [lia|].
  pose proof (change_heap_length _ _ _ _ H). lia.
Qed.

(** The console only grows. *)
Lemma change_console_prefix x who w w' : change x who w w' → console w `prefix_of` console w'.
Proof. intros Hc. destruct Hc; simpl; try reflexivity. apply prefix_app_r. reflexivity. Qed.

Lemma changes_console_prefix x who w w' :
  changes x who w w' → console w `prefix_of` console w'.
Proof.
  induction 1 as [|w1 w2 w3 H _ IH]; [reflexivity|].
  etransitivity; [eapply change_console_prefix, H | exact IH].
Qed.

(** An assignment object, once created, is there for ever. *)
Lemma changes_assignment_kept x who w w' r j :
  changes x who w w' → is_Some (assignment_at w r j) → is_Some (assignment_at w' r j).
Proof.
  induction 1 as [|w1 w2 w3 H _ IH]; [auto|]. intros [a Ha]. apply IH.
  pose proof (assignment_at_change _ _ _ _ r j H) as Hc. rewrite Ha in Hc.
  destruct Hc as [Hc|(a' & _ & Hc)]; rewrite Hc; eauto.
Qed.

(** ** The mutators complete normally *)

Lemma assignment_at_Some w this i a :
  assignment_at w this i = Some a ↔
  ∃ s, heap w !! this = Some s ∧ assignmentStatuses s !! i = Some a.
Proof.
  unfold assignment_at. destruct (heap w !! this) as [s|]; simpl.
  - split; [eauto | intros (s' & [= <-] & H); exact H].
  - split; [discriminate | intros (s' & H & _); discriminate].
Qed.

Section Safe.
Context (this i : nat).

Lemma safe_ret {A} (a : A) : safe this i (ret a).
Proof. intros w H. exists a, w. auto. Qed.

Lemma safe_bind {A B} (m : M A) (k : A → M B) :
  safe this i m → (∀ a, safe this i (k a)) → safe this i (bind m k).
Proof.
  intros Hm Hk w H. destruct (Hm w H) as (a & w1 & E1 & H1).
  destruct (Hk a w1 H1) as (b & w2 & E2 & H2). exists b, w2.
  split; [|exact H2]. rewrite (bind_eq _ _ _ _ _ E1). exact E2.
Qed.

(** With the lemmas of the previous section, completion is all there is to
    show. *)
Lemma safe_intro {A} (m : M A) x who :
  respects (changes x who) m →
  (∀ w, is_Some (assignment_at w this i) → ∃ a w', m w = Normal (a, w')) →
  safe this i m.
Proof.
  intros Hr Ht w H. destruct (Ht w H) as (a & w' & E). exists a, w'.
  split; [exact E|]. eapply changes_assignment_kept; [eapply Hr, E | exact H].
Qed.

Lemma safe_updateAssignment f x :
  respects (changes x anyone) (updateAssignment this i f) →
  safe this i (updateAssignment this i f).
Proof.
  intros Hr. apply (safe_intro _ x anyone Hr). intros w [a Ha].
  apply assignment_at_Some in Ha as (s & Hs & Ha).
  eexists _, _. eapply updateAssignment_eq; eauto.
Qed.

Lemma safe_set_status st :
  st = "working" ∨ st = "submitted" ∨ st = "final reminder" →
  safe this i (updateAssignment this i (set_status st)).
Proof. intros Hst. apply (safe_updateAssignment _ false), ok_set_status; [exact I | exact Hst]. Qed.

Lemma safe_setGrade g : safe this i (updateAssignment this i (setGrade g)).
Proof. apply (safe_updateAssignment _ true), ok_setGrade; [exact I | reflexivity]. Qed.

Lemma safe_notify_if_present o isReminder :
  safe this i (notify_if_present o this i isReminder).
Proof.
  apply (safe_intro _ false anyone); [apply ok_notify_if_present|]. intros w [a Ha].
  apply assignment_at_Some in Ha as (s & Hs & Ha).
  eexists _, _. eapply notify_if_present_eq; eauto.
Qed.

Lemma safe__notifyObserver isReminder : safe this i (_notifyObserver this i isReminder).
Proof.
  apply (safe_intro _ false anyone); [apply ok__notifyObserver|]. intros w [a Ha].
  apply assignment_at_Some in Ha as (s & Hs & Ha).
  eexists _, _. eapply _notifyObserver_eq; eauto.
Qed.

Lemma safe_setTimeout cb delay :
  (∀ r j name, cb ≠ auto_submit r j name) → safe this i (setTimeout cb delay).
Proof.
  intros Hcb. apply (safe_intro _ false anyone); [apply ok_setTimeout, Hcb|].
  intros w _. eexists _, _. reflexivity.
Qed.

Lemma safe__recalculateOverallGrade : safe this i (_recalculateOverallGrade this).
Proof.
  apply (safe_intro _ false anyone); [apply ok__recalculateOverallGrade; exact I|].
  intros w [a Ha]. apply assignment_at_Some in Ha as (s & Hs & Ha).
  eexists _, _. eapply _recalculateOverallGrade_eq; eauto.
Qed.

Lemma safe_cancel_work_timer : safe this i (cancel_work_timer this i).
Proof.
  apply (safe_intro _ false anyone); [apply ok_cancel_work_timer; exact I|].
  intros w [a Ha]. apply assignment_at_Some in Ha as (s & Hs & Ha).
  unfold cancel_work_timer. rewrite (bind_eq _ _ _ _ _ (getAssignment_eq _ _ _ _ _ Hs Ha)).
  destruct (_workTimeoutId a) as [id|]; [|eexists _, _; reflexivity].
  unfold bind at 1. simpl. eexists _, _. eapply updateAssignment_eq; eauto.
Qed.

Lemma safe_rearm name delay :
  safe this i (clear_work_timer this i ;;
               let! id := setTimeout (auto_submit this i name) delay in
               updateAssignment this i (set_workTimeoutId (Some id))).
Proof.
  apply (safe_intro _ false anyone); [apply ok_rearm; exact I|].
  intros w [a Ha]. apply assignment_at_Some in Ha as (s & Hs & Ha).
  unfold clear_work_timer. unfold bind at 1.
  rewrite (bind_eq _ _ _ _ _ (getAssignment_eq _ _ _ _ _ Hs Ha)).
  destruct (_workTimeoutId a) as [id|]; simpl; unfold bind at 1; simpl;
    eexists _, _; eapply updateAssignment_eq; eauto.
Qed.
End Safe.

(** After the creation block the assignment exists, at the position returned,
    and it is the first of that name. *)
Lemma find_or_create_total this name w :
  this < length (heap w) →
  ∃ i w' s' a,
    find_or_create this name w = Normal (i, w')
    ∧ heap w' !! this = Some s'
    ∧ find_index (has_name name) (assignmentStatuses s') = Some i
    ∧ assignmentStatuses s' !! i = Some a.
Proof.
  intros Hlt. destruct (lookup_lt_is_Some_2 _ _ Hlt) as [s Hs].
  destruct (find_index (has_name name) (assignmentStatuses s)) as [i|] eqn:Hi.
  - destruct (find_index_Some _ _ _ Hi) as (a & Ha & _).
    exists i, w, s, a. split; [eapply find_or_create_found; eauto | auto].
  - exists (length (assignmentStatuses s)), (created this name s w),
      (created_student name s), (new_Assignment name).
    split; [apply find_or_create_new; auto|].
    split; [apply created_lookup, Hs|]. simpl. split.
    + apply find_index_app_new; [exact Hi|]. unfold has_name. simpl.
      apply String.eqb_refl.
    + apply list_lookup_middle. reflexivity.
Qed.

Lemma safe_run {A} this i (m : M A) w s a :
  safe this i m → heap w !! this = Some s → assignmentStatuses s !! i = Some a →
  ∃ r w', m w = Normal (r, w').
Proof.
  intros Hm Hs Ha. destruct (Hm w) as (r & w' & E & _); [|eauto].
  exists a. apply assignment_at_Some. eauto.
Qed.

Lemma updateAssignmentStatus_total this name v w :
  this < length (heap w) → ∃ w', updateAssignmentStatus this name v w = Normal (tt, w').
Proof.
  intros Hlt. destruct (find_or_create_total this name w Hlt)
    as (i & w1 & s1 & a1 & E1 & Hs1 & _ & Ha1).
  unfold updateAssignmentStatus. rewrite (bind_eq _ _ _ _ _ E1).
  destruct v; try (eexists; reflexivity).
  assert (Hsafe : safe this i (updateAssignment this i (setGrade n) ;;
                               _notifyObserver this i false ;;
                               _recalculateOverallGrade this ;; ret tt)).
  { apply safe_bind; [apply safe_setGrade | intros _].
    apply safe_bind; [apply safe__notifyObserver | intros _].
    apply safe_bind; [apply safe__recalculateOverallGrade | intros _].
    apply safe_ret. }
  destruct (safe_run _ _ _ _ _ _ Hsafe Hs1 Ha1) as ([] & w' & E). eauto.
Qed.

Lemma startWorking_total this name w :
  this < length (heap w) → ∃ w', startWorking this name w = Normal (tt, w').
Proof.
  intros Hlt. destruct (find_or_create_total this name w Hlt)
    as (i & w1 & s1 & a1 & E1 & Hs1 & _ & Ha1).
  unfold startWorking. rewrite (bind_eq _ _ _ _ _ E1).
  assert (Hsafe : safe this i (updateAssignment this i (set_status "working") ;;
                               _notifyObserver this i false ;;
                               clear_work_timer this i ;;
                               let! id := setTimeout (auto_submit this i name) 500 in
                               updateAssignment this i (set_workTimeoutId (Some id)))).
  { apply safe_bind; [apply safe_set_status; auto | intros _].
    apply safe_bind; [apply safe__notifyObserver | intros _].
    apply safe_rearm. }
  destruct (safe_run _ _ _ _ _ _ Hsafe Hs1 Ha1) as ([] & w' & E). eauto.
Qed.

Lemma safe_submit_tail this i :
  safe this i (cancel_work_timer this i ;;
               updateAssignment this i (set_status "submitted") ;;
               _notifyObserver this i false ;;
               let! _ := setTimeout (auto_grade this i) 500 in ret tt).
Proof.
  apply safe_bind; [apply safe_cancel_work_timer | intros _].
  apply safe_bind; [apply safe_set_status; auto | intros _].
  apply safe_bind; [apply safe__notifyObserver | intros _].
  apply safe_bind; [apply safe_setTimeout; discriminate | intros _].
  apply safe_ret.
Qed.

Lemma submitAssignment_total this name w :
  this < length (heap w) → ∃ w', submitAssignment this name w = Normal (tt, w').
Proof.
  intros Hlt. destruct (find_or_create_total this name w Hlt)
    as (i & w1 & s1 & a1 & E1 & Hs1 & _ & Ha1).
  unfold submitAssignment. rewrite (bind_eq _ _ _ _ _ E1).
  rewrite (bind_eq _ _ _ _ _ (getAssignment_eq _ _ _ _ _ Hs1 Ha1)).
  destruct (is_done (status a1)); [eexists; reflexivity|].
  destruct (safe_run _ _ _ _ _ _ (safe_submit_tail this i) Hs1 Ha1) as ([] & w' & E). eauto.
Qed.

Lemma call_mutator_total this m w :
  this < length (heap w) → ∃ w', call_mutator this m w = Normal (tt, w').
Proof.
  destruct m; simpl.
  - apply updateAssignmentStatus_total.
  - apply startWorking_total.
  - apply submitAssignment_total.
Qed.

(** ** A Student whose observer cannot be notified *)

Lemma notify_if_present_inv o student assignment isReminder w u w' :
  notify_if_present o student assignment isReminder w = Normal (u, w') →
  ∃ lines, w' = with_console lines w.
Proof.
  unfold notify_if_present. destruct (truthy o).
  - intros H. apply bind_inv in H as (p & w1 & Hp & H).
    assert (w1 = w) as ->.
    { destruct o; simpl in Hp; try discriminate Hp; injection Hp as _ <-; reflexivity. }
    destruct (is_function p).
    + apply bind_inv in H as (s & w1 & Hs & H). apply getStudent_inv in Hs as [-> Hs].
      apply bind_inv in H as (a & w1 & Ha & H). apply getAssignment_inv in Ha as [-> Ha].
      injection H as _ <-. eauto.
    + injection H as _ <-. exists (console w). destruct w; reflexivity.
  - intros H. injection H as _ <-. exists (console w). destruct w; reflexivity.
Qed.

Section Mutes.
Context (this : nat) (o : observer_value) (lines : list string).
Context (Ho : usable o = false).

Local Abbreviation mute := (muted this o lines).
Local Abbreviation quiet := (mutes this o lines).

Lemma heap_muted w s :
  heap w !! this = Some s → heap (mute w) !! this = Some (with_observer o s).
Proof. intros Hs. simpl. rewrite list_lookup_alter_eq, Hs. reflexivity. Qed.

Lemma muted_store s' w : mute (store this s' w) = store this (with_observer o s') (mute w).
Proof.
  unfold muted, set_observer, store, with_console, with_heap. simpl. f_equal.
  rewrite !list_insert_alter, !list_alter_alter_eq. apply list_alter_ext; auto.
Qed.

Lemma quiet_ret {A} (a : A) : quiet (ret a).
Proof. intros w a' w' [= <- <-]. reflexivity. Qed.

Lemma quiet_bind {A B} (m : M A) (k : A → M B) :
  quiet m → (∀ a, quiet (k a)) → quiet (bind m k).
Proof.
  intros Hm Hk w b w'' H. apply bind_inv in H as (a & w' & H1 & H2).
  rewrite (bind_eq _ _ _ _ _ (Hm _ _ _ H1)). apply Hk, H2.
Qed.

Lemma quiet__findAssignment name : quiet (_findAssignment this name).
Proof.
  intros w r w' H. apply bind_inv in H as (s & w1 & Hs & H).
  apply getStudent_inv in Hs as [-> Hs]. injection H as <- <-.
  rewrite (_findAssignment_eq _ _ _ _ (heap_muted _ _ Hs)). reflexivity.
Qed.

Lemma quiet_getAssignment i : quiet (getAssignment this i).
Proof.
  intros w a w' H. apply getAssignment_inv in H as [-> (s & Hs & Ha)].
  eapply getAssignment_eq; [apply heap_muted, Hs | exact Ha].
Qed.

Lemma quiet_updateAssignment i f : quiet (updateAssignment this i f).
Proof.
  intros w u w' H. apply updateAssignment_inv in H as (s & a & Hs & Ha & ->).
  rewrite (updateAssignment_eq this i f _ (with_observer o s) a);
    [|apply heap_muted, Hs|exact Ha].
  destruct u. unfold put_assignment. rewrite muted_store. reflexivity.
Qed.

Lemma quiet_pushAssignment a : quiet (pushAssignment this a).
Proof.
  intros w r w' H. apply bind_inv in H as (s & w1 & Hs & H).
  apply getStudent_inv in Hs as [-> Hs]. injection H as <- <-.
  rewrite (pushAssignment_eq this a _ (with_observer o s)) by (apply heap_muted, Hs).
  f_equal. f_equal. symmetry.
  exact (muted_store (with_assignments (assignmentStatuses s ++ [a]) s) w).
Qed.

Lemma quiet__notifyObserver i isReminder : quiet (_notifyObserver this i isReminder).
Proof.
  intros w u w' H. apply bind_inv in H as (s & w1 & Hs & H).
  apply getStudent_inv in Hs as [-> Hs].
  apply notify_if_present_inv in H as [c ->].
  unfold _notifyObserver. rewrite (bind_eq _ _ _ _ _ (getStudent_eq _ _ _ (heap_muted _ _ Hs))).
  destruct u. apply notify_if_present_unusable. exact Ho.
Qed.

Lemma quiet_setTimeout cb delay : quiet (setTimeout cb delay).
Proof. intros w id w' H. injection H as <- <-. reflexivity. Qed.

Lemma quiet_clearTimeout id : quiet (clearTimeout id).
Proof. intros w u w' H. injection H as _ <-. destruct u. reflexivity. Qed.

Lemma quiet__recalculateOverallGrade : quiet (_recalculateOverallGrade this).
Proof.
  intros w g w' H. destruct (heap w !! this) as [s|] eqn:Hs.
  - rewrite (_recalculateOverallGrade_eq _ _ _ Hs) in H. injection H as <- <-.
    rewrite (_recalculateOverallGrade_eq _ _ _ (heap_muted _ _ Hs)).
    f_equal. f_equal. symmetry.
    exact (muted_store (with_overallGrade (computed_mean (assignmentStatuses s)) s) w).
  - unfold _recalculateOverallGrade, bind, getStudent in H. rewrite Hs in H. discriminate H.
Qed.

Lemma quiet_find_or_create name : quiet (find_or_create this name).
Proof.
  unfold find_or_create.
  apply quiet_bind; [apply quiet__findAssignment | intros [i|]].
  - apply quiet_ret.
  - apply quiet_bind; [apply quiet_pushAssignment | intros i].
    apply quiet_bind; [apply quiet__notifyObserver | intros _].
    apply quiet_ret.
Qed.

Lemma quiet_cancel_work_timer i : quiet (cancel_work_timer this i).
Proof.
  unfold cancel_work_timer.
  apply quiet_bind; [apply quiet_getAssignment | intros a].
  destruct (_workTimeoutId a); [|apply quiet_ret].
  apply quiet_bind; [apply quiet_clearTimeout | intros _].
  apply quiet_updateAssignment.
Qed.

Lemma quiet_clear_work_timer i : quiet (clear_work_timer this i).
Proof.
  unfold clear_work_timer.
  apply quiet_bind; [apply quiet_getAssignment | intros a].
  destruct (_workTimeoutId a); [apply quiet_clearTimeout | apply quiet_ret].
Qed.

Lemma quiet_updateAssignmentStatus name v : quiet (updateAssignmentStatus this name v).
Proof.
  unfold updateAssignmentStatus.
  apply quiet_bind; [apply quiet_find_or_create | intros i].
  destruct v; try apply quiet_ret.
  apply quiet_bind; [apply quiet_updateAssignment | intros _].
  apply quiet_bind; [apply quiet__notifyObserver | intros _].
  apply quiet_bind; [apply quiet__recalculateOverallGrade | intros _].
  apply quiet_ret.
Qed.

Lemma quiet_startWorking name : quiet (startWorking this name).
Proof.
  unfold startWorking.
  apply quiet_bind; [apply quiet_find_or_create | intros i].
  apply quiet_bind; [apply quiet_updateAssignment | intros _].
  apply quiet_bind; [apply quiet__notifyObserver | intros _].
  apply quiet_bind; [apply quiet_clear_work_timer | intros _].
  apply quiet_bind; [apply quiet_setTimeout | intros id].
  apply quiet_updateAssignment.
Qed.

Lemma quiet_submitAssignment name : quiet (submitAssignment this name).
Proof.
  unfold submitAssignment.
  apply quiet_bind; [apply quiet_find_or_create | intros i].
  apply quiet_bind; [apply quiet_getAssignment | intros a].
  destruct (is_done (status a)); [apply quiet_ret|].
  apply quiet_bind; [apply quiet_cancel_work_timer | intros _].
  apply quiet_bind; [apply quiet_updateAssignment | intros _].
  apply quiet_bind; [apply quiet__notifyObserver | intros _].
  apply quiet_bind; [apply quiet_setTimeout | intros _].
  apply quiet_ret.
Qed.

Lemma quiet_call_mutator m : quiet (call_mutator this m).
Proof.
  destruct m; simpl.
  - apply quiet_updateAssignmentStatus.
  - apply quiet_startWorking.
  - apply quiet_submitAssignment.
Qed.
End Mutes.

Lemma muted_set_observer this o' w s :
  heap w !! this = Some s →
  muted this (observer s) (console w) (set_observer this o' w) = w.
Proof.
  intros Hs. destruct w as [h r co ts nt c]. unfold muted, set_observer, with_console,
    with_heap. simpl in *. f_equal.
  rewrite list_alter_alter_eq. apply list_eq. intros j.
  rewrite list_lookup_alter. destruct (decide (this = j)) as [<-|Hne]; [|reflexivity].
  rewrite Hs. simpl. destruct s; reflexivity.
Qed.

(** C10: for a Student whose observer is [null], [undefined] or has no
    [notify] function, each of [updateAssignmentStatus], [startWorking] and
    [submitAssignment] returns normally, writes nothing to the console, and
    leaves exactly the state that the same call leaves when the Student has a
    working observer, except for the console and the observer itself. *)
Theorem mutators_without_observer this m w s :
  heap w !! this = Some s →
  usable (observer s) = false →
  ∃ w_notified,
    call_mutator this m (set_observer this (observer_object notify_method) w)
    = Normal (tt, w_notified)
    ∧ call_mutator this m w
      = Normal (tt, with_console (console w) (set_observer this (observer s) w_notified)).
Proof.
  intros Hs Ho.
  destruct (call_mutator_total this m (set_observer this (observer_object notify_method) w))
    as [w' E].
  { simpl. rewrite length_alter. eapply lookup_lt_Some, Hs. }
  exists w'. split; [exact E|].
  pose proof (quiet_call_mutator this (observer s) (console w) Ho m _ _ _ E) as Q.
  rewrite (muted_set_observer _ _ _ _ Hs) in Q. exact Q.
Qed.

Lemma mutators_without_observer_witness :
  ∃ w_notified,
    call_mutator 0 (mutator_startWorking "HW1")
                 (set_observer 0 (observer_object notify_method) Ada_unobserved)
    = Normal (tt, w_notified)
    ∧ call_mutator 0 (mutator_startWorking "HW1") Ada_unobserved
      = Normal (tt, with_console (console Ada_unobserved)
                      (set_observer 0 observer_null w_notified)).
Proof.
  apply (mutators_without_observer 0 (mutator_startWorking "HW1") Ada_unobserved
           (new_Student (Some "Ada") (Some "ada@example.org") observer_null)).
  - reflexivity.
  - reflexivity.
Defined.

(** ** sendReminder *)

Lemma forEach_app {A} (l1 l2 : list A) (f : A → M unit) w :
  forEach (l1 ++ l2) f w = (forEach l1 f ;; forEach l2 f) w.
Proof.
  revert w. induction l1 as [|x l1 IH]; intros w; [reflexivity|].
  simpl. unfold bind. destruct (f x w) as [[u w1]|e]; [|reflexivity].
  rewrite IH. reflexivity.
Qed.

Lemma findOutstandingAssignments_eq name w :
  roster_valid w →
  findOutstandingAssignments name w
  = Normal (fullName <$> filter (λ s, outstanding_test name s = true) (roster_students w),
            w).
Proof.
  intros Hv. unfold findOutstandingAssignments, outstanding_test.
  destruct (name_given name); rewrite collect_names_eq by exact Hv; reflexivity.
Qed.

Lemma outstanding_test_true name s a :
  find (has_name name) (assignmentStatuses s) = Some a → outstanding a →
  outstanding_test (Some name) s = true.
Proof.
  intros Hf Ho. unfold outstanding_test. destruct (name_given (Some name)).
  - simpl. unfold outstanding_for. rewrite Hf.
    destruct Ho as [H|[H|H]]; rewrite H; reflexivity.
  - apply hasOutstanding_spec. exists a. split; [|exact Ho].
    apply find_some in Hf as [Hin _]. apply list_elem_of_In, Hin.
Qed.

Lemma insert_last {A} (l : list A) (x y : A) : <[length l := y]> (l ++ [x]) = l ++ [y].
Proof. induction l as [|z l IH]; simpl; [reflexivity | rewrite IH; reflexivity]. Qed.

Section View.
Context (b : nat).

Lemma view_updateAssignment i f s a lines w :
  view b s lines w → assignmentStatuses s !! i = Some a →
  ∃ w', updateAssignment b i f w = Normal (tt, w')
        ∧ view b (with_assignments (<[i := f a]> (assignmentStatuses s)) s) lines w'.
Proof.
  intros [Hs Hc] Ha. eexists. split; [eapply updateAssignment_eq; eauto|].
  split; [|exact Hc]. apply heap_store. eapply lookup_lt_Some, Hs.
Qed.

Lemma view_notify_if_present o i isReminder s a lines w :
  view b s lines w → assignmentStatuses s !! i = Some a →
  ∃ w', notify_if_present o b i isReminder w = Normal (tt, w')
        ∧ view b s (lines ++ notification o s a isReminder) w'.
Proof.
  intros [Hs Hc] Ha. eexists. split; [eapply notify_if_present_eq; eauto|].
  split; [exact Hs|]. simpl. rewrite Hc. reflexivity.
Qed.

Lemma view__notifyObserver i isReminder s a lines w :
  view b s lines w → assignmentStatuses s !! i = Some a →
  ∃ w', _notifyObserver b i isReminder w = Normal (tt, w')
        ∧ view b s (lines ++ notification (observer s) s a isReminder) w'.
Proof.
  intros [Hs Hc] Ha. eexists. split; [eapply _notifyObserver_eq; eauto|].
  split; [exact Hs|]. simpl. rewrite Hc. reflexivity.
Qed.

Lemma view_cancel_none i s a lines w :
  view b s lines w → assignmentStatuses s !! i = Some a → _workTimeoutId a = None →
  cancel_work_timer b i w = Normal (tt, w).
Proof.
  intros [Hs Hc] Ha Hid. unfold cancel_work_timer.
  rewrite (bind_eq _ _ _ _ _ (getAssignment_eq _ _ _ _ _ Hs Ha)). rewrite Hid. reflexivity.
Qed.

(** [submitAssignment] on an assignment that is not yet submitted and holds
    no timer. *)
Lemma view_submitAssignment name i s a lines w :
  view b s lines w →
  find_index (has_name name) (assignmentStatuses s) = Some i →
  assignmentStatuses s !! i = Some a →
  is_done (status a) = false → _workTimeoutId a = None →
  ∃ w', submitAssignment b name w = Normal (tt, w')
        ∧ view b (with_assignments (<[i := set_status "submitted" a]> (assignmentStatuses s)) s)
               (lines ++ notification (observer s) s (set_status "submitted" a) false) w'.
Proof.
  intros Hv Hi Ha Hdone Hid. pose proof Hv as [Hs Hc]. unfold submitAssignment.
  rewrite (bind_eq _ _ _ _ _ (find_or_create_found _ _ _ _ _ Hs Hi)).
  rewrite (bind_eq _ _ _ _ _ (getAssignment_eq _ _ _ _ _ Hs Ha)). rewrite Hdone.
  rewrite (bind_eq _ _ _ _ _ (view_cancel_none _ _ _ _ _ Hv Ha Hid)).
  destruct (view_updateAssignment i (set_status "submitted") _ _ _ _ Hv Ha) as (w1 & E1 & Hv1).
  rewrite (bind_eq _ _ _ _ _ E1).
  destruct (view__notifyObserver i false _ (set_status "submitted" a) _ _ Hv1) as (w2 & E2 & Hv2).
  { simpl. apply list_lookup_insert_eq. eapply lookup_lt_Some, Ha. }
  rewrite (bind_eq _ _ _ _ _ E2). eexists. split; [reflexivity|].
  destruct Hv2 as [Hs2 Hc2]. split; [exact Hs2 | exact Hc2].
Qed.

(** [sendReminder]'s treatment of a student who is taken to be outstanding
    and has no assignment of that name. *)
Lemma view_remind_new o outstanding name s lines w :
  view b s lines w →
  includes outstanding (fullName s) = true →
  find_index (has_name name) (assignmentStatuses s) = None →
  ∃ w', remind o outstanding name b w = Normal (tt, w')
        ∧ view b (with_assignments
                    (assignmentStatuses s ++ [set_status "submitted" (new_Assignment name)]) s)
               (lines
                ++ notification (observer s) s (new_Assignment name) false
                ++ notification o s (set_status "final reminder" (new_Assignment name)) true
                ++ notification (observer s) s (set_status "submitted" (new_Assignment name))
                                false) w'.
Proof.
  intros [Hs Hc] Hin Hnone. unfold remind.
  rewrite (bind_eq _ _ _ _ _ (getStudent_eq _ _ _ Hs)). rewrite Hin.
  change (negb true) with false. cbv iota.
  rewrite (bind_eq _ _ _ _ _ (_findAssignment_eq _ name _ _ Hs)). rewrite Hnone.
  set (i := length (assignmentStatuses s)).
  assert (Hnew : has_name name (new_Assignment name) = true)
    by (unfold has_name; simpl; apply String.eqb_refl).
  assert (E0 : (updateAssignmentStatus b name undefined ;;
                let! again := _findAssignment b name in
                match again with
                | Some assignment => ret assignment
                | None => throw TypeError
                end) w = Normal (i, created b name s w)).
  { unfold bind at 1. rewrite updateAssignmentStatus_no_grade by discriminate.
    rewrite (bind_eq _ _ _ _ _ (find_or_create_new _ _ _ _ Hs Hnone)).
    unfold ret at 1. cbv beta iota.
    rewrite (bind_eq _ _ _ _ _ (_findAssignment_eq _ name _ _ (created_lookup _ _ _ _ Hs))).
    change (assignmentStatuses (created_student name s))
      with (assignmentStatuses s ++ [new_Assignment name]).
    rewrite (find_index_app_new _ _ _ Hnone Hnew). reflexivity. }
  rewrite (bind_eq _ _ _ _ _ E0).
  assert (Hv0 : view b (created_student name s)
                  (lines ++ notification (observer s) s (new_Assignment name) false)
                  (created b name s w)).
  { split; [apply created_lookup, Hs|]. simpl. rewrite Hc. reflexivity. }
  assert (Ha0 : assignmentStatuses (created_student name s) !! i = Some (new_Assignment name))
    by (simpl; apply list_lookup_middle; reflexivity).
  destruct (view_updateAssignment i (set_status "final reminder") _ _ _ _ Hv0 Ha0)
    as (w1 & E1 & Hv1).
  rewrite (bind_eq _ _ _ _ _ E1).
  simpl assignmentStatuses in Hv1. unfold i in Hv1. rewrite insert_last in Hv1. fold i in Hv1.
  set (a1 := set_status "final reminder" (new_Assignment name)) in *.
  assert (Ha1 : ∀ s0, assignmentStatuses
                        (with_assignments (assignmentStatuses s ++ [a1]) s0) !! i = Some a1)
    by (intros s0; simpl; apply list_lookup_middle; reflexivity).
  destruct (view_notify_if_present o i true _ a1 _ _ Hv1 (Ha1 _)) as (w2 & E2 & Hv2).
  rewrite (bind_eq _ _ _ _ _ E2).
  rewrite (bind_eq _ _ _ _ _ (view_cancel_none i _ a1 _ _ Hv2 (Ha1 _) eq_refl)).
  destruct (view_submitAssignment name i _ a1 _ _ Hv2) as (w3 & E3 & Hv3).
  - simpl. apply find_index_app_new; [exact Hnone|]. exact Hnew.
  - apply Ha1.
  - reflexivity.
  - reflexivity.
  - exists w3. split; [exact E3|].
    simpl assignmentStatuses in Hv3. unfold i in Hv3. rewrite insert_last in Hv3.
    destruct Hv3 as [Hs3 Hc3]. split; [exact Hs3|]. rewrite Hc3.
    rewrite <- !app_assoc. reflexivity.
Qed.
End View.

Lemma safe_submitAssignment this i name : safe this i (submitAssignment this name).
Proof.
  apply (safe_intro _ _ _ false anyone); [apply ok_submitAssignment; exact I|].
  intros w [a Ha]. apply assignment_at_Some in Ha as (s & Hs & _).
  destruct (submitAssignment_total this name w) as [w' E]; [eapply lookup_lt_Some, Hs|].
  eauto.
Qed.

Lemma safe_remind_tail o this i name :
  safe this i (updateAssignment this i (set_status "final reminder") ;;
               notify_if_present o this i true ;;
               cancel_work_timer this i ;;
               submitAssignment this name).
Proof.
  apply safe_bind; [apply safe_set_status; auto | intros _].
  apply safe_bind; [apply safe_notify_if_present | intros _].
  apply safe_bind; [apply safe_cancel_work_timer | intros _].
  apply safe_submitAssignment.
Qed.

Lemma create_then_find this name w s :
  heap w !! this = Some s →
  find_index (has_name name) (assignmentStatuses s) = None →
  (updateAssignmentStatus this name undefined ;;
   let! again := _findAssignment this name in
   match again with
   | Some assignment => ret assignment
   | None => throw TypeError
   end) w = Normal (length (assignmentStatuses s), created this name s w).
Proof.
  intros Hs Hnone.
  unfold bind at 1. rewrite updateAssignmentStatus_no_grade by discriminate.
  rewrite (bind_eq _ _ _ _ _ (find_or_create_new _ _ _ _ Hs Hnone)).
  unfold ret at 1. cbv beta iota.
  rewrite (bind_eq _ _ _ _ _ (_findAssignment_eq _ name _ _ (created_lookup _ _ _ _ Hs))).
  change (assignmentStatuses (created_student name s))
    with (assignmentStatuses s ++ [new_Assignment name]).
  rewrite (find_index_app_new _ _ _ Hnone); [reflexivity|].
  unfold has_name. simpl. apply String.eqb_refl.
Qed.

(** The body of the loop of [sendReminder] never throws. *)
Lemma remind_total o outstanding name student w :
  student < length (heap w) → ∃ w', remind o outstanding name student w = Normal (tt, w').
Proof.
  intros Hlt. destruct (lookup_lt_is_Some_2 _ _ Hlt) as [s Hs]. unfold remind.
  rewrite (bind_eq _ _ _ _ _ (getStudent_eq _ _ _ Hs)).
  destruct (negb (includes outstanding (fullName s))); [eexists; reflexivity|].
  rewrite (bind_eq _ _ _ _ _ (_findAssignment_eq _ name _ _ Hs)).
  destruct (find_index (has_name name) (assignmentStatuses s)) as [i|] eqn:Hi.
  - destruct (find_index_Some _ _ _ Hi) as (a & Ha & _).
    unfold bind at 1, ret at 1.
    destruct (safe_run _ _ _ _ _ _ (safe_remind_tail o student i name) Hs Ha) as ([] & w' & E).
    eauto.
  - rewrite (bind_eq _ _ _ _ _ (create_then_find _ _ _ _ Hs Hi)).
    destruct (safe_run student (length (assignmentStatuses s)) _ (created student name s w)
                (created_student name s) (new_Assignment name)
                (safe_remind_tail o student _ name)) as ([] & w' & E).
    + apply created_lookup, Hs.
    + simpl. apply list_lookup_middle. reflexivity.
    + eauto.
Qed.

(** The loop of [sendReminder] completes, and writes to the students of the
    roster only. *)
Lemma remind_loop o outstanding name roster w :
  Forall (λ x, x < length (heap w)) roster →
  ∃ w', forEach roster (remind o outstanding name) w = Normal (tt, w')
        ∧ changes false (λ r, r ∈ roster) w w'.
Proof.
  revert w. induction roster as [|x roster IH]; intros w Hv.
  - exists w. split; reflexivity.
  - apply Forall_cons in Hv as [Hx Hv].
    destruct (remind_total o outstanding name x w Hx) as [w1 E1].
    assert (C1 : changes false (λ r, r = x) w w1)
      by (eapply (ok_remind false (λ r, r = x)); [reflexivity | exact E1]).
    destruct (IH w1) as (w2 & E2 & C2).
    { eapply Forall_impl; [exact Hv|]. simpl. intros r Hr.
      pose proof (changes_heap_length _ _ _ _ C1). lia. }
    exists w2. split.
    + simpl. rewrite (bind_eq _ _ _ _ _ E1). exact E2.
    + etransitivity.
      * eapply changes_mono; [|exact C1]. intros r ->. left.
      * eapply changes_mono; [|exact C2]. intros r Hr. right. exact Hr.
Qed.

(** C9: [sendReminder] selects by full name.  When the roster holds two
    distinct students of the same full name, one with the named assignment
    outstanding and the other with no assignment of that name,
    [sendReminder(name)] returns normally and has processed the other too:
    the assignment has been created on them and submitted, and their released
    notification, the reminder and their submitted notification have been
    written, in this order. *)
Theorem sendReminder_by_name w name a b sa sb asg :
  reachable w →
  a ∈ students w → b ∈ students w → a ≠ b →
  heap w !! a = Some sa → heap w !! b = Some sb →
  fullName sa = fullName sb →
  find (has_name name) (assignmentStatuses sa) = Some asg → outstanding asg →
  find_index (has_name name) (assignmentStatuses sb) = None →
  ∃ w' before after,
    sendReminder name w = Normal (tt, w')
    ∧ heap w' !! b
      = Some (with_assignments
                (assignmentStatuses sb ++ [set_status "submitted" (new_Assignment name)]) sb)
    ∧ console w'
      = console w ++ before
        ++ (notification (observer sb) sb (new_Assignment name) false
            ++ notification (class_observer w) sb
                 (set_status "final reminder" (new_Assignment name)) true
            ++ notification (observer sb) sb
                 (set_status "submitted" (new_Assignment name)) false)
        ++ after
    ∧ (usable (observer sb) = true →
       released_message (fullName sb) name ∈ before
         ++ (notification (observer sb) sb (new_Assignment name) false
             ++ notification (class_observer w) sb
                  (set_status "final reminder" (new_Assignment name)) true
             ++ notification (observer sb) sb
                  (set_status "submitted" (new_Assignment name)) false)
         ++ after).
Proof.
  intros Hw Ha Hb Hab Hsa Hsb Hname Hfind Hout Hnone.
  pose proof (reachable_roster_valid w Hw) as Hv.
  pose proof (reachable_roster_NoDup w Hw) as Hnd.
  (* the names taken to be outstanding *)
  set (outs := fullName <$> filter (λ s, outstanding_test (Some name) s = true)
                                   (roster_students w)).
  assert (Hin : includes outs (fullName sb) = true).
  { apply bool_decide_eq_true_2. rewrite <- Hname. apply list_elem_of_fmap.
    exists sa. split; [reflexivity|]. apply list_elem_of_filter. split.
    - eapply outstanding_test_true; eauto.
    - apply elem_of_roster_students. eauto. }
  unfold sendReminder.
  rewrite (bind_eq _ _ _ _ _ (findOutstandingAssignments_eq (Some name) w Hv)). fold outs.
  (* the roster around [b] *)
  apply list_elem_of_split in Hb as (l1 & l2 & Hroster).
  unfold roster_valid in Hv. rewrite Hroster in Hnd, Hv |- *.
  apply NoDup_app in Hnd as (_ & Hl1 & Hnd). apply NoDup_cons in Hnd as [Hl2 _].
  assert (Hb1 : b ∉ l1) by (intros H; apply (Hl1 b H); left).
  apply Forall_app in Hv as [Hv1 Hv2]. apply Forall_cons in Hv2 as [Hlt Hv2].
  rewrite forEach_app.
  (* before [b] *)
  destruct (remind_loop (class_observer w) outs name l1 w Hv1) as (w1 & E1 & C1).
  rewrite (bind_eq _ _ _ _ _ E1).
  assert (Hsb1 : heap w1 !! b = Some sb)
    by (rewrite (changes_frame _ _ _ _ b C1 Hb1 Hlt); exact Hsb).
  destruct (changes_console_prefix _ _ _ _ C1) as [before Hc1].
  (* [b] itself *)
  destruct (view_remind_new b (class_observer w) outs name sb (console w1) w1
              (conj Hsb1 eq_refl) Hin Hnone) as (w2 & E2 & Hsb2 & Hc2).
  assert (C2 : changes false (λ r, r = b) w1 w2)
    by (eapply (ok_remind false (λ r, r = b)); [reflexivity | exact E2]).
  (* after [b] *)
  destruct (remind_loop (class_observer w) outs name l2 w2) as (w3 & E3 & C3).
  { eapply Forall_impl; [exact Hv2|]. simpl. intros r Hr.
    pose proof (changes_heap_length _ _ _ _ C1).
    pose proof (changes_heap_length _ _ _ _ C2). lia. }
  destruct (changes_console_prefix _ _ _ _ C3) as [after Hc3].
  assert (Hsb3 : heap w3 !! b = heap w2 !! b).
  { apply (changes_frame _ _ _ _ b C3 Hl2). eapply lookup_lt_Some, Hsb2. }
  exists w3, before, after. split.
  { simpl. rewrite (bind_eq _ _ _ _ _ E2). exact E3. }
  split; [rewrite Hsb3; exact Hsb2|]. split.
  { rewrite Hc3, Hc2, Hc1. rewrite <- !app_assoc. reflexivity. }
  intros Hu. apply elem_of_app. right. apply elem_of_app. left.
  unfold notification at 1. rewrite Hu. left.
Qed.

Lemma sendReminder_by_name_witness :
  ∃ w' before after,
    sendReminder "HW1" two_Bobs = Normal (tt, w')
    ∧ heap w' !! 0
      = Some (with_assignments [set_status "submitted" (new_Assignment "HW1")]
                (new_Student (Some "Bob") (Some "bob1@example.org")
                             (observer_object notify_method)))
    ∧ console w'
      = console two_Bobs ++ before
        ++ ["Observer → Bob, HW1 has been released.";
            "Observer → Bob, final reminder for HW1.";
            "Observer → Bob has submitted HW1."]
        ++ after
    ∧ (usable (observer_object notify_method) = true →
       "Observer → Bob, HW1 has been released." ∈ before
         ++ ["Observer → Bob, HW1 has been released.";
             "Observer → Bob, final reminder for HW1.";
             "Observer → Bob has submitted HW1."]
         ++ after).
Proof.
  apply (sendReminder_by_name two_Bobs "HW1" 1 0
           (with_assignments [new_Assignment "HW1"]
              (new_Student (Some "Bob") (Some "bob2@example.org")
                           (observer_object notify_method)))
           (new_Student (Some "Bob") (Some "bob1@example.org")
                        (observer_object notify_method))
           (new_Assignment "HW1") two_Bobs_reachable).
  - right. left.
  - left.
  - discriminate.
  - reflexivity.
  - reflexivity.
  - reflexivity.
  - reflexivity.
  - left. reflexivity.
  - reflexivity.
Defined.

(** * Further properties of the program *)

(** ** Induction over the calls *)

(** A reflexive and transitive relation that holds across the statements
    that write to the store and to the roster holds across every call. *)
Section Calls.
Context (R : relation World) `{!Reflexive R, !Transitive R}.
Context (R_log : ∀ w lines, R w (with_console lines w)).
Context (R_add : ∀ student, respects R (addStudent student)).
Context (R_remove : ∀ studentOrName, respects R (removeStudent studentOrName)).
Context (R_create : ∀ this name, respects R (find_or_create this name)).
Context (R_final_reminder : ∀ this i,
            respects R (updateAssignment this i (set_status "final reminder"))).
Context (R_unhandle : ∀ this i,
            respects R (updateAssignment this i (set_workTimeoutId None))).
Context (R_grading : ∀ this i g, respects R (grading this i g)).
Context (R_recalculate : ∀ this, respects R (_recalculateOverallGrade this)).
Context (R_setFullName : ∀ this name, respects R (setFullName this name)).
Context (R_setEmail : ∀ this email, respects R (setEmail this email)).
Context (R_alloc : ∀ fullName email o, respects R (alloc_Student fullName email o)).
Context (R_clear : ∀ id, respects R (clearTimeout id)).
Context (R_work : ∀ this i name,
            respects R (updateAssignment this i (set_status "working") ;;
                        _notifyObserver this i false ;;
                        clear_work_timer this i ;;
                        let! id := setTimeout (auto_submit this i name) 500 in
                        updateAssignment this i (set_workTimeoutId (Some id)))).
Context (R_submit : ∀ this i,
            respects R (cancel_work_timer this i ;;
                        updateAssignment this i (set_status "submitted") ;;
                        _notifyObserver this i false ;;
                        let! _ := setTimeout (auto_grade this i) 500 in ret tt)).
Context (R_release : ∀ names, respects R (releaseAssignmentsParallel names)).

Local Abbreviation across := (respects R).

Lemma across_ret {A} (a : A) : across (ret a).
Proof. apply respects_ret. apply _. Qed.

Lemma across_bind {A B} (m : M A) (k : A → M B) :
  across m → (∀ a, across (k a)) → across (bind m k).
Proof. apply respects_bind. apply _. Qed.

Lemma across_forEach {A} (l : list A) (f : A → M unit) :
  (∀ a, across (f a)) → across (forEach l f).
Proof. apply respects_forEach; apply _. Qed.

Lemma across_notify_if_present o student assignment isReminder :
  across (notify_if_present o student assignment isReminder).
Proof.
  intros w u w' H. apply notify_if_present_inv in H as [lines ->]. apply R_log.
Qed.

Lemma across__notifyObserver this assignment isReminder :
  across (_notifyObserver this assignment isReminder).
Proof.
  unfold _notifyObserver.
  apply across_bind; [apply respects_getStudent; apply _ | intros s].
  apply across_notify_if_present.
Qed.

Lemma across_cancel_work_timer this i : across (cancel_work_timer this i).
Proof.
  unfold cancel_work_timer.
  apply across_bind; [apply respects_getAssignment; apply _ | intros a].
  destruct (_workTimeoutId a); [|apply across_ret].
  apply across_bind; [apply R_clear | intros _]. apply R_unhandle.
Qed.

Lemma across_updateAssignmentStatus this name v :
  across (updateAssignmentStatus this name v).
Proof.
  unfold updateAssignmentStatus.
  apply across_bind; [apply R_create | intros i].
  destruct v; try apply across_ret. apply R_grading.
Qed.

Lemma across_startWorking this name : across (startWorking this name).
Proof.
  unfold startWorking.
  apply across_bind; [apply R_create | intros i]. apply R_work.
Qed.

Lemma across_submitAssignment this name : across (submitAssignment this name).
Proof.
  unfold submitAssignment.
  apply across_bind; [apply R_create | intros i].
  apply across_bind; [apply respects_getAssignment; apply _ | intros a].
  destruct (is_done (status a)); [apply across_ret | apply R_submit].
Qed.

Lemma across_remind o outstanding name student :
  across (remind o outstanding name student).
Proof.
  unfold remind.
  apply across_bind; [apply respects_getStudent; apply _ | intros s].
  destruct (negb _); [apply across_ret|].
  apply across_bind; [apply respects__findAssignment; apply _ | intros found].
  apply across_bind; [|intros i].
  - destruct found as [i|]; [apply across_ret|].
    apply across_bind; [apply across_updateAssignmentStatus | intros _].
    apply across_bind; [apply respects__findAssignment; apply _ | intros again].
    destruct again; [apply across_ret | apply respects_throw].
  - apply across_bind; [apply R_final_reminder | intros _].
    apply across_bind; [apply across_notify_if_present | intros _].
    apply across_bind; [apply across_cancel_work_timer | intros _].
    apply across_submitAssignment.
Qed.

Lemma across_sendReminder name : across (sendReminder name).
Proof.
  unfold sendReminder.
  apply across_bind; [apply respects_findOutstandingAssignments; apply _ | intros outs].
  intros w u w'. apply across_forEach. intros student. apply across_remind.
Qed.

Lemma across_run_callback cb random_grade : across (run_callback cb random_grade).
Proof.
  destruct cb as [this i name|this i|student name]; simpl.
  - unfold run_auto_submit.
    apply across_bind; [apply respects_getAssignment; apply _ | intros a].
    destruct (is_unsubmitted (status a)); [apply across_submitAssignment | apply across_ret].
  - unfold run_auto_grade.
    apply across_bind; [apply respects_getAssignment; apply _ | intros a].
    destruct (_graded a); [apply across_ret | apply R_grading].
  - apply across_updateAssignmentStatus.
Qed.

Lemma across_fire id random_grade : across (fire id random_grade).
Proof.
  intros w u w'. unfold fire. destruct (find _ (timers w)) as [t|].
  - apply across_bind; [apply R_clear | intros _]. apply across_run_callback.
  - intros H. injection H as H. subst w'. reflexivity.
Qed.

(** The methods of Student, the reads of ClassList, [sendReminder] and the
    timers. *)
Lemma across_exec_methods c :
  roster_call c = false → release_call c = false → across (exec c).
Proof.
  intros Hc Hc'.
  assert (Hd : ∀ A (m : M A), across m → across (discard m)).
  { intros A m Hm. apply across_bind; [exact Hm | intros _; apply across_ret]. }
  destruct c; try discriminate Hc; try discriminate Hc'; simpl exec.
  - apply Hd, R_alloc.
  - apply R_setFullName.
  - apply R_setEmail.
  - apply across_updateAssignmentStatus.
  - apply Hd. unfold getAssignmentStatus.
    apply across_bind; [apply respects__findAssignment; apply _ | intros [i|]];
      [|apply across_ret].
    apply across_bind; [apply respects_getAssignment; apply _ | intros a; apply across_ret].
  - apply across_startWorking.
  - apply across_submitAssignment.
  - apply Hd, R_recalculate.
  - apply Hd. intros w a w' H. injection H as _ H. subst w'. reflexivity.
  - apply Hd. apply respects_findOutstandingAssignments; apply _.
  - apply across_sendReminder.
  - apply across_fire.
Qed.

(** Every call that does not write to the roster. *)
Lemma across_exec_others c : roster_call c = false → across (exec c).
Proof.
  intros Hc. destruct (release_call c) eqn:Hc'; [|apply across_exec_methods; assumption].
  destruct c; try discriminate Hc'. apply R_release.
Qed.

Lemma across_exec c : across (exec c).
Proof.
  destruct (roster_call c) eqn:Hc; [|apply across_exec_others, Hc].
  destruct c; try discriminate Hc; simpl exec; [apply R_add | apply R_remove].
Qed.
End Calls.

(** A relation that holds across every write to the console, to the roster
    and to the table of timers holds across the statements that only do
    that. *)
Section Aside.
Context (R : relation World) `{!Reflexive R, !Transitive R}.
Context (R_log : ∀ w lines, R w (with_console lines w)).
Context (R_roster : ∀ w r, R w (with_students r w)).
Context (R_timers : ∀ w ts next, R w (with_next_timer next (with_timers ts w))).
Context (R_status : ∀ this i st, respects R (updateAssignment this i (set_status st))).
Context (R_handle : ∀ this i t, respects R (updateAssignment this i (set_workTimeoutId t))).

Lemma aside_addStudent student : respects R (addStudent student).
Proof.
  intros w u w'. unfold addStudent. destruct (includes (students w) student).
  - intros H. injection H as H. subst w'. reflexivity.
  - apply respects_bind; [apply _ | apply respects_getStudent; apply _ | intros s].
    apply respects_bind; [apply _ | | intros _].
    + intros w1 u1 w2 H. injection H as H. subst w2. apply R_roster.
    + intros w1 u1 w2 H. injection H as H. subst w2. apply R_log.
Qed.

Lemma aside_removeStudent studentOrName : respects R (removeStudent studentOrName).
Proof.
  unfold removeStudent. apply respects_bind; [apply _ | | intros name].
  - destruct studentOrName as [student|name]; [|apply respects_ret; apply _].
    apply respects_bind; [apply _ | apply respects_getStudent; apply _ | intros s].
    apply respects_ret. apply _.
  - intros w u w' H. injection H as H. subst w'. apply R_roster.
Qed.

Lemma aside_setTimeout cb delay : respects R (setTimeout cb delay).
Proof. intros w id w' H. injection H as _ H. subst w'. apply R_timers. Qed.

Lemma aside_clearTimeout id : respects R (clearTimeout id).
Proof.
  intros w u w' H. injection H as H. subst w'.
  apply (R_timers w (filter (λ t, timer_id t ≠ id) (timers w)) (next_timer w)).
Qed.

Lemma aside__notifyObserver this i isReminder :
  respects R (_notifyObserver this i isReminder).
Proof.
  apply respects_bind; [apply _ | apply respects_getStudent; apply _ | intros s].
  intros w u w' H. apply notify_if_present_inv in H as [lines ->]. apply R_log.
Qed.

Lemma aside_work this i name :
  respects R (updateAssignment this i (set_status "working") ;;
              _notifyObserver this i false ;;
              clear_work_timer this i ;;
              let! id := setTimeout (auto_submit this i name) 500 in
              updateAssignment this i (set_workTimeoutId (Some id))).
Proof.
  apply respects_bind; [apply _ | apply R_status | intros _].
  apply respects_bind; [apply _ | apply aside__notifyObserver | intros _].
  apply respects_bind; [apply _ | | intros _].
  { apply respects_bind; [apply _ | apply respects_getAssignment; apply _ | intros a].
    destruct (_workTimeoutId a); [apply aside_clearTimeout | apply respects_ret; apply _]. }
  apply respects_bind; [apply _ | apply aside_setTimeout | intros id]. apply R_handle.
Qed.

Lemma aside_submit this i :
  respects R (cancel_work_timer this i ;;
              updateAssignment this i (set_status "submitted") ;;
              _notifyObserver this i false ;;
              let! _ := setTimeout (auto_grade this i) 500 in ret tt).
Proof.
  apply respects_bind; [apply _ | | intros _].
  { apply respects_bind; [apply _ | apply respects_getAssignment; apply _ | intros a].
    destruct (_workTimeoutId a); [|apply respects_ret; apply _].
    apply respects_bind; [apply _ | apply aside_clearTimeout | intros _]. apply R_handle. }
  apply respects_bind; [apply _ | apply R_status | intros _].
  apply respects_bind; [apply _ | apply aside__notifyObserver | intros _].
  apply respects_bind; [apply _ | apply aside_setTimeout | intros _].
  apply respects_ret. apply _.
Qed.

Lemma aside_releaseAssignmentsParallel names :
  respects R (releaseAssignmentsParallel names).
Proof.
  intros w u w'. unfold releaseAssignmentsParallel. generalize (students w) as roster.
  intros roster. revert w u w'.
  apply respects_forEach; [apply _ | apply _ | intros name].
  apply respects_forEach; [apply _ | apply _ | intros student].
  apply respects_bind; [apply _ | apply aside_setTimeout | intros _].
  apply respects_ret. apply _.
Qed.
End Aside.

(** The statements of the previous section, for a relation given with its
    proofs [tac] of the hypotheses of that section. *)
Ltac aside tac :=
  first
    [ apply aside_addStudent
    | apply aside_removeStudent
    | apply aside_clearTimeout
    | apply aside_work
    | apply aside_submit
    | apply aside_releaseAssignmentsParallel ];
  try apply _; tac.

(** ** Induction over the calls, for a property of every Student *)

Global Instance keeps_refl P : Reflexive (keeps P).
Proof. intros w H. exact H. Qed.

Global Instance keeps_trans P : Transitive (keeps P).
Proof. intros w1 w2 w3 H12 H23 H. apply H23, H12, H. Qed.

Lemma all_students_store (Q : Student → Prop) this s' w :
  all_students Q w → Q s' → all_students Q (store this s' w).
Proof.
  intros HQ Hs' r s Hr. simpl in Hr. destruct (decide (r = this)) as [->|Hne].
  - destruct (decide (this < length (heap w))) as [Hlt|Hge].
    + rewrite list_lookup_insert_eq in Hr by exact Hlt. injection Hr as <-. exact Hs'.
    + rewrite list_insert_ge in Hr by lia. eapply HQ, Hr.
  - rewrite list_lookup_insert_ne in Hr by auto. eapply HQ, Hr.
Qed.

Section Students.
Context (Q : Student → Prop).
Context (Q_new : ∀ fullName email o, Q (new_Student fullName email o)).
Context (Q_created : ∀ s name,
            Q s → find_index (has_name name) (assignmentStatuses s) = None →
            Q (created_student name s)).
Context (Q_status : ∀ s i a st,
            Q s → assignmentStatuses s !! i = Some a →
            Q (with_assignments (<[i := set_status st a]> (assignmentStatuses s)) s)).
Context (Q_handle : ∀ s i a t,
            Q s → assignmentStatuses s !! i = Some a →
            Q (with_assignments (<[i := set_workTimeoutId t a]> (assignmentStatuses s)) s)).
Context (Q_graded : ∀ s i a g,
            Q s → assignmentStatuses s !! i = Some a →
            Q (with_overallGrade
                 (computed_mean (<[i := setGrade g a]> (assignmentStatuses s)))
                 (with_assignments (<[i := setGrade g a]> (assignmentStatuses s)) s))).
Context (Q_recalculated : ∀ s,
            Q s → Q (with_overallGrade (computed_mean (assignmentStatuses s)) s)).
Context (Q_fullName : ∀ s name, Q s → Q (with_fullName name s)).
Context (Q_email : ∀ s email, Q s → Q (with_email email s)).

Local Abbreviation inv := (all_students Q).

Lemma inv_heap w w' : heap w' = heap w → keeps inv w w'.
Proof. intros Hh HQ r s Hr. rewrite Hh in Hr. eapply HQ, Hr. Qed.

Lemma inv_find_or_create this name : respects (keeps inv) (find_or_create this name).
Proof.
  intros w i w' H HQ. destruct (heap w !! this) as [s|] eqn:Hs.
  - destruct (find_index (has_name name) (assignmentStatuses s)) as [j|] eqn:Hj.
    + rewrite (find_or_create_found _ _ _ _ _ Hs Hj) in H. injection H as _ <-. exact HQ.
    + rewrite (find_or_create_new _ _ _ _ Hs Hj) in H. injection H as _ <-.
      apply (inv_heap (store this (created_student name s) w)); [reflexivity|].
      apply all_students_store; [exact HQ|]. apply Q_created; [eapply HQ, Hs | exact Hj].
  - apply bind_inv in H as (f & w1 & H & _). apply bind_inv in H as (s & w2 & H & _).
    apply getStudent_inv in H as [_ H]. rewrite Hs in H. discriminate H.
Qed.

Lemma inv_updateAssignment this i f :
  (∀ s a, Q s → assignmentStatuses s !! i = Some a →
          Q (with_assignments (<[i := f a]> (assignmentStatuses s)) s)) →
  respects (keeps inv) (updateAssignment this i f).
Proof.
  intros Hf w u w' H HQ. apply updateAssignment_inv in H as (s & a & Hs & Ha & ->).
  apply all_students_store; [exact HQ|]. apply Hf; [eapply HQ, Hs | exact Ha].
Qed.

Lemma inv_grading this i g : respects (keeps inv) (grading this i g).
Proof.
  intros w u w' H HQ. unfold grading in H.
  apply bind_inv in H as (u1 & w1 & H1 & H).
  apply updateAssignment_inv in H1 as (s & a & Hs & Ha & ->).
  apply bind_inv in H as (u2 & w2 & H2 & H).
  apply bind_inv in H2 as (s2 & w0 & Hs2 & H2). apply getStudent_inv in Hs2 as [-> Hs2].
  apply notify_if_present_inv in H2 as [lines ->].
  apply bind_inv in H as (g3 & w3 & H3 & H). injection H as _ <-.
  assert (Hlt : this < length (heap w)) by (eapply lookup_lt_Some, Hs).
  rewrite (_recalculateOverallGrade_eq this _
             (with_assignments (<[i := setGrade g a]> (assignmentStatuses s)) s)) in H3
    by (apply heap_store, Hlt).
  injection H3 as _ <-.
  intros r s' Hr. simpl in Hr. rewrite list_insert_insert_eq in Hr.
  eapply (all_students_store Q this _ w HQ); [|exact Hr].
  apply Q_graded; [eapply HQ, Hs | exact Ha].
Qed.
Lemma inv__recalculateOverallGrade this :
  respects (keeps inv) (_recalculateOverallGrade this).
Proof.
  intros w g w' H HQ. destruct (heap w !! this) as [s|] eqn:Hs.
  - rewrite (_recalculateOverallGrade_eq _ _ _ Hs) in H. injection H as _ <-.
    apply (all_students_store Q this _ w HQ). apply Q_recalculated. eapply HQ, Hs.
  - unfold _recalculateOverallGrade, bind, getStudent in H. rewrite Hs in H. discriminate H.
Qed.

Lemma inv_setFullName this name : respects (keeps inv) (setFullName this name).
Proof.
  intros w u w' H HQ. apply bind_inv in H as (s & w1 & Hs & H).
  apply getStudent_inv in Hs as [-> Hs]. injection H as H. subst w'.
  apply (all_students_store Q this _ w HQ). apply Q_fullName. eapply HQ, Hs.
Qed.

Lemma inv_setEmail this email : respects (keeps inv) (setEmail this email).
Proof.
  intros w u w' H HQ. apply bind_inv in H as (s & w1 & Hs & H).
  apply getStudent_inv in Hs as [-> Hs]. injection H as H. subst w'.
  apply (all_students_store Q this _ w HQ). apply Q_email. eapply HQ, Hs.
Qed.

Lemma inv_alloc_Student fullName email o :
  respects (keeps inv) (alloc_Student fullName email o).
Proof.
  intros w r w' H HQ. injection H as _ H. subst w'. intros j s Hj. simpl in Hj.
  apply lookup_app_Some in Hj as [Hj|[_ Hj]]; [eapply HQ, Hj|].
  apply list_lookup_singleton_Some in Hj as [_ <-]. apply Q_new.
Qed.

Lemma inv_exec c : respects (keeps inv) (exec c).
Proof.
  assert (Hstatus : ∀ this i st, respects (keeps inv) (updateAssignment this i (set_status st)))
    by (intros this i st; apply inv_updateAssignment; intros s a; apply Q_status).
  assert (Hhandle : ∀ this i t,
             respects (keeps inv) (updateAssignment this i (set_workTimeoutId t)))
    by (intros this i t; apply inv_updateAssignment; intros s a; apply Q_handle).
  apply across_exec; try apply _;
    try (aside ltac:(first [ intros; apply inv_heap; reflexivity
                           | intros; apply Hstatus
                           | apply Hhandle ])).
  - intros w lines. apply inv_heap. reflexivity.
  - apply inv_find_or_create.
  - intros this i. apply Hstatus.
  - intros this i. apply Hhandle.
  - apply inv_grading.
  - apply inv__recalculateOverallGrade.
  - apply inv_setFullName.
  - apply inv_setEmail.
  - apply inv_alloc_Student.
Qed.

Lemma reachable_all_students w : reachable w → inv w.
Proof.
  induction 1 as [o|w c w' _ IH [_ Hexec]].
  - intros r s Hr. simpl in Hr. discriminate Hr.
  - eapply inv_exec; eauto.
Qed.
End Students.

(** ** Two invariants of every Student *)

Lemma omap_insert_same {A B} (f : A → option B) (l : list A) i a a' :
  l !! i = Some a → f a' = f a → omap f (<[i := a']> l) = omap f l.
Proof.
  revert i. induction l as [|x l IH]; intros i Hi Hf; [reflexivity|].
  destruct i as [|i]; simpl in Hi.
  - injection Hi as ->. simpl. rewrite Hf. reflexivity.
  - pose proof (IH i Hi Hf) as E. simpl. destruct (f x); [f_equal|]; exact E.
Qed.

Lemma fmap_insert_same {A B} (f : A → B) (l : list A) i a a' :
  l !! i = Some a → f a' = f a → f <$> <[i := a']> l = f <$> l.
Proof.
  intros Hi Hf. rewrite list_fmap_insert, Hf. apply list_insert_id.
  rewrite list_lookup_fmap, Hi. reflexivity.
Qed.

Lemma find_index_None_names name (l : list Assignment) :
  find_index (has_name name) l = None → name ∉ assignmentName <$> l.
Proof.
  induction l as [|a l IH]; simpl; intros H Hin; [inversion Hin|].
  unfold has_name in H at 1. destruct (String.eqb_spec (assignmentName a) name) as [E|E];
    [discriminate H|].
  destruct (find_index (has_name name) l); [discriminate H|].
  apply elem_of_cons in Hin as [Hin|Hin]; [congruence | exact (IH eq_refl Hin)].
Qed.

Lemma reachable_average_current w : reachable w → all_students average_current w.
Proof.
  apply reachable_all_students; unfold average_current, present_grades.
  - reflexivity.
  - intros s name H _. simpl. rewrite omap_app. simpl. rewrite app_nil_r. exact H.
  - intros s i a st H Ha. simpl. rewrite (omap_insert_same _ _ _ a) by auto. exact H.
  - intros s i a t H Ha. simpl. rewrite (omap_insert_same _ _ _ a) by auto. exact H.
  - intros s i a g _ _. simpl. apply computed_mean_spec.
  - intros s _. simpl. apply computed_mean_spec.
  - intros s name H. exact H.
  - intros s email H. exact H.
Qed.

Lemma reachable_names_distinct w : reachable w → all_students names_distinct w.
Proof.
  apply reachable_all_students; unfold names_distinct.
  - constructor.
  - intros s name H Hnone. simpl. rewrite fmap_app. apply NoDup_app.
    split; [exact H|]. split; [|apply NoDup_singleton].
    intros n Hn Hn'. apply list_elem_of_singleton in Hn'. subst n.
    exact (find_index_None_names _ _ Hnone Hn).
  - intros s i a st H Ha. simpl. rewrite (fmap_insert_same _ _ _ a) by auto. exact H.
  - intros s i a t H Ha. simpl. rewrite (fmap_insert_same _ _ _ a) by auto. exact H.
  - intros s i a g H Ha. simpl. rewrite (fmap_insert_same _ _ _ a) by auto. exact H.
  - intros s H. exact H.
  - intros s name H. exact H.
  - intros s email H. exact H.
Qed.

(** X1: in every reachable state the [overallGrade] of every Student is the
    mean of the grades present in its assignments, as double arithmetic
    computes it (the grades added from the left in array order, one division
    by their number), and [null] when there is none: every statement that
    sets a grade is followed by [_recalculateOverallGrade]. *)
Theorem overallGrade_current w this s :
  reachable w →
  heap w !! this = Some s →
  overallGrade s = arithmetic_mean (present_grades s).
Proof. intros Hw Hs. exact (reachable_average_current w Hw this s Hs). Qed.

Lemma overallGrade_current_witness :
  Some (of_Z 75) = arithmetic_mean [of_Z 75].
Proof.
  exact (overallGrade_current Ada_passed 0 _ Ada_passed_reachable eq_refl).
Defined.

(** X2: in every reachable state the assignments of a Student have pairwise
    different names: an assignment is created only when [_findAssignment]
    finds none of that name, and names never change. *)
Theorem assignment_names_unique w this s i j a a' :
  reachable w →
  heap w !! this = Some s →
  assignmentStatuses s !! i = Some a →
  assignmentStatuses s !! j = Some a' →
  assignmentName a = assignmentName a' →
  i = j.
Proof.
  intros Hw Hs Hi Hj Hn. pose proof (reachable_names_distinct w Hw this s Hs) as Hnd.
  unfold names_distinct in Hnd.
  apply (proj1 (NoDup_alt _) Hnd i j (assignmentName a)); rewrite list_lookup_fmap.
  - rewrite Hi. reflexivity.
  - rewrite Hj, Hn. reflexivity.
Qed.

Lemma assignment_names_unique_witness : 0 = 0.
Proof.
  apply (assignment_names_unique Ada_two_timers 0 _ 0 0 _ _ Ada_two_timers_reachable eq_refl
           eq_refl eq_refl eq_refl).
Defined.

Lemma known_status_edit x a a' : known_status a → edit x a a' → known_status a'.
Proof.
  unfold known_status. intros H He. destruct He as [st Hst|g Hg|t]; simpl.
  - destruct Hst as [->|[->| ->]]; auto.
  - destruct (gt g (of_Z 50)); auto 10.
  - exact H.
Qed.

(** X3: in every reachable state the status of every assignment is one of the
    six strings "released", "working", "submitted", "final reminder", "Pass"
    and "Fail"; so [getAssignmentStatus] never returns its "Hasn't been
    assigned" for an existing assignment. *)
Theorem status_known w this s a :
  reachable w →
  heap w !! this = Some s →
  a ∈ assignmentStatuses s →
  known_status a ∧ status a ≠ not_assigned.
Proof.
  intros Hw Hs Ha. destruct (assignment_at_elem w this s a Hs Ha) as [i Hi].
  assert (H : known_status a).
  { eapply (reachable_all_assignments known_status w); eauto.
    - intros name. left. reflexivity.
    - intros a1 a2. apply known_status_edit. }
  split; [exact H|]. unfold known_status in H.
  destruct H as [H|[H|[H|[H|[H|H]]]]]; rewrite H; discriminate.
Qed.

Lemma status_known_witness :
  known_status (set_workTimeoutId (Some 2%positive)
                  (set_status "working" (new_Assignment "HW1")))
  ∧ status (set_workTimeoutId (Some 2%positive)
              (set_status "working" (new_Assignment "HW1"))) ≠ not_assigned.
Proof.
  apply (status_known Ada_two_timers 0 _ _ Ada_two_timers_reachable eq_refl). left.
Defined.

(** ** The roster *)

(** X4: in every reachable state the roster holds no Student twice, and
    every entry is a Student object. *)
Theorem roster_without_duplicates w :
  reachable w → NoDup (students w) ∧ roster_valid w.
Proof. intros Hw. split; [apply reachable_roster_NoDup | apply reachable_roster_valid]; exact Hw. Qed.

Lemma roster_without_duplicates_witness : NoDup (students two_Bobs) ∧ roster_valid two_Bobs.
Proof. exact (roster_without_duplicates two_Bobs two_Bobs_reachable). Defined.

Lemma addStudent_present student w :
  student ∈ students w → addStudent student w = Normal (tt, w).
Proof.
  intros H. unfold addStudent, includes. rewrite bool_decide_eq_true_2 by exact H.
  reflexivity.
Qed.

Lemma addStudent_absent student w s :
  student ∉ students w → heap w !! student = Some s →
  addStudent student w
  = Normal (tt, with_console (console w ++ [fullName s ++ " has been added to the classlist."]%string)
                  (with_students (students w ++ [student]) w)).
Proof.
  intros H Hs. unfold addStudent, includes. rewrite bool_decide_eq_false_2 by exact H.
  rewrite (bind_eq _ _ _ _ _ (getStudent_eq _ _ _ Hs)). reflexivity.
Qed.

(** X5: [addStudent] on a Student already in the roster changes nothing, not
    even the console; on another Student it appends it to the roster and
    writes one line; so adding twice is adding once. *)
Theorem addStudent_twice student w s :
  heap w !! student = Some s →
  ∃ w', addStudent student w = Normal (tt, w')
        ∧ (student ∈ students w → w' = w)
        ∧ (student ∉ students w →
           students w' = students w ++ [student]
           ∧ console w' = console w ++ [fullName s ++ " has been added to the classlist."]%string)
        ∧ (addStudent student ;; addStudent student) w = Normal (tt, w').
Proof.
  intros Hs. destruct (decide (student ∈ students w)) as [Hin|Hout].
  - exists w. split; [apply addStudent_present, Hin|]. split; [auto|].
    split; [intros H; contradiction|].
    rewrite (bind_eq _ _ _ _ _ (addStudent_present _ _ Hin)). apply addStudent_present, Hin.
  - eexists. split; [eapply addStudent_absent; eauto|]. split; [intros H; contradiction|].
    split; [intros _; split; reflexivity|].
    rewrite (bind_eq _ _ _ _ _ (addStudent_absent _ _ _ Hout Hs)).
    apply addStudent_present. simpl. apply elem_of_app. right. left.
Qed.

Lemma addStudent_twice_witness :
  ∃ w', addStudent 1 two_Bobs = Normal (tt, w')
        ∧ (1 ∈ students two_Bobs → w' = two_Bobs)
        ∧ (1 ∉ students two_Bobs →
           students w' = students two_Bobs ++ [1]
           ∧ console w' = console two_Bobs ++ ["Bob has been added to the classlist."])
        ∧ (addStudent 1 ;; addStudent 1) two_Bobs = Normal (tt, w').
Proof.
  exact (addStudent_twice 1 two_Bobs
           (with_assignments [new_Assignment "HW1"]
              (new_Student (Some "Bob") (Some "bob2@example.org")
                           (observer_object notify_method))) eq_refl).
Defined.

(** X6: [removeStudent], given a full name or a Student object, removes from
    the roster every Student of that full name (given an object, its
    namesakes too), keeps the others, and leaves the Student objects and
    everything else as they were; afterwards [findStudentByName] of that name
    returns [null]. *)
Theorem removeStudent_by_name studentOrName name w :
  name_to_remove w studentOrName = Some name →
  ∃ w', removeStudent studentOrName w = Normal (tt, w')
        ∧ w' = with_students (students w') w
        ∧ students w' `sublist_of` students w
        ∧ (∀ r, r ∈ students w' ↔
                r ∈ students w ∧ fullName <$> heap w !! r ≠ Some name)
        ∧ findStudentByName name w' = Normal (None, w').
Proof.
  intros Hn.
  assert (E : removeStudent studentOrName w
              = Normal (tt, with_students
                              (filter (λ r, fullName <$> heap w !! r ≠ Some name)
                                      (students w)) w)).
  { unfold removeStudent. destruct studentOrName as [student|n]; simpl in Hn.
    - destruct (heap w !! student) as [s|] eqn:Hs; [|discriminate Hn].
      injection Hn as <-. unfold bind at 1.
      rewrite (bind_eq _ _ _ _ _ (getStudent_eq _ _ _ Hs)). reflexivity.
    - injection Hn as <-. reflexivity. }
  eexists. split; [exact E|]. split; [reflexivity|]. split; [apply sublist_filter|].
  split.
  - intros r. simpl. rewrite list_elem_of_filter. tauto.
  - unfold findStudentByName. simpl.
    replace (list_find _ _) with (@None (nat * nat)); [reflexivity|].
    symmetry. apply list_find_None. apply Forall_forall. intros r Hr.
    apply list_elem_of_filter in Hr as [Hr _]. exact Hr.
Qed.

Lemma removeStudent_by_name_witness :
  ∃ w', removeStudent (inl 0) two_Bobs = Normal (tt, w')
        ∧ w' = with_students (students w') two_Bobs
        ∧ students w' `sublist_of` students two_Bobs
        ∧ (∀ r, r ∈ students w' ↔
                r ∈ students two_Bobs ∧ fullName <$> heap two_Bobs !! r ≠ Some "Bob")
        ∧ findStudentByName "Bob" w' = Normal (None, w').
Proof. exact (removeStudent_by_name (inl 0) "Bob" two_Bobs eq_refl). Defined.

(** X7: after [addStudent(student)], [findStudentByName] of the Student's full
    name returns a Student of the roster with that full name, the first one
    (which is a namesake if one was added before). *)
Theorem findStudentByName_after_addStudent student w s :
  heap w !! student = Some s →
  ∃ w' found s',
    addStudent student w = Normal (tt, w')
    ∧ findStudentByName (fullName s) w' = Normal (Some found, w')
    ∧ found ∈ students w'
    ∧ heap w' !! found = Some s'
    ∧ fullName s' = fullName s
    ∧ (found ≠ student →
       ∃ k k', students w' !! k = Some found ∧ students w' !! k' = Some student ∧ k < k').
Proof.
  intros Hs.
  assert (∃ w', addStudent student w = Normal (tt, w')
                ∧ heap w' = heap w ∧ student ∈ students w') as (w' & E & Hheap & Hmem).
  { destruct (decide (student ∈ students w)) as [H|H].
    - exists w. split; [apply addStudent_present, H | auto].
    - eexists. split; [eapply addStudent_absent; eauto|]. split; [reflexivity|].
      simpl. apply elem_of_app. right. left. }
  set (P := λ r : nat, fullName <$> heap w' !! r = Some (fullName s)).
  assert (HP : P student) by (unfold P; rewrite Hheap, Hs; reflexivity).
  destruct (list_find_elem_of P (students w') student Hmem HP) as [[k found] Hf].
  pose proof Hf as Hf'. apply list_find_Some in Hf' as (Hk & HPf & Hfirst).
  unfold P in HPf. destruct (heap w' !! found) as [s'|] eqn:Hs'; [|discriminate HPf].
  injection HPf as HPf.
  exists w', found, s'. split; [exact E|]. split.
  { unfold findStudentByName. fold P. rewrite Hf. reflexivity. }
  split; [eapply list_elem_of_lookup_2, Hk|]. split; [exact Hs'|]. split; [exact HPf|].
  intros Hne. apply list_elem_of_lookup in Hmem as [k' Hk'].
  exists k, k'. split; [exact Hk|]. split; [exact Hk'|].
  destruct (decide (k < k')) as [Hlt|Hge]; [exact Hlt|].
  exfalso. assert (k' < k ∨ k' = k) as [Hlt| ->] by lia.
  - exact (Hfirst k' student Hk' Hlt HP).
  - congruence.
Qed.

Lemma findStudentByName_after_addStudent_witness :
  ∃ w' found s',
    addStudent 1 two_Bobs = Normal (tt, w')
    ∧ findStudentByName "Bob" w' = Normal (Some found, w')
    ∧ found ∈ students w'
    ∧ heap w' !! found = Some s'
    ∧ fullName s' = "Bob"
    ∧ (found ≠ 1 →
       ∃ k k', students w' !! k = Some found ∧ students w' !! k' = Some 1 ∧ k < k').
Proof.
  exact (findStudentByName_after_addStudent 1 two_Bobs
           (with_assignments [new_Assignment "HW1"]
              (new_Student (Some "Bob") (Some "bob2@example.org")
                           (observer_object notify_method))) eq_refl).
Defined.

(** ** Reading a status *)

Lemma has_name_true name a : has_name name a = true ↔ assignmentName a = name.
Proof. unfold has_name. apply String.eqb_eq. Qed.

Lemma find_index_none {A} (p : A → bool) (l : list A) :
  find_index p l = None ↔ ∀ a, a ∈ l → p a = false.
Proof.
  induction l as [|x l IH]; simpl.
  - split; [intros _ a Ha; inversion Ha | reflexivity].
  - destruct (p x) eqn:Hp.
    + split; [discriminate|]. intros H. rewrite (H x) in Hp by left. discriminate Hp.
    + destruct (find_index p l) as [j|]; simpl.
      * split; [discriminate|]. intros H.
        assert (Hn : Some j = None); [|discriminate Hn].
        apply IH. intros a Ha. apply H. right. exact Ha.
      * split; [|reflexivity]. intros _ a Ha.
        apply elem_of_cons in Ha as [->|Ha]; [exact Hp|]. apply (proj1 IH eq_refl a Ha).
Qed.

(** X8: [getAssignmentStatus] changes nothing and creates nothing; in a
    reachable state it returns "Hasn't been assigned" exactly when the
    Student has no assignment of that name, and otherwise the status of the
    assignment of that name. *)
Theorem getAssignmentStatus_reads w this s name :
  reachable w →
  heap w !! this = Some s →
  ∃ result,
    getAssignmentStatus this name w = Normal (result, w)
    ∧ (result = not_assigned ↔
       ∀ a, a ∈ assignmentStatuses s → assignmentName a ≠ name)
    ∧ (∀ a, a ∈ assignmentStatuses s → assignmentName a = name → result = status a).
Proof.
  intros Hw Hs. unfold getAssignmentStatus.
  rewrite (bind_eq _ _ _ _ _ (_findAssignment_eq _ name _ _ Hs)).
  destruct (find_index (has_name name) (assignmentStatuses s)) as [i|] eqn:Hi.
  - destruct (find_index_Some _ _ _ Hi) as (a0 & Ha0 & Hn0 & _).
    apply has_name_true in Hn0.
    rewrite (bind_eq _ _ _ _ _ (getAssignment_eq _ _ _ _ _ Hs Ha0)).
    exists (status a0). split; [reflexivity|]. split.
    + split.
      * intros Hst. exfalso.
        assert (Hk : known_status a0).
        { eapply (reachable_all_assignments known_status w); eauto.
          - intros n. left. reflexivity.
          - intros a1 a2. apply known_status_edit.
          - apply assignment_at_Some. eauto. }
        unfold known_status in Hk. rewrite Hst in Hk.
        destruct Hk as [H|[H|[H|[H|[H|H]]]]]; discriminate H.
      * intros H. exfalso. apply (H a0); [eapply list_elem_of_lookup_2, Ha0 | exact Hn0].
    + intros a Ha Hn. apply list_elem_of_lookup in Ha as [j Hj].
      pose proof (reachable_names_distinct w Hw this s Hs) as Hnd. unfold names_distinct in Hnd.
      assert (i = j).
      { apply (proj1 (NoDup_alt _) Hnd i j name); rewrite list_lookup_fmap.
        - rewrite Ha0. simpl. rewrite Hn0. reflexivity.
        - rewrite Hj. simpl. rewrite Hn. reflexivity. }
      subst j. congruence.
  - exists not_assigned. split; [reflexivity|].
    pose proof (proj1 (find_index_none _ _) Hi) as Hnone. split.
    + split; [|reflexivity]. intros _ a Ha Hn.
      apply has_name_true in Hn. rewrite (Hnone a Ha) in Hn. discriminate Hn.
    + intros a Ha Hn. apply has_name_true in Hn. rewrite (Hnone a Ha) in Hn. discriminate Hn.
Qed.

Lemma getAssignmentStatus_reads_witness :
  ∃ result,
    getAssignmentStatus 0 "HW2" Ada_two_timers = Normal (result, Ada_two_timers)
    ∧ (result = not_assigned ↔
       ∀ a, a ∈ [set_workTimeoutId (Some 2%positive)
                   (set_status "working" (new_Assignment "HW1"))] →
            assignmentName a ≠ "HW2")
    ∧ (∀ a, a ∈ [set_workTimeoutId (Some 2%positive)
                   (set_status "working" (new_Assignment "HW1"))] →
            assignmentName a = "HW2" → result = status a).
Proof.
  exact (getAssignmentStatus_reads Ada_two_timers 0 _ "HW2" Ada_two_timers_reachable eq_refl).
Defined.

(** ** findOutstandingAssignments with a name *)

Lemma outstanding_for_true name s :
  outstanding_for name s = true ↔
  ∃ a, find (has_name name) (assignmentStatuses s) = Some a
       ∧ status a ≠ "submitted" ∧ status a ≠ "Pass" ∧ status a ≠ "Fail".
Proof.
  unfold outstanding_for. destruct (find (has_name name) (assignmentStatuses s)) as [a|].
  - rewrite !andb_true_iff, !negb_true_iff, !String.eqb_neq. split.
    + intros [[H1 H2] H3]. exists a. auto.
    + intros (a' & [= <-] & H1 & H2 & H3). auto.
  - split; [discriminate|]. intros (a & H & _). discriminate H.
Qed.

(** X9: with a non-empty name, [findOutstandingAssignments(name)] changes
    nothing and returns one entry per Student of the roster, in roster order,
    whose first assignment of that name is neither "submitted" nor "Pass" nor
    "Fail": the Student's full name.  A Student with no assignment of that
    name contributes no entry (a namesake may).  With the empty string as
    name it is [findOutstandingAssignments()]: the test [if (assignmentName)]
    is false. *)
Theorem findOutstandingAssignments_with_name w name :
  roster_valid w →
  (name = "" →
   findOutstandingAssignments (Some name) w = findOutstandingAssignments None w)
  ∧ (name ≠ "" →
     findOutstandingAssignments (Some name) w
     = Normal (fullName <$> filter (λ s, outstanding_for name s = true) (roster_students w),
               w))
  ∧ (∀ s, outstanding_for name s = true ↔
          ∃ a, find (has_name name) (assignmentStatuses s) = Some a
               ∧ status a ≠ "submitted" ∧ status a ≠ "Pass" ∧ status a ≠ "Fail").
Proof.
  intros Hv. split; [intros ->; reflexivity|]. split; [|intros s; apply outstanding_for_true].
  intros Hne. rewrite (findOutstandingAssignments_eq _ w Hv).
  unfold outstanding_test, name_given.
  destruct (String.eqb_spec name "") as [E|_]; [contradiction | reflexivity].
Qed.

Lemma findOutstandingAssignments_with_name_witness :
  findOutstandingAssignments (Some "HW1") two_Bobs = Normal (["Bob"], two_Bobs).
Proof.
  destruct (findOutstandingAssignments_with_name two_Bobs "HW1") as (_ & H & _).
  - repeat constructor.
  - rewrite H by discriminate. reflexivity.
Defined.

(** ** What startWorking and submitAssignment do *)

Lemma find_index_None_find {A} (p : A → bool) (l : list A) :
  find_index p l = None → find p l = None.
Proof.
  induction l as [|x l IH]; simpl; [reflexivity|].
  destruct (p x); [discriminate|].
  destruct (find_index p l); [discriminate|]. intros _. apply IH. reflexivity.
Qed.

Lemma find_index_insert_name name (l : list Assignment) i a a' :
  l !! i = Some a → assignmentName a' = assignmentName a →
  find_index (has_name name) (<[i := a']> l) = find_index (has_name name) l.
Proof.
  revert i. induction l as [|x l IH]; intros i Hi Hn; [reflexivity|].
  destruct i as [|i]; simpl in Hi.
  - injection Hi as ->. simpl. unfold has_name at 1 3. rewrite Hn. reflexivity.
  - simpl. rewrite (IH i Hi Hn). reflexivity.
Qed.


(** After the creation block: the assignment of that name, its position, and
    what has not changed. *)
Lemma find_or_create_spec this name w s :
  heap w !! this = Some s →
  ∃ i w1 s1,
    find_or_create this name w = Normal (i, w1)
    ∧ heap w1 !! this = Some s1
    ∧ find_index (has_name name) (assignmentStatuses s1) = Some i
    ∧ assignmentStatuses s1 !! i = Some (named_assignment name s)
    ∧ timers w1 = timers w ∧ next_timer w1 = next_timer w
    ∧ students w1 = students w ∧ class_observer w1 = class_observer w
    ∧ (∀ r, r ≠ this → heap w1 !! r = heap w !! r)
    ∧ observer s1 = observer s ∧ fullName s1 = fullName s.
Proof.
  intros Hs. unfold named_assignment.
  destruct (find_index (has_name name) (assignmentStatuses s)) as [i|] eqn:Hi.
  - destruct (find_index_Some _ _ _ Hi) as (a & Ha & _ & Hf). rewrite Hf.
    exists i, w, s. split; [eapply find_or_create_found; eauto|]. auto 12.
  - rewrite (find_index_None_find _ _ Hi). simpl.
    exists (length (assignmentStatuses s)), (created this name s w), (created_student name s).
    split; [apply find_or_create_new; auto|]. split; [apply created_lookup, Hs|].
    split. { simpl. apply find_index_app_new; [exact Hi|]. apply has_name_true. reflexivity. }
    split. { simpl. apply list_lookup_middle. reflexivity. }
    repeat (split; [reflexivity|]). split; [|split; reflexivity].
    intros r Hr. simpl. apply list_lookup_insert_ne. auto.
Qed.

Lemma rearm_eq this i name delay w s a :
  heap w !! this = Some s → assignmentStatuses s !! i = Some a →
  (clear_work_timer this i ;;
   let! id := setTimeout (auto_submit this i name) delay in
   updateAssignment this i (set_workTimeoutId (Some id))) w
  = Normal (tt,
      put_assignment this i (set_workTimeoutId (Some (next_timer w)) a) s
        (with_next_timer (Pos.succ (next_timer w))
           (with_timers (cleared (_workTimeoutId a) (timers w)
                         ++ [mkTimer (next_timer w) (auto_submit this i name) delay]) w))).
Proof.
  intros Hs Ha. unfold clear_work_timer. unfold bind at 1.
  rewrite (bind_eq _ _ _ _ _ (getAssignment_eq _ _ _ _ _ Hs Ha)).
  destruct (_workTimeoutId a) as [old|]; simpl; unfold bind at 1; simpl;
    rewrite (updateAssignment_eq this i _ _ s a) by assumption; reflexivity.
Qed.

Lemma cancel_work_timer_eq this i w s a :
  heap w !! this = Some s → assignmentStatuses s !! i = Some a →
  ∃ w1 s1,
    cancel_work_timer this i w = Normal (tt, w1)
    ∧ heap w1 !! this = Some s1
    ∧ assignmentStatuses s1 = <[i := set_workTimeoutId None a]> (assignmentStatuses s)
    ∧ timers w1 = cleared (_workTimeoutId a) (timers w)
    ∧ next_timer w1 = next_timer w ∧ console w1 = console w
    ∧ observer s1 = observer s ∧ fullName s1 = fullName s.
Proof.
  intros Hs Ha. unfold cancel_work_timer.
  rewrite (bind_eq _ _ _ _ _ (getAssignment_eq _ _ _ _ _ Hs Ha)).
  destruct (_workTimeoutId a) as [id|] eqn:Hid.
  - unfold bind at 1. simpl.
    rewrite (updateAssignment_eq this i _ _ s a) by assumption.
    eexists _, _. split; [reflexivity|].
    split; [apply heap_store; eapply lookup_lt_Some, Hs|]. simpl. auto 10.
  - exists w, s. split; [reflexivity|]. split; [exact Hs|]. split; [|auto 10].
    symmetry. apply list_insert_id. rewrite Ha. f_equal.
    destruct a; simpl in *; subst; reflexivity.
Qed.

(** X10: [startWorking(name)] on an existing Student returns normally.  The
    assignment of that name (created if there was none) gets the status
    "working" whatever its status was, keeps its grade, and holds in
    [_workTimeoutId] the id of a new auto-submit timer of delay 500; the timer
    it held before has been cleared, and no other timer is touched. *)
Theorem startWorking_effect this name w s :
  heap w !! this = Some s →
  ∃ w' s' i,
    startWorking this name w = Normal (tt, w')
    ∧ heap w' !! this = Some s'
    ∧ find_index (has_name name) (assignmentStatuses s') = Some i
    ∧ assignmentStatuses s' !! i
      = Some (set_workTimeoutId (Some (next_timer w))
                (set_status "working" (named_assignment name s)))
    ∧ timers w'
      = cleared (_workTimeoutId (named_assignment name s)) (timers w)
        ++ [mkTimer (next_timer w) (auto_submit this i name) 500]
    ∧ next_timer w' = Pos.succ (next_timer w).
Proof.
  intros Hs.
  destruct (find_or_create_spec this name w s Hs)
    as (i & w1 & s1 & E1 & Hs1 & Hi1 & Ha1 & Ht1 & Hn1 & _).
  set (a0 := named_assignment name s) in *.
  unfold startWorking. rewrite (bind_eq _ _ _ _ _ E1).
  rewrite (bind_eq _ _ _ _ _ (updateAssignment_eq _ _ _ _ _ _ Hs1 Ha1)).
  set (s2 := with_assignments (<[i := set_status "working" a0]> (assignmentStatuses s1)) s1).
  assert (Hlt : this < length (heap w1)) by (eapply lookup_lt_Some, Hs1).
  assert (Hi : i < length (assignmentStatuses s1)) by (eapply lookup_lt_Some, Ha1).
  assert (Ha2 : assignmentStatuses s2 !! i = Some (set_status "working" a0))
    by (simpl; apply list_lookup_insert_eq, Hi).
  rewrite (bind_eq _ _ _ _ _
             (_notifyObserver_eq this i false _ s2 _ (heap_store _ _ _ Hlt) Ha2)).
  rewrite (rearm_eq this i name 500 _ s2 (set_status "working" a0));
    [|simpl; apply list_lookup_insert_eq; exact Hlt|exact Ha2].
  eexists _, _, i. split; [reflexivity|].
  split. { simpl. apply list_lookup_insert_eq. rewrite length_insert. exact Hlt. }
  split. { simpl. rewrite list_insert_insert_eq.
           rewrite (find_index_insert_name _ _ _ _ _ Ha1); [exact Hi1 | reflexivity]. }
  split. { simpl. rewrite <- Hn1. apply list_lookup_insert_eq. rewrite length_insert. exact Hi. }
  simpl. rewrite Ht1, Hn1. split; reflexivity.
Qed.

Lemma startWorking_effect_witness :
  ∃ w' s' i,
    startWorking 0 "HW1" Ada_new = Normal (tt, w')
    ∧ heap w' !! 0 = Some s'
    ∧ find_index (has_name "HW1") (assignmentStatuses s') = Some i
    ∧ assignmentStatuses s' !! i
      = Some (set_workTimeoutId (Some (next_timer Ada_new))
                (set_status "working" (named_assignment "HW1" Ada)))
    ∧ timers w'
      = cleared (_workTimeoutId (named_assignment "HW1" Ada)) (timers Ada_new)
        ++ [mkTimer (next_timer Ada_new) (auto_submit 0 i "HW1") 500]
    ∧ next_timer w' = Pos.succ (next_timer Ada_new).
Proof. apply (startWorking_effect 0 "HW1" Ada_new Ada). reflexivity. Defined.

Lemma submitAssignment_done this name w s :
  heap w !! this = Some s →
  (∃ a, find (has_name name) (assignmentStatuses s) = Some a ∧ is_done (status a) = true) →
  submitAssignment this name w = Normal (tt, w).
Proof.
  intros Hs (a & Hf & Hd).
  destruct (find_index (has_name name) (assignmentStatuses s)) as [i|] eqn:Hi.
  - destruct (find_index_Some _ _ _ Hi) as (a' & Ha & _ & Hf').
    assert (a' = a) by congruence. subst a'.
    unfold submitAssignment.
    rewrite (bind_eq _ _ _ _ _ (find_or_create_found _ _ _ _ _ Hs Hi)).
    rewrite (bind_eq _ _ _ _ _ (getAssignment_eq _ _ _ _ _ Hs Ha)).
    rewrite Hd. reflexivity.
  - rewrite (find_index_None_find _ _ Hi) in Hf. discriminate Hf.
Qed.

Lemma find_index_find {A} (p : A → bool) (l : list A) i a :
  find_index p l = Some i → l !! i = Some a → find p l = Some a.
Proof.
  intros Hi Ha. destruct (find_index_Some _ _ _ Hi) as (a' & Ha' & _ & Hf). congruence.
Qed.

(** X11: [submitAssignment(name)] on an existing Student whose assignment of
    that name is not yet "submitted", "Pass" or "Fail" (or does not exist yet)
    returns normally.  The assignment gets the status "submitted", keeps its
    grade and loses its timer handle; the auto-submit timer it held is cleared
    and one auto-grade timer of delay 500 is added at the end of the table. *)
Theorem submitAssignment_effect this name w s :
  heap w !! this = Some s →
  is_done (status (named_assignment name s)) = false →
  ∃ w' s' i,
    submitAssignment this name w = Normal (tt, w')
    ∧ heap w' !! this = Some s'
    ∧ find_index (has_name name) (assignmentStatuses s') = Some i
    ∧ assignmentStatuses s' !! i
      = Some (set_status "submitted" (set_workTimeoutId None (named_assignment name s)))
    ∧ timers w'
      = cleared (_workTimeoutId (named_assignment name s)) (timers w)
        ++ [mkTimer (next_timer w) (auto_grade this i) 500]
    ∧ next_timer w' = Pos.succ (next_timer w).
Proof.
  intros Hs Hd.
  destruct (find_or_create_spec this name w s Hs)
    as (i & w1 & s1 & E1 & Hs1 & Hi1 & Ha1 & Ht1 & Hn1 & _).
  set (a0 := named_assignment name s) in *.
  unfold submitAssignment. rewrite (bind_eq _ _ _ _ _ E1).
  rewrite (bind_eq _ _ _ _ _ (getAssignment_eq _ _ _ _ _ Hs1 Ha1)). rewrite Hd.
  destruct (cancel_work_timer_eq this i w1 s1 a0 Hs1 Ha1)
    as (w2 & s2 & E2 & Hs2 & Hl2 & Ht2 & Hn2 & _).
  rewrite (bind_eq _ _ _ _ _ E2).
  assert (Hi : i < length (assignmentStatuses s1)) by (eapply lookup_lt_Some, Ha1).
  assert (Ha2 : assignmentStatuses s2 !! i = Some (set_workTimeoutId None a0))
    by (rewrite Hl2; apply list_lookup_insert_eq, Hi).
  rewrite (bind_eq _ _ _ _ _ (updateAssignment_eq _ _ _ _ _ _ Hs2 Ha2)).
  set (s3 := with_assignments
               (<[i := set_status "submitted" (set_workTimeoutId None a0)]>
                  (assignmentStatuses s2)) s2).
  assert (Hlt : this < length (heap w2)) by (eapply lookup_lt_Some, Hs2).
  assert (Ha3 : assignmentStatuses s3 !! i
                = Some (set_status "submitted" (set_workTimeoutId None a0))).
  { simpl. apply list_lookup_insert_eq. rewrite Hl2, length_insert. exact Hi. }
  rewrite (bind_eq _ _ _ _ _
             (_notifyObserver_eq this i false _ s3 _ (heap_store _ _ _ Hlt) Ha3)).
  unfold bind, setTimeout, ret. simpl.
  eexists _, s3, i. split; [reflexivity|].
  split. { simpl. apply list_lookup_insert_eq, Hlt. }
  split. { simpl. rewrite Hl2, list_insert_insert_eq.
           rewrite (find_index_insert_name _ _ _ _ _ Ha1); [exact Hi1 | reflexivity]. }
  split; [exact Ha3|].
  rewrite Ht2, Hn2, Ht1, Hn1. split; reflexivity.
Qed.

Lemma submitAssignment_effect_witness :
  ∃ w' s' i,
    submitAssignment 0 "HW1" Ada_new = Normal (tt, w')
    ∧ heap w' !! 0 = Some s'
    ∧ find_index (has_name "HW1") (assignmentStatuses s') = Some i
    ∧ assignmentStatuses s' !! i
      = Some (set_status "submitted" (set_workTimeoutId None (named_assignment "HW1" Ada)))
    ∧ timers w'
      = cleared (_workTimeoutId (named_assignment "HW1" Ada)) (timers Ada_new)
        ++ [mkTimer (next_timer Ada_new) (auto_grade 0 i) 500]
    ∧ next_timer w' = Pos.succ (next_timer Ada_new).
Proof. apply (submitAssignment_effect 0 "HW1" Ada_new Ada); reflexivity. Defined.

Lemma submitAssignment_then_done this name w s :
  heap w !! this = Some s →
  ∃ w' s' a,
    submitAssignment this name w = Normal (tt, w')
    ∧ heap w' !! this = Some s'
    ∧ find (has_name name) (assignmentStatuses s') = Some a
    ∧ is_done (status a) = true.
Proof.
  intros Hs. destruct (is_done (status (named_assignment name s))) eqn:Hd.
  - destruct (find_or_create_spec this name w s Hs)
      as (i & w1 & s1 & E1 & Hs1 & Hi1 & Ha1 & _).
    unfold submitAssignment. rewrite (bind_eq _ _ _ _ _ E1).
    rewrite (bind_eq _ _ _ _ _ (getAssignment_eq _ _ _ _ _ Hs1 Ha1)). rewrite Hd.
    exists w1, s1, (named_assignment name s). split; [reflexivity|].
    split; [exact Hs1|]. split; [eapply find_index_find; eauto | exact Hd].
  - destruct (find_or_create_spec this name w s Hs)
      as (i & w1 & s1 & E1 & Hs1 & Hi1 & Ha1 & Ht1 & Hn1 & _).
    set (a0 := named_assignment name s) in *.
    unfold submitAssignment. rewrite (bind_eq _ _ _ _ _ E1).
    rewrite (bind_eq _ _ _ _ _ (getAssignment_eq _ _ _ _ _ Hs1 Ha1)). rewrite Hd.
    destruct (cancel_work_timer_eq this i w1 s1 a0 Hs1 Ha1)
      as (w2 & s2 & E2 & Hs2 & Hl2 & Ht2 & Hn2 & _).
    rewrite (bind_eq _ _ _ _ _ E2).
    assert (Hi : i < length (assignmentStatuses s1)) by (eapply lookup_lt_Some, Ha1).
    assert (Ha2 : assignmentStatuses s2 !! i = Some (set_workTimeoutId None a0))
      by (rewrite Hl2; apply list_lookup_insert_eq, Hi).
    rewrite (bind_eq _ _ _ _ _ (updateAssignment_eq _ _ _ _ _ _ Hs2 Ha2)).
    set (s3 := with_assignments
                 (<[i := set_status "submitted" (set_workTimeoutId None a0)]>
                    (assignmentStatuses s2)) s2).
    assert (Hlt : this < length (heap w2)) by (eapply lookup_lt_Some, Hs2).
    assert (Ha3 : assignmentStatuses s3 !! i
                  = Some (set_status "submitted" (set_workTimeoutId None a0))).
    { simpl. apply list_lookup_insert_eq. rewrite Hl2, length_insert. exact Hi. }
    rewrite (bind_eq _ _ _ _ _
               (_notifyObserver_eq this i false _ s3 _ (heap_store _ _ _ Hlt) Ha3)).
    unfold bind, setTimeout, ret. simpl.
    eexists _, s3, (set_status "submitted" (set_workTimeoutId None a0)).
    split; [reflexivity|].
    split. { simpl. apply list_lookup_insert_eq, Hlt. }
    split; [|reflexivity].
    apply (find_index_find _ _ i); [|exact Ha3].
    simpl. rewrite Hl2, list_insert_insert_eq.
    rewrite (find_index_insert_name _ _ _ _ _ Ha1); [exact Hi1 | reflexivity].
Qed.

(** X12: submitting twice is submitting once.  On an existing Student,
    [submitAssignment(name); submitAssignment(name)] ends in the same state as
    one call: the second call finds the assignment "submitted", "Pass" or
    "Fail" and schedules no second auto-grade timer. *)
Theorem submitAssignment_twice this name w s :
  heap w !! this = Some s →
  (submitAssignment this name ;; submitAssignment this name) w
  = submitAssignment this name w.
Proof.
  intros Hs.
  destruct (submitAssignment_then_done this name w s Hs) as (w' & s' & a & E & Hs' & Hf & Hd).
  rewrite (bind_eq _ _ _ _ _ E). rewrite E.
  apply (submitAssignment_done this name w' s' Hs'). eauto.
Qed.

Lemma submitAssignment_twice_witness :
  (submitAssignment 0 "HW1" ;; submitAssignment 0 "HW1") Ada_new
  = submitAssignment 0 "HW1" Ada_new.
Proof. apply (submitAssignment_twice 0 "HW1" Ada_new Ada). reflexivity. Defined.

(** ** Timers *)

Lemma pending_Some id w t : pending id w = Some t → t ∈ timers w ∧ timer_id t = id.
Proof.
  unfold pending. intros H. apply find_some in H as [Hin H].
  split; [apply list_elem_of_In, Hin | exact (bool_decide_eq_true_1 _ H)].
Qed.


Lemma Ada_graded_at_work_reachable : reachable Ada_graded_at_work.
Proof.
  apply (run_reachable work_grade_program (new_ClassList observer_null));
    [constructor | reflexivity].
Qed.

(** X13: an auto-submit timer that fires late does nothing.  When the
    assignment it was created for has in the meantime been submitted or
    graded (status "submitted", "Pass" or "Fail"), firing the timer only
    removes it from the table: no status changes, nothing is logged and no
    auto-grade task is scheduled. *)
Theorem auto_submit_late id random_grade w t this i name a :
  pending id w = Some t →
  timer_callback t = auto_submit this i name →
  assignment_at w this i = Some a →
  status a = "submitted" ∨ status a = "Pass" ∨ status a = "Fail" →
  fire id random_grade w = Normal (tt, with_timers (without id (timers w)) w).
Proof.
  intros Hp Hcb Ha Hst. unfold fire. fold (pending id w). rewrite Hp, Hcb.
  apply assignment_at_Some in Ha as (s & Hs & Ha).
  unfold bind at 1, clearTimeout at 1. simpl. unfold run_auto_submit.
  fold (without id (timers w)). set (w0 := with_timers _ w).
  assert (Hs0 : heap w0 !! this = Some s) by exact Hs.
  rewrite (bind_eq _ _ _ _ _ (getAssignment_eq this i _ s a Hs0 Ha)).
  destruct Hst as [->|[->| ->]]; reflexivity.
Qed.

Lemma auto_submit_late_witness :
  fire 1 3 Ada_graded_at_work = Normal (tt, with_timers [] Ada_graded_at_work).
Proof.
  eapply (auto_submit_late 1 3 Ada_graded_at_work _ 0 0 "HW1").
  - reflexivity.
  - reflexivity.
  - reflexivity.
  - right. left. reflexivity.
Defined.

(** On the integers that [Math.floor(Math.random() * 101)] draws, [> 50] on
    doubles is [> 50] on integers. *)
Lemma gt_of_Z (z : Z) :
  (0 ≤ z ≤ 100)%Z → gt (of_Z z) (of_Z 50) = bool_decide (50 < z)%Z.
Proof.
  intros Hz.
  assert (H : forallb (λ n, Bool.eqb (gt (of_Z (Z.of_nat n)) (of_Z 50))
                                     (bool_decide (50 < Z.of_nat n)%Z))
                      (seq 0 101) = true) by (vm_compute; reflexivity).
  rewrite forallb_forall in H. specialize (H (Z.to_nat z)).
  rewrite Z2Nat.id in H by lia. apply Bool.eqb_prop, H.
  apply in_seq. lia.
Qed.

(** X14: when the auto-grade timer of an assignment that has no grade yet
    fires with the drawn integer [random_grade] (from 0 to 100), the
    assignment gets that grade, with status "Pass" when it is above 50 and
    "Fail" otherwise (50 fails); the Student's [overallGrade] becomes the mean
    of its grades as double arithmetic computes it (added from the left, one
    division), and the timer leaves the table while the others stay. *)
Theorem auto_grade_fires id random_grade w t this i s a :
  (0 ≤ random_grade ≤ 100)%Z →
  pending id w = Some t →
  timer_callback t = auto_grade this i →
  heap w !! this = Some s → assignmentStatuses s !! i = Some a →
  _graded a = false →
  ∃ w' s',
    fire id random_grade w = Normal (tt, w')
    ∧ heap w' !! this = Some s'
    ∧ assignmentStatuses s'
      = <[i := setGrade (of_Z random_grade) a]> (assignmentStatuses s)
    ∧ status (setGrade (of_Z random_grade) a)
      = (if bool_decide (50 < random_grade)%Z then "Pass" else "Fail")
    ∧ overallGrade s' = arithmetic_mean (present_grades s')
    ∧ timers w' = without id (timers w).
Proof.
  intros Hz Hp Hcb Hs Ha Hg. unfold fire. fold (pending id w). rewrite Hp, Hcb.
  unfold bind at 1, clearTimeout at 1. simpl. unfold run_auto_grade.
  set (w0 := with_timers _ w).
  assert (Hs0 : heap w0 !! this = Some s) by exact Hs.
  rewrite (bind_eq _ _ _ _ _ (getAssignment_eq this i _ s a Hs0 Ha)). rewrite Hg.
  rewrite (bind_eq _ _ _ _ _ (updateAssignment_eq _ _ _ _ _ _ Hs0 Ha)).
  set (s1 := with_assignments (<[i := setGrade (of_Z random_grade) a]> (assignmentStatuses s)) s).
  assert (Hlt : this < length (heap w0)) by (eapply lookup_lt_Some, Hs0).
  assert (Hi : i < length (assignmentStatuses s)) by (eapply lookup_lt_Some, Ha).
  assert (Ha1 : assignmentStatuses s1 !! i = Some (setGrade (of_Z random_grade) a))
    by (simpl; apply list_lookup_insert_eq, Hi).
  rewrite (bind_eq _ _ _ _ _
             (_notifyObserver_eq this i false _ s1 _ (heap_store _ _ _ Hlt) Ha1)).
  set (w1 := with_console _ _).
  assert (Hs1 : heap w1 !! this = Some s1) by (apply heap_store, Hlt).
  rewrite (bind_eq _ _ _ _ _ (_recalculateOverallGrade_eq this w1 s1 Hs1)).
  eexists _, (with_overallGrade (computed_mean (assignmentStatuses s1)) s1).
  split; [reflexivity|].
  split. { simpl. apply list_lookup_insert_eq. rewrite length_insert. exact Hlt. }
  split; [reflexivity|].
  split; [rewrite <- (gt_of_Z random_grade Hz); reflexivity|].
  split; [apply computed_mean_spec | reflexivity].
Qed.

Lemma auto_grade_fires_witness :
  ∃ w' s',
    fire 1 50 Ada_submitted = Normal (tt, w')
    ∧ heap w' !! 0 = Some s'
    ∧ assignmentStatuses s'
      = <[0 := setGrade (of_Z 50) (set_status "submitted" (new_Assignment "HW1"))]>
          [set_status "submitted" (new_Assignment "HW1")]
    ∧ status (setGrade (of_Z 50) (set_status "submitted" (new_Assignment "HW1")))
      = (if bool_decide (50 < 50)%Z then "Pass" else "Fail")
    ∧ overallGrade s' = arithmetic_mean (present_grades s')
    ∧ timers w' = without 1 (timers Ada_submitted).
Proof.
  apply (auto_grade_fires 1 50 Ada_submitted (mkTimer 1 (auto_grade 0 0) 500) 0 0
           (with_assignments [set_status "submitted" (new_Assignment "HW1")] Ada)
           (set_status "submitted" (new_Assignment "HW1"))); [lia | reflexivity..].
Defined.

(** ** releaseAssignmentsParallel *)

Lemma release_loop name roster w :
  ∃ w', forEach roster (λ student,
          let! _ := setTimeout (release student name) 0 in ret tt) w = Normal (tt, w')
        ∧ heap w' = heap w ∧ students w' = students w ∧ console w' = console w
        ∧ class_observer w' = class_observer w
        ∧ ∃ new, timers w' = timers w ++ new
                 ∧ timer_callback <$> new = (λ student, release student name) <$> roster
                 ∧ Forall (λ t, timer_delay t = 0) new.
Proof.
  revert w. induction roster as [|x roster IH]; intros w.
  - exists w. repeat (split; [reflexivity|]). exists []. rewrite app_nil_r. auto.
  - simpl. unfold bind at 1. unfold bind at 1. simpl.
    destruct (IH (with_next_timer (Pos.succ (next_timer w))
                    (with_timers (timers w ++ [mkTimer (next_timer w) (release x name) 0]) w)))
      as (w' & E & Hh & Hst & Hc & Ho & new & Ht & Hcb & Hd).
    exists w'. split; [exact E|]. repeat (split; [assumption|]).
    exists (mkTimer (next_timer w) (release x name) 0 :: new).
    split; [rewrite Ht; simpl; rewrite <- app_assoc; reflexivity|].
    split; [simpl; f_equal; exact Hcb | constructor; [reflexivity | exact Hd]].
Qed.

Lemma release_all names roster w :
  ∃ w' new,
    forEach names (λ name, forEach roster (λ student,
      let! _ := setTimeout (release student name) 0 in ret tt)) w = Normal (tt, w')
    ∧ heap w' = heap w ∧ students w' = students w ∧ console w' = console w
    ∧ timers w' = timers w ++ new
    ∧ timer_callback <$> new = release_tasks names roster
    ∧ Forall (λ t, timer_delay t = 0) new.
Proof.
  revert w. induction names as [|name names IH]; intros w.
  - exists w, []. rewrite app_nil_r. repeat (split; [reflexivity|]). constructor.
  - destruct (release_loop name roster w)
      as (w1 & E1 & Hh1 & Hs1 & Hc1 & _ & new1 & Ht1 & Hcb1 & Hd1).
    destruct (IH w1) as (w2 & new2 & E2 & Hh2 & Hs2 & Hc2 & Ht2 & Hcb2 & Hd2).
    exists w2, (new1 ++ new2). split.
    { simpl. rewrite (bind_eq _ _ _ _ _ E1). exact E2. }
    split; [congruence|]. split; [congruence|]. split; [congruence|].
    split; [rewrite Ht2, Ht1, app_assoc; reflexivity|].
    split; [|apply Forall_app; auto].
    rewrite fmap_app, Hcb1, Hcb2. reflexivity.
Qed.

(** X15: [releaseAssignmentsParallel(names)] itself changes no Student, no
    roster and no console; up to its [await] it only schedules tasks of delay
    0, appended to the table: one per name and student of the roster as it is
    at the call, all the students of the first name first.  With no name or
    an empty roster it schedules nothing. *)
Theorem releaseAssignmentsParallel_schedules names w :
  ∃ w' new,
    releaseAssignmentsParallel names w = Normal (tt, w')
    ∧ heap w' = heap w ∧ students w' = students w ∧ console w' = console w
    ∧ timers w' = timers w ++ new
    ∧ timer_callback <$> new = release_tasks names (students w)
    ∧ Forall (λ t, timer_delay t = 0) new
    ∧ (names = [] ∨ students w = [] → w' = w).
Proof.
  destruct (release_all names (students w) w)
    as (w' & new & E & Hh & Hs & Hc & Ht & Hcb & Hd).
  exists w', new. split; [exact E|]. repeat (split; [assumption|]).
  intros Hempty. destruct Hempty as [->|Hnil].
  - simpl in E. injection E as <-. reflexivity.
  - rewrite Hnil in E. clear -E. revert E. induction names as [|name names IH]; simpl.
    + intros E. injection E as <-. reflexivity.
    + exact IH.
Qed.

Lemma releaseAssignmentsParallel_schedules_witness :
  ∃ w' new,
    releaseAssignmentsParallel ["HW1"; "HW2"] two_Bobs = Normal (tt, w')
    ∧ heap w' = heap two_Bobs ∧ students w' = students two_Bobs
    ∧ console w' = console two_Bobs
    ∧ timers w' = timers two_Bobs ++ new
    ∧ timer_callback <$> new = release_tasks ["HW1"; "HW2"] (students two_Bobs)
    ∧ Forall (λ t, timer_delay t = 0) new
    ∧ (["HW1"; "HW2"] = [] ∨ students two_Bobs = [] → w' = two_Bobs).
Proof. exact (releaseAssignmentsParallel_schedules ["HW1"; "HW2"] two_Bobs). Defined.

(** ** Who writes to the roster *)

Global Instance roster_kept_refl : Reflexive roster_kept.
Proof. intros w. reflexivity. Qed.

Global Instance roster_kept_trans : Transitive roster_kept.
Proof. intros w1 w2 w3 H12 H23. unfold roster_kept in *. congruence. Qed.

Global Instance class_observer_kept_refl : Reflexive class_observer_kept.
Proof. intros w. reflexivity. Qed.

Global Instance class_observer_kept_trans : Transitive class_observer_kept.
Proof. intros w1 w2 w3 H12 H23. unfold class_observer_kept in *. congruence. Qed.

(** A relation that holds across every write to the store and to the console
    holds across the statements of Student that write. *)
Section Stores.
Context (R : relation World) `{!Reflexive R, !Transitive R}.
Context (R_store : ∀ w h, R w (with_heap h w)).
Context (R_log : ∀ w lines, R w (with_console lines w)).

Lemma stores_find_or_create this name : respects R (find_or_create this name).
Proof.
  intros w i w' H. destruct (heap w !! this) as [s|] eqn:Hs.
  - destruct (find_index (has_name name) (assignmentStatuses s)) as [j|] eqn:Hj.
    + rewrite (find_or_create_found _ _ _ _ _ Hs Hj) in H. injection H as _ <-. reflexivity.
    + rewrite (find_or_create_new _ _ _ _ Hs Hj) in H. injection H as _ <-.
      unfold created, store. etransitivity; [apply R_store | apply R_log].
  - apply bind_inv in H as (f & w1 & H & _). apply bind_inv in H as (s & w2 & H & _).
    apply getStudent_inv in H as [_ H]. rewrite Hs in H. discriminate H.
Qed.

Lemma stores_updateAssignment this i f : respects R (updateAssignment this i f).
Proof.
  intros w u w' H. apply updateAssignment_inv in H as (s & a & Hs & Ha & ->).
  apply R_store.
Qed.

Lemma stores__recalculateOverallGrade this : respects R (_recalculateOverallGrade this).
Proof.
  intros w g w' H. destruct (heap w !! this) as [s|] eqn:Hs.
  - rewrite (_recalculateOverallGrade_eq _ _ _ Hs) in H. injection H as _ <-. apply R_store.
  - unfold _recalculateOverallGrade, bind, getStudent in H. rewrite Hs in H. discriminate H.
Qed.

Lemma stores_grading this i g : respects R (grading this i g).
Proof.
  unfold grading.
  apply respects_bind; [apply _ | apply stores_updateAssignment | intros _].
  apply respects_bind; [apply _ | | intros _].
  { apply respects_bind; [apply _ | apply respects_getStudent; apply _ | intros s].
    intros w u w' H. apply notify_if_present_inv in H as [lines ->]. apply R_log. }
  apply respects_bind; [apply _ | apply stores__recalculateOverallGrade | intros _].
  apply respects_ret. apply _.
Qed.

Lemma stores_setFullName this name : respects R (setFullName this name).
Proof.
  intros w u w' H. apply bind_inv in H as (s & w1 & Hs & H).
  apply getStudent_inv in Hs as [-> Hs]. injection H as H. subst w'. apply R_store.
Qed.

Lemma stores_setEmail this email : respects R (setEmail this email).
Proof.
  intros w u w' H. apply bind_inv in H as (s & w1 & Hs & H).
  apply getStudent_inv in Hs as [-> Hs]. injection H as H. subst w'. apply R_store.
Qed.

Lemma stores_alloc_Student fullName email o : respects R (alloc_Student fullName email o).
Proof. intros w r w' H. injection H as _ H. subst w'. apply R_store. Qed.
End Stores.

Ltac stores_side :=
  first
    [ apply stores_find_or_create
    | apply stores_updateAssignment
    | apply stores_grading
    | apply stores__recalculateOverallGrade
    | apply stores_setFullName
    | apply stores_setEmail
    | apply stores_alloc_Student ];
  first [ apply _ | intros; reflexivity ].

Ltac kept_side :=
  try apply _;
  try (intros; stores_side);
  try (aside ltac:(first [ intros; reflexivity
                         | intros; apply stores_updateAssignment; intros; reflexivity ]));
  try (intros; reflexivity).

(** X16: only [addStudent] and [removeStudent] write to the roster, and
    nothing writes to the observer of the class list: every other call, a
    firing timer included, leaves [students] as it was, and every call leaves
    [observer]. *)
Theorem roster_written_by_add_remove c w w' :
  exec c w = Normal (tt, w') →
  class_observer w' = class_observer w
  ∧ (roster_call c = false → students w' = students w).
Proof.
  intros H. split.
  - revert H. apply (across_exec class_observer_kept); kept_side.
  - intros Hc. revert H. apply (across_exec_others roster_kept); kept_side. exact Hc.
Qed.

Lemma roster_written_by_add_remove_witness :
  class_observer Ada_reworking = class_observer Ada_passed
  ∧ (roster_call (call_startWorking 0 "HW1") = false →
     students Ada_reworking = students Ada_passed).
Proof.
  apply (roster_written_by_add_remove (call_startWorking 0 "HW1")). reflexivity.
Defined.

(** ** After a reminder *)

Lemma roster_kept_remind o outs name student :
  respects roster_kept (remind o outs name student).
Proof.
  apply (across_remind roster_kept); kept_side.
Qed.

Lemma done_not_outstanding name s a :
  find (has_name name) (assignmentStatuses s) = Some a → is_done (status a) = true →
  outstanding_for name s = false.
Proof.
  intros Hf Hd. unfold outstanding_for. rewrite Hf. unfold is_done in Hd.
  destruct (String.eqb (status a) "submitted"); [reflexivity|].
  destruct (String.eqb (status a) "Pass"); [reflexivity|].
  destruct (String.eqb (status a) "Fail"); [reflexivity | discriminate Hd].
Qed.

Lemma outstanding_test_named name s :
  name ≠ "" → outstanding_test (Some name) s = outstanding_for name s.
Proof.
  intros Hn. unfold outstanding_test, name_given.
  destruct (String.eqb name "") eqn:He; [|reflexivity].
  apply String.eqb_eq in He. contradiction.
Qed.

Lemma submitAssignment_receiver this name w u w' :
  submitAssignment this name w = Normal (u, w') → is_Some (heap w !! this).
Proof.
  intros H. destruct (heap w !! this) as [s|] eqn:Hs; [eauto|].
  unfold submitAssignment, find_or_create, _findAssignment, bind, getStudent in H.
  rewrite Hs in H. discriminate H.
Qed.

(** The body of the loop of [sendReminder]: a student whose full name is not
    listed is left alone; the others end with the assignment submitted or
    graded. *)
Lemma remind_inv o outs name student w s u w' :
  heap w !! student = Some s →
  remind o outs name student w = Normal (u, w') →
  if includes outs (fullName s)
  then ∃ s' a, heap w' !! student = Some s'
               ∧ find (has_name name) (assignmentStatuses s') = Some a
               ∧ is_done (status a) = true
  else w' = w.
Proof.
  intros Hs E. unfold remind in E.
  rewrite (bind_eq _ _ _ _ _ (getStudent_eq _ _ _ Hs)) in E.
  destruct (includes outs (fullName s)); simpl in E; [|injection E as _ <-; reflexivity].
  apply bind_inv in E as (found & w1 & _ & E).
  apply bind_inv in E as (i & w2 & _ & E).
  apply bind_inv in E as (u3 & w3 & _ & E).
  apply bind_inv in E as (u4 & w4 & _ & E).
  apply bind_inv in E as (u5 & w5 & _ & E).
  destruct (submitAssignment_receiver _ _ _ _ _ E) as [s5 Hs5].
  destruct (submitAssignment_then_done student name w5 s5 Hs5) as (w6 & s' & a & E6 & H).
  rewrite E6 in E. injection E as _ <-. eauto.
Qed.

Lemma remind_loop_settles o outs name roster w :
  NoDup roster →
  Forall (λ x, x < length (heap w)) roster →
  (∀ r s, r ∈ roster → heap w !! r = Some s →
          includes outs (fullName s) = false → outstanding_for name s = false) →
  ∃ w', forEach roster (remind o outs name) w = Normal (tt, w')
        ∧ changes false (λ r, r ∈ roster) w w'
        ∧ students w' = students w
        ∧ ∀ r s', r ∈ roster → heap w' !! r = Some s' → outstanding_for name s' = false.
Proof.
  revert w. induction roster as [|x roster IH]; intros w Hnd Hv Hout.
  - exists w. split; [reflexivity|]. split; [reflexivity|]. split; [reflexivity|].
    intros r s' Hr. inversion Hr.
  - apply NoDup_cons in Hnd as [Hx Hnd]. apply Forall_cons in Hv as [Hlt Hv].
    destruct (lookup_lt_is_Some_2 _ _ Hlt) as [s Hs].
    destruct (remind_total o outs name x w Hlt) as [w1 E1].
    assert (C1 : changes false (λ r, r = x) w w1)
      by (eapply (ok_remind false (λ r, r = x)); [reflexivity | exact E1]).
    pose proof (roster_kept_remind _ _ _ _ _ _ _ E1) as K1.
    pose proof (remind_inv _ _ _ _ _ _ _ _ Hs E1) as P1.
    pose proof (changes_heap_length _ _ _ _ C1) as L1.
    destruct (IH w1 Hnd) as (w2 & E2 & C2 & K2 & P2).
    { eapply Forall_impl; [exact Hv|]. simpl. intros r Hr. lia. }
    { intros r s0 Hr Hs0. apply (Hout r s0); [right; exact Hr|].
      rewrite <- Hs0. symmetry. apply (changes_frame _ _ _ _ r C1).
      - intros ->. contradiction.
      - eapply Forall_forall in Hv; [exact Hv | exact Hr]. }
    exists w2. split; [simpl; rewrite (bind_eq _ _ _ _ _ E1); exact E2|].
    split.
    { etransitivity.
      - eapply changes_mono; [|exact C1]. intros r ->. left.
      - eapply changes_mono; [|exact C2]. intros r Hr. right. exact Hr. }
    split; [unfold roster_kept in K1; congruence|].
    intros r s' Hr Hs'. apply elem_of_cons in Hr as [->|Hr]; [|eapply P2; eauto].
    rewrite (changes_frame _ _ _ _ x C2 Hx) in Hs' by lia.
    destruct (includes outs (fullName s)) eqn:Hin.
    + destruct P1 as (s1 & a & Hs1 & Hf & Hd). rewrite Hs1 in Hs'. injection Hs' as <-.
      eapply done_not_outstanding; eauto.
    + subst w1. apply (Hout x s'); [left | exact Hs' |].
      rewrite Hs in Hs'. injection Hs' as <-. exact Hin.
Qed.

(** X17: after [sendReminder(name)] with a non-empty name nobody is
    outstanding for that assignment.  In a reachable state the call returns
    normally, leaves the roster as it was, and
    [findOutstandingAssignments(name)] then returns the empty list: every
    student it selected now has the assignment "submitted" (or graded), and no
    other student had it outstanding. *)
Theorem sendReminder_settles w name :
  reachable w → name ≠ "" →
  ∃ w', sendReminder name w = Normal (tt, w')
        ∧ students w' = students w
        ∧ findOutstandingAssignments (Some name) w' = Normal ([], w').
Proof.
  intros Hw Hname.
  pose proof (reachable_roster_valid w Hw) as Hv.
  pose proof (reachable_roster_NoDup w Hw) as Hnd.
  unfold sendReminder. rewrite (bind_eq _ _ _ _ _ (findOutstandingAssignments_eq _ w Hv)).
  set (outs := fullName <$> _).
  destruct (remind_loop_settles (class_observer w) outs name (students w) w Hnd Hv)
    as (w' & E & C & K & P).
  { intros r s Hr Hs Hin. destruct (outstanding_for name s) eqn:Ho; [|reflexivity].
    exfalso. apply bool_decide_eq_false_1 in Hin. apply Hin.
    apply list_elem_of_fmap. exists s. split; [reflexivity|].
    apply list_elem_of_filter. split; [rewrite outstanding_test_named; assumption|].
    apply elem_of_roster_students. eauto. }
  exists w'. split; [exact E|]. split; [exact K|].
  assert (Hv' : roster_valid w').
  { unfold roster_valid. rewrite K. eapply Forall_impl; [exact Hv|]. simpl. intros r Hr.
    pose proof (changes_heap_length _ _ _ _ C). lia. }
  rewrite (findOutstandingAssignments_eq _ w' Hv').
  destruct (filter _ (roster_students w')) as [|s' l] eqn:Hf; [reflexivity|].
  exfalso. assert (Hin : s' ∈ filter (λ s, outstanding_test (Some name) s = true)
                                 (roster_students w')) by (rewrite Hf; left).
  apply list_elem_of_filter in Hin as [Ht Hin].
  apply elem_of_roster_students in Hin as (r & Hr & Hs').
  rewrite outstanding_test_named in Ht by exact Hname.
  rewrite K in Hr. rewrite (P r s' Hr Hs') in Ht. discriminate Ht.
Qed.

Lemma sendReminder_settles_witness :
  ∃ w', sendReminder "HW1" two_Bobs = Normal (tt, w')
        ∧ students w' = students two_Bobs
        ∧ findOutstandingAssignments (Some "HW1") w' = Normal ([], w').
Proof. apply (sendReminder_settles two_Bobs "HW1" two_Bobs_reachable). discriminate. Defined.

(** ** Grading by hand, and reading the average *)

(** X18: [updateAssignmentStatus(name, g)] with a number [g], on an existing
    Student, returns normally.  The assignment of that name (created if there
    was none) gets the grade [g] and the status that [setGrade] derives from
    it, also when it was graded before; [overallGrade] becomes the mean of the
    Student's grades as double arithmetic computes it (added from the left in
    array order, one division).  No timer is cancelled or created: an auto-submit or
    auto-grade task of the assignment stays pending, and the assignment keeps
    its timer handle. *)
Theorem updateAssignmentStatus_grades this name g w s :
  heap w !! this = Some s →
  ∃ w' s' i,
    updateAssignmentStatus this name (num g) w = Normal (tt, w')
    ∧ heap w' !! this = Some s'
    ∧ find_index (has_name name) (assignmentStatuses s') = Some i
    ∧ assignmentStatuses s' !! i = Some (setGrade g (named_assignment name s))
    ∧ _workTimeoutId (setGrade g (named_assignment name s))
      = _workTimeoutId (named_assignment name s)
    ∧ overallGrade s' = arithmetic_mean (present_grades s')
    ∧ timers w' = timers w ∧ next_timer w' = next_timer w.
Proof.
  intros Hs.
  destruct (find_or_create_spec this name w s Hs)
    as (i & w1 & s1 & E1 & Hs1 & Hi1 & Ha1 & Ht1 & Hn1 & _).
  set (a0 := named_assignment name s) in *.
  unfold updateAssignmentStatus. rewrite (bind_eq _ _ _ _ _ E1).
  rewrite (bind_eq _ _ _ _ _ (updateAssignment_eq _ _ _ _ _ _ Hs1 Ha1)).
  set (s2 := with_assignments (<[i := setGrade g a0]> (assignmentStatuses s1)) s1).
  assert (Hlt : this < length (heap w1)) by (eapply lookup_lt_Some, Hs1).
  assert (Hi : i < length (assignmentStatuses s1)) by (eapply lookup_lt_Some, Ha1).
  assert (Ha2 : assignmentStatuses s2 !! i = Some (setGrade g a0))
    by (simpl; apply list_lookup_insert_eq, Hi).
  rewrite (bind_eq _ _ _ _ _
             (_notifyObserver_eq this i false _ s2 _ (heap_store _ _ _ Hlt) Ha2)).
  set (w2 := with_console _ _).
  assert (Hs2 : heap w2 !! this = Some s2) by (apply heap_store, Hlt).
  rewrite (bind_eq _ _ _ _ _ (_recalculateOverallGrade_eq this w2 s2 Hs2)).
  eexists _, (with_overallGrade (computed_mean (assignmentStatuses s2)) s2), i.
  split; [reflexivity|].
  split. { simpl. apply list_lookup_insert_eq. rewrite length_insert. exact Hlt. }
  split. { simpl. rewrite (find_index_insert_name _ _ _ _ _ Ha1); [exact Hi1 | reflexivity]. }
  split; [exact Ha2|]. split; [reflexivity|].
  split; [apply computed_mean_spec|]. simpl. auto.
Qed.

Lemma updateAssignmentStatus_grades_witness :
  ∃ w' s' i,
    updateAssignmentStatus 0 "HW1" (num (of_Z 30)) Ada_reworking = Normal (tt, w')
    ∧ heap w' !! 0 = Some s'
    ∧ find_index (has_name "HW1") (assignmentStatuses s') = Some i
    ∧ assignmentStatuses s' !! i
      = Some (setGrade (of_Z 30)
                (set_workTimeoutId (Some 1%positive)
                   (set_status "working" (setGrade (of_Z 75) (new_Assignment "HW1")))))
    ∧ _workTimeoutId
        (setGrade (of_Z 30)
           (set_workTimeoutId (Some 1%positive)
              (set_status "working" (setGrade (of_Z 75) (new_Assignment "HW1")))))
      = Some 1%positive
    ∧ overallGrade s' = arithmetic_mean (present_grades s')
    ∧ timers w' = timers Ada_reworking ∧ next_timer w' = next_timer Ada_reworking.
Proof.
  exact (updateAssignmentStatus_grades 0 "HW1" (of_Z 30) Ada_reworking
           (with_overallGrade (Some (of_Z 75))
              (with_assignments
                 [set_workTimeoutId (Some 1%positive)
                    (set_status "working" (setGrade (of_Z 75) (new_Assignment "HW1")))]
                 Ada))
           eq_refl).
Defined.

(** X19: in a reachable state [getGrade()] is a pure read: it returns the
    Student's stored [overallGrade] and leaves the whole state as it was (the
    value it recomputes and stores is the one already there). *)
Theorem getGrade_reads w this s :
  reachable w →
  heap w !! this = Some s →
  getGrade this w = Normal (overallGrade s, w).
Proof.
  intros Hw Hs. unfold getGrade. rewrite (_recalculateOverallGrade_eq this w s Hs).
  rewrite computed_mean_spec.
  pose proof (reachable_average_current w Hw this s Hs) as Hc.
  unfold average_current, present_grades in Hc. rewrite <- Hc.
  assert (Hsame : with_overallGrade (overallGrade s) s = s) by (destruct s; reflexivity).
  rewrite Hsame, (list_insert_id _ _ _ Hs). destruct w; reflexivity.
Qed.

Lemma getGrade_reads_witness :
  getGrade 0 Ada_reworking = Normal (Some (of_Z 75), Ada_reworking).
Proof.
  exact (getGrade_reads Ada_reworking 0
           (with_overallGrade (Some (of_Z 75))
              (with_assignments
                 [set_workTimeoutId (Some 1%positive)
                    (set_status "working" (setGrade (of_Z 75) (new_Assignment "HW1")))]
                 Ada))
           Ada_reworking_reachable eq_refl).
Defined.

(** ** No call throws *)

Lemma callback_target_extends w w' cb :
  extends w w' → callback_target w cb → callback_target w' cb.
Proof. intros [Hl Ha]. destruct cb; simpl; auto. lia. Qed.

Lemma callbacks_ok_extends w w' :
  extends w w' →
  (∀ t, t ∈ timers w' → t ∈ timers w ∨ callback_target w' (timer_callback t)) →
  callbacks_ok w → callbacks_ok w'.
Proof.
  intros He Ht Hok t Hin. destruct (Ht t Hin) as [Hold|Hnew]; [|exact Hnew].
  eapply callback_target_extends; [exact He | apply Hok, Hold].
Qed.

Lemma keeps_callbacks_ok w w' :
  extends w w' →
  (∀ t, t ∈ timers w' → t ∈ timers w ∨ callback_target w' (timer_callback t)) →
  keeps callbacks_ok w w'.
Proof. intros He Ht Hok. eapply callbacks_ok_extends; eauto. Qed.

Lemma extends_heap w w' : heap w' = heap w → extends w w'.
Proof. intros Hh. unfold extends, assignment_at. rewrite Hh. auto. Qed.

Lemma extends_store this s s' w :
  heap w !! this = Some s →
  (length (assignmentStatuses s) ≤ length (assignmentStatuses s'))%nat →
  extends w (store this s' w).
Proof.
  intros Hs Hl. split; [simpl; rewrite length_insert; lia|].
  intros r j H. rewrite (assignment_at_store this s s' w r j Hs).
  destruct (decide (r = this)) as [->|Hne]; [|exact H].
  unfold assignment_at in H. rewrite Hs in H. simpl in H.
  apply lookup_lt_is_Some. apply lookup_lt_is_Some in H. lia.
Qed.

Lemma callbacks_ok_store this s s' w :
  heap w !! this = Some s →
  (length (assignmentStatuses s) ≤ length (assignmentStatuses s'))%nat →
  keeps callbacks_ok w (store this s' w).
Proof.
  intros Hs Hl. apply keeps_callbacks_ok; [eapply extends_store; eauto|].
  intros t Ht. left. exact Ht.
Qed.

Lemma callbacks_ok_heap w w' :
  heap w' = heap w → (∀ t, t ∈ timers w' → t ∈ timers w) → keeps callbacks_ok w w'.
Proof.
  intros Hh Ht. apply keeps_callbacks_ok; [apply extends_heap, Hh | auto].
Qed.

Lemma callbacks_ok_updateAssignment this i f :
  respects (keeps callbacks_ok) (updateAssignment this i f).
Proof.
  intros w u w' H. apply updateAssignment_inv in H as (s & a & Hs & Ha & ->).
  apply (callbacks_ok_store this s); [exact Hs|]. simpl. rewrite length_insert. lia.
Qed.

Lemma callbacks_ok_find_or_create this name :
  respects (keeps callbacks_ok) (find_or_create this name).
Proof.
  intros w i w' H. destruct (heap w !! this) as [s|] eqn:Hs.
  - destruct (find_index (has_name name) (assignmentStatuses s)) as [j|] eqn:Hj.
    + rewrite (find_or_create_found _ _ _ _ _ Hs Hj) in H. injection H as _ <-. reflexivity.
    + rewrite (find_or_create_new _ _ _ _ Hs Hj) in H. injection H as _ <-.
      unfold created. etransitivity.
      * apply (callbacks_ok_store this s (created_student name s)); [exact Hs|].
        simpl. rewrite length_app. lia.
      * apply callbacks_ok_heap; [reflexivity | auto].
  - apply bind_inv in H as (f & w1 & H & _). apply bind_inv in H as (s & w2 & H & _).
    apply getStudent_inv in H as [_ H]. rewrite Hs in H. discriminate H.
Qed.

Lemma callbacks_ok__recalculateOverallGrade this :
  respects (keeps callbacks_ok) (_recalculateOverallGrade this).
Proof.
  intros w g w' H. destruct (heap w !! this) as [s|] eqn:Hs.
  - rewrite (_recalculateOverallGrade_eq _ _ _ Hs) in H. injection H as _ <-.
    apply (callbacks_ok_store this s); [exact Hs | reflexivity].
  - unfold _recalculateOverallGrade, bind, getStudent in H. rewrite Hs in H. discriminate H.
Qed.

Lemma callbacks_ok_log w lines : keeps callbacks_ok w (with_console lines w).
Proof. apply callbacks_ok_heap; [reflexivity | auto]. Qed.

Lemma callbacks_ok__notifyObserver this i isReminder :
  respects (keeps callbacks_ok) (_notifyObserver this i isReminder).
Proof.
  apply respects_bind; [apply _ | apply respects_getStudent; apply _ | intros s].
  intros w u w' H. apply notify_if_present_inv in H as [lines ->]. apply callbacks_ok_log.
Qed.

Lemma callbacks_ok_grading this i g : respects (keeps callbacks_ok) (grading this i g).
Proof.
  unfold grading.
  apply respects_bind; [apply _ | apply callbacks_ok_updateAssignment | intros _].
  apply respects_bind; [apply _ | apply callbacks_ok__notifyObserver | intros _].
  apply respects_bind; [apply _ | apply callbacks_ok__recalculateOverallGrade | intros _].
  apply respects_ret. apply _.
Qed.

Lemma callbacks_ok_setFullName this name :
  respects (keeps callbacks_ok) (setFullName this name).
Proof.
  intros w u w' H. apply bind_inv in H as (s & w1 & Hs & H).
  apply getStudent_inv in Hs as [-> Hs]. injection H as H. subst w'.
  apply (callbacks_ok_store this s); [exact Hs | reflexivity].
Qed.

Lemma callbacks_ok_setEmail this email :
  respects (keeps callbacks_ok) (setEmail this email).
Proof.
  intros w u w' H. apply bind_inv in H as (s & w1 & Hs & H).
  apply getStudent_inv in Hs as [-> Hs]. injection H as H. subst w'.
  apply (callbacks_ok_store this s); [exact Hs | reflexivity].
Qed.

Lemma callbacks_ok_alloc_Student fullName email o :
  respects (keeps callbacks_ok) (alloc_Student fullName email o).
Proof.
  intros w r w' H. injection H as _ H. subst w'.
  apply keeps_callbacks_ok; [|intros t Ht; left; exact Ht].
  split; [simpl; rewrite length_app; lia|].
  intros r' j [a Ha]. exists a. unfold assignment_at in *. simpl.
  destruct (heap w !! r') as [s|] eqn:Hs; [|discriminate Ha].
  rewrite (lookup_app_l_Some _ _ _ _ Hs). exact Ha.
Qed.

Lemma callbacks_ok_clearTimeout id : respects (keeps callbacks_ok) (clearTimeout id).
Proof.
  intros w u w' H. injection H as H. subst w'.
  apply callbacks_ok_heap; [reflexivity|]. simpl. intros t Ht.
  apply list_elem_of_filter in Ht as [_ Ht]. exact Ht.
Qed.

Lemma callbacks_ok_rearm this i name delay :
  respects (keeps callbacks_ok)
    (let! id := setTimeout (auto_submit this i name) delay in
     updateAssignment this i (set_workTimeoutId (Some id))).
Proof.
  intros w u w' H. apply bind_inv in H as (id & w1 & H1 & H).
  injection H1 as <- <-.
  apply updateAssignment_inv in H as (s & a & Hs & Ha & ->). simpl in Hs.
  apply keeps_callbacks_ok.
  - destruct (extends_store this s
                (with_assignments
                   (<[i := set_workTimeoutId (Some (next_timer w)) a]> (assignmentStatuses s)) s)
                w Hs) as [Hl Hk]; [simpl; rewrite length_insert; lia|].
    split; [exact Hl | exact Hk].
  - simpl. intros t Ht. apply elem_of_app in Ht as [Ht|Ht]; [left; exact Ht|].
    apply list_elem_of_singleton in Ht as ->. right. simpl.
    unfold assignment_at. simpl.
    rewrite list_lookup_insert_eq by (eapply lookup_lt_Some, Hs). simpl.
    rewrite list_lookup_insert_eq by (eapply lookup_lt_Some, Ha). eauto.
Qed.

Lemma callbacks_ok_schedule_grade this i :
  respects (keeps callbacks_ok)
    (updateAssignment this i (set_status "submitted") ;;
     _notifyObserver this i false ;;
     let! _ := setTimeout (auto_grade this i) 500 in ret tt).
Proof.
  intros w u w' H. apply bind_inv in H as (u1 & w1 & H1 & H).
  apply updateAssignment_inv in H1 as (s & a & Hs & Ha & ->).
  apply bind_inv in H as (u2 & w2 & H2 & H).
  apply bind_inv in H2 as (s2 & w0 & Hs2 & H2). apply getStudent_inv in Hs2 as [-> Hs2].
  apply notify_if_present_inv in H2 as [lines ->].
  injection H as H. subst w'.
  apply keeps_callbacks_ok.
  - destruct (extends_store this s
                (with_assignments (<[i := set_status "submitted" a]> (assignmentStatuses s)) s)
                w Hs) as [Hl Hk]; [simpl; rewrite length_insert; lia|].
    split; [exact Hl | exact Hk].
  - simpl. intros t Ht. apply elem_of_app in Ht as [Ht|Ht]; [left; exact Ht|].
    apply list_elem_of_singleton in Ht as ->. right. simpl.
    unfold assignment_at. simpl.
    rewrite list_lookup_insert_eq by (eapply lookup_lt_Some, Hs). simpl.
    rewrite list_lookup_insert_eq by (eapply lookup_lt_Some, Ha). eauto.
Qed.

Lemma callbacks_ok_work this i name :
  respects (keeps callbacks_ok)
    (updateAssignment this i (set_status "working") ;;
     _notifyObserver this i false ;;
     clear_work_timer this i ;;
     let! id := setTimeout (auto_submit this i name) 500 in
     updateAssignment this i (set_workTimeoutId (Some id))).
Proof.
  apply respects_bind; [apply _ | apply callbacks_ok_updateAssignment | intros _].
  apply respects_bind; [apply _ | apply callbacks_ok__notifyObserver | intros _].
  apply respects_bind; [apply _ | | intros _; apply callbacks_ok_rearm].
  apply respects_bind; [apply _ | apply respects_getAssignment; apply _ | intros a].
  destruct (_workTimeoutId a); [apply callbacks_ok_clearTimeout | apply respects_ret; apply _].
Qed.

Lemma callbacks_ok_submit this i :
  respects (keeps callbacks_ok)
    (cancel_work_timer this i ;;
     updateAssignment this i (set_status "submitted") ;;
     _notifyObserver this i false ;;
     let! _ := setTimeout (auto_grade this i) 500 in ret tt).
Proof.
  apply respects_bind; [apply _ | | intros _; apply callbacks_ok_schedule_grade].
  apply respects_bind; [apply _ | apply respects_getAssignment; apply _ | intros a].
  destruct (_workTimeoutId a); [|apply respects_ret; apply _].
  apply respects_bind; [apply _ | apply callbacks_ok_clearTimeout | intros _].
  apply callbacks_ok_updateAssignment.
Qed.

Lemma callbacks_ok_release names w :
  roster_valid w →
  ∃ w', releaseAssignmentsParallel names w = Normal (tt, w')
        ∧ (callbacks_ok w → callbacks_ok w').
Proof.
  intros Hv. destruct (release_all names (students w) w)
    as (w' & new & E & Hh & Hs & Hc & Ht & Hcb & Hd).
  exists w'. split; [exact E|].
  apply keeps_callbacks_ok; [apply extends_heap, Hh|].
  intros t Hin. rewrite Ht in Hin. apply elem_of_app in Hin as [Hin|Hin]; [left; exact Hin|].
  right. assert (Hcbt : timer_callback t ∈ release_tasks names (students w)).
  { rewrite <- Hcb. apply list_elem_of_fmap. eauto. }
  unfold release_tasks in Hcbt. apply list_elem_of_bind in Hcbt as (name & Hcbt & _).
  apply list_elem_of_fmap in Hcbt as (student & -> & Hst). simpl. rewrite Hh.
  eapply Forall_forall in Hv; [exact Hv | exact Hst].
Qed.

Lemma reachable_callbacks_ok w : reachable w → callbacks_ok w.
Proof.
  induction 1 as [o|w c w' Hw IH [_ Hexec]].
  - intros t Ht. inversion Ht.
  - destruct (release_call c) eqn:Hrel.
    { destruct c; try discriminate Hrel. simpl in Hexec.
      destruct (callbacks_ok_release assignmentNames w (reachable_roster_valid w Hw))
        as (w1 & E & Hk). rewrite E in Hexec. injection Hexec as <-. apply Hk, IH. }
    assert (Hside : ∀ w0 lines, keeps callbacks_ok w0 (with_console lines w0))
      by exact callbacks_ok_log.
    assert (Hroster : ∀ w0 r, keeps callbacks_ok w0 (with_students r w0))
      by (intros w0 r; apply callbacks_ok_heap; [reflexivity | auto]).
    destruct (roster_call c) eqn:Hros.
    { destruct c; try discriminate Hros; simpl in Hexec.
      - assert (Hadd : respects (keeps callbacks_ok) (addStudent student))
          by (apply aside_addStudent; try apply _; assumption).
        exact (Hadd w tt w' Hexec IH).
      - assert (Hrem : respects (keeps callbacks_ok) (removeStudent studentOrName))
          by (apply aside_removeStudent; try apply _; assumption).
        exact (Hrem w tt w' Hexec IH). }
    assert (Hc : respects (keeps callbacks_ok) (exec c)); [|exact (Hc w tt w' Hexec IH)].
    apply across_exec_methods; try apply _; try assumption.
    + apply callbacks_ok_find_or_create.
    + intros this i. apply callbacks_ok_updateAssignment.
    + intros this i. apply callbacks_ok_updateAssignment.
    + apply callbacks_ok_grading.
    + apply callbacks_ok__recalculateOverallGrade.
    + apply callbacks_ok_setFullName.
    + apply callbacks_ok_setEmail.
    + apply callbacks_ok_alloc_Student.
    + apply callbacks_ok_clearTimeout.
    + apply callbacks_ok_work.
    + apply callbacks_ok_submit.
Qed.

Lemma run_callback_total cb random_grade w :
  callback_target w cb → ∃ w', run_callback cb random_grade w = Normal (tt, w').
Proof.
  destruct cb as [this i name|this i|student name]; simpl.
  - intros [a Ha]. apply assignment_at_Some in Ha as (s & Hs & Ha).
    unfold run_auto_submit. rewrite (bind_eq _ _ _ _ _ (getAssignment_eq _ _ _ _ _ Hs Ha)).
    destruct (is_unsubmitted (status a)); [|eexists; reflexivity].
    apply submitAssignment_total. eapply lookup_lt_Some, Hs.
  - intros [a Ha]. apply assignment_at_Some in Ha as (s & Hs & Ha).
    unfold run_auto_grade. rewrite (bind_eq _ _ _ _ _ (getAssignment_eq _ _ _ _ _ Hs Ha)).
    destruct (_graded a); [eexists; reflexivity|].
    assert (Hsafe : safe this i (updateAssignment this i (setGrade (of_Z random_grade)) ;;
                                 _notifyObserver this i false ;;
                                 _recalculateOverallGrade this ;; ret tt)).
    { apply safe_bind; [apply safe_setGrade | intros _].
      apply safe_bind; [apply safe__notifyObserver | intros _].
      apply safe_bind; [apply safe__recalculateOverallGrade | intros _].
      apply safe_ret. }
    destruct (safe_run _ _ _ _ _ _ Hsafe Hs Ha) as ([] & w' & E). eauto.
  - intros Hlt. apply updateAssignmentStatus_total, Hlt.
Qed.

(** X20: no call throws.  In every reachable state, every method called on
    an existing Student (and every method of the class list, and every
    firing of a timer) returns normally, whatever the observers are; so each
    such call is a step to another reachable state. *)
Theorem no_call_throws w c :
  reachable w → well_formed c w = true →
  ∃ w', exec c w = Normal (tt, w') ∧ reachable w'.
Proof.
  intros Hw Hc.
  assert (H : ∃ w', exec c w = Normal (tt, w')).
  { pose proof (reachable_roster_valid w Hw) as Hv.
    destruct c as [fn em o|this name|this email|this name grade|this name|this name
                  |this name|this|student|studentOrName|name|name|names|name|id z];
      simpl in Hc; try apply bool_decide_eq_true_1 in Hc; simpl exec.
    - eexists. reflexivity.
    - destruct (lookup_lt_is_Some_2 _ _ Hc) as [s Hs]. unfold setFullName.
      rewrite (bind_eq _ _ _ _ _ (getStudent_eq _ _ _ Hs)). eexists. reflexivity.
    - destruct (lookup_lt_is_Some_2 _ _ Hc) as [s Hs]. unfold setEmail.
      rewrite (bind_eq _ _ _ _ _ (getStudent_eq _ _ _ Hs)). eexists. reflexivity.
    - apply updateAssignmentStatus_total, Hc.
    - destruct (lookup_lt_is_Some_2 _ _ Hc) as [s Hs]. unfold discard, getAssignmentStatus.
      unfold bind at 1. unfold bind at 1. rewrite (_findAssignment_eq _ _ _ _ Hs).
      destruct (find_index _ _) as [i|] eqn:Hi; [|eexists; reflexivity].
      destruct (find_index_Some _ _ _ Hi) as (a & Ha & _).
      rewrite (bind_eq _ _ _ _ _ (getAssignment_eq _ _ _ _ _ Hs Ha)). eexists. reflexivity.
    - apply startWorking_total, Hc.
    - apply submitAssignment_total, Hc.
    - destruct (lookup_lt_is_Some_2 _ _ Hc) as [s Hs]. unfold discard, getGrade.
      rewrite (bind_eq _ _ _ _ _ (_recalculateOverallGrade_eq _ _ _ Hs)).
      eexists. reflexivity.
    - destruct (lookup_lt_is_Some_2 _ _ Hc) as [s Hs]. unfold addStudent.
      destruct (includes (students w) student); [eexists; reflexivity|].
      rewrite (bind_eq _ _ _ _ _ (getStudent_eq _ _ _ Hs)). eexists. reflexivity.
    - unfold removeStudent. destruct studentOrName as [student|name].
      + apply bool_decide_eq_true_1 in Hc.
        destruct (lookup_lt_is_Some_2 _ _ Hc) as [s Hs].
        unfold bind at 1. rewrite (bind_eq _ _ _ _ _ (getStudent_eq _ _ _ Hs)).
        eexists. reflexivity.
      + eexists. reflexivity.
    - eexists. reflexivity.
    - unfold discard. rewrite (bind_eq _ _ _ _ _ (findOutstandingAssignments_eq _ w Hv)).
      eexists. reflexivity.
    - destruct (release_all names (students w) w) as (w' & new & E & _).
      exists w'. exact E.
    - unfold sendReminder.
      rewrite (bind_eq _ _ _ _ _ (findOutstandingAssignments_eq _ w Hv)).
      destruct (remind_loop (class_observer w)
                  (fullName <$> filter (λ s, outstanding_test (Some name) s = true)
                                  (roster_students w))
                  name (students w) w Hv) as (w' & E & _).
      exists w'. exact E.
    - unfold fire. fold (pending id w). destruct (pending id w) as [t|] eqn:Hp;
        [|eexists; reflexivity].
      apply pending_Some in Hp as [Ht _].
      pose proof (reachable_callbacks_ok w Hw t Ht) as Htarget.
      unfold bind at 1, clearTimeout at 1.
      apply run_callback_total. destruct (timer_callback t); exact Htarget. }
  destruct H as [w' E]. exists w'. split; [exact E|].
  apply (reachable_step w c w' Hw). split; assumption.
Qed.

Lemma no_call_throws_witness :
  ∃ w', exec (timer_fires 2 40) Ada_two_timers = Normal (tt, w') ∧ reachable w'.
Proof.
  apply (no_call_throws Ada_two_timers (timer_fires 2 40) Ada_two_timers_reachable).
  reflexivity.
Defined.

(** ** What the mutators log *)

Lemma named_assignment_name name s : assignmentName (named_assignment name s) = name.
Proof.
  unfold named_assignment. destruct (find _ _) as [a|] eqn:Hf; [|reflexivity].
  apply find_some in Hf as [_ Hf]. apply has_name_true, Hf.
Qed.

Lemma find_or_create_log this name w s :
  heap w !! this = Some s →
  ∃ i w1 s1,
    find_or_create this name w = Normal (i, w1)
    ∧ heap w1 !! this = Some s1
    ∧ assignmentStatuses s1 !! i = Some (named_assignment name s)
    ∧ observer s1 = observer s ∧ fullName s1 = fullName s
    ∧ console w1
      = console w ++ (if usable (observer s) then released_line name s else []).
Proof.
  intros Hs. unfold named_assignment, released_line.
  destruct (find_index (has_name name) (assignmentStatuses s)) as [i|] eqn:Hi.
  - destruct (find_index_Some _ _ _ Hi) as (a & Ha & _ & Hf). rewrite Hf.
    exists i, w, s. split; [eapply find_or_create_found; eauto|].
    repeat (split; [auto|]). destruct (usable _); rewrite app_nil_r; reflexivity.
  - rewrite (find_index_None_find _ _ Hi). simpl.
    exists (length (assignmentStatuses s)), (created this name s w), (created_student name s).
    split; [apply find_or_create_new; auto|]. split; [apply created_lookup, Hs|].
    split; [simpl; apply list_lookup_middle; reflexivity|].
    split; [reflexivity|]. split; [reflexivity|].
    simpl. unfold notification. destruct (usable _); reflexivity.
Qed.

(** X21: what [startWorking(name)] logs.  With an observer that can be
    notified it writes, after the released line when it had to create the
    assignment, exactly one line "Observer → <full name> is working on
    <name>."; with any other observer ([undefined], [null], an object without
    a [notify] function) it writes nothing. *)
Theorem startWorking_logs this name w s :
  heap w !! this = Some s →
  ∃ w', startWorking this name w = Normal (tt, w')
        ∧ console w'
          = console w ++
            (if usable (observer s)
             then released_line name s
                  ++ [("Observer → " ++ fullName s ++ " is working on " ++ name ++ ".")%string]
             else []).
Proof.
  intros Hs.
  destruct (find_or_create_log this name w s Hs)
    as (i & w1 & s1 & E1 & Hs1 & Ha1 & Ho1 & Hn1 & Hc1).
  set (a0 := named_assignment name s) in *.
  unfold startWorking. rewrite (bind_eq _ _ _ _ _ E1).
  rewrite (bind_eq _ _ _ _ _ (updateAssignment_eq _ _ _ _ _ _ Hs1 Ha1)).
  set (s2 := with_assignments (<[i := set_status "working" a0]> (assignmentStatuses s1)) s1).
  assert (Hlt : this < length (heap w1)) by (eapply lookup_lt_Some, Hs1).
  assert (Hi : i < length (assignmentStatuses s1)) by (eapply lookup_lt_Some, Ha1).
  assert (Ha2 : assignmentStatuses s2 !! i = Some (set_status "working" a0))
    by (simpl; apply list_lookup_insert_eq, Hi).
  rewrite (bind_eq _ _ _ _ _
             (_notifyObserver_eq this i false _ s2 _ (heap_store _ _ _ Hlt) Ha2)).
  rewrite (rearm_eq this i name 500 _ s2 (set_status "working" a0));
    [|simpl; apply list_lookup_insert_eq; exact Hlt|exact Ha2].
  eexists. split; [reflexivity|]. simpl. rewrite Hc1. unfold notification. simpl.
  rewrite Ho1, Hn1. subst a0. rewrite (named_assignment_name name s).
  destruct (usable (observer s)); [|rewrite !app_nil_r; reflexivity].
  rewrite <- app_assoc. reflexivity.
Qed.

Lemma startWorking_logs_witness :
  ∃ w', startWorking 0 "HW1" Ada_new = Normal (tt, w')
        ∧ console w'
          = console Ada_new ++
            (if usable (observer Ada)
             then released_line "HW1" Ada
                  ++ [("Observer → " ++ fullName Ada ++ " is working on " ++ "HW1" ++ ".")%string]
             else []).
Proof. apply (startWorking_logs 0 "HW1" Ada_new Ada). reflexivity. Defined.

(** X22: what [submitAssignment(name)] logs.  On an assignment that is
    already "submitted", "Pass" or "Fail" it writes nothing.  Otherwise, with
    an observer that can be notified, it writes (after the released line when
    it had to create the assignment) exactly one line "Observer → <full name>
    has submitted <name>."; with any other observer it writes nothing. *)
Theorem submitAssignment_logs this name w s :
  heap w !! this = Some s →
  ∃ w', submitAssignment this name w = Normal (tt, w')
        ∧ console w'
          = console w ++
            (if is_done (status (named_assignment name s)) then []
             else if usable (observer s)
             then released_line name s
                  ++ [("Observer → " ++ fullName s ++ " has submitted " ++ name ++ ".")%string]
             else []).
Proof.
  intros Hs.
  destruct (find_or_create_log this name w s Hs)
    as (i & w1 & s1 & E1 & Hs1 & Ha1 & Ho1 & Hn1 & Hc1).
  set (a0 := named_assignment name s) in *.
  unfold submitAssignment. rewrite (bind_eq _ _ _ _ _ E1).
  rewrite (bind_eq _ _ _ _ _ (getAssignment_eq _ _ _ _ _ Hs1 Ha1)).
  destruct (is_done (status a0)) eqn:Hd.
  { exists w1. split; [reflexivity|]. rewrite Hc1. unfold released_line.
    fold (named_assignment name s) in *.
    destruct (find (has_name name) (assignmentStatuses s)) as [a|] eqn:Hf.
    - destruct (usable _); reflexivity.
    - unfold a0, named_assignment in Hd. rewrite Hf in Hd. discriminate Hd. }
  destruct (cancel_work_timer_eq this i w1 s1 a0 Hs1 Ha1)
    as (w2 & s2 & E2 & Hs2 & Hl2 & Ht2 & Hn2 & Hc2 & Ho2 & Hf2).
  rewrite (bind_eq _ _ _ _ _ E2).
  assert (Hi : i < length (assignmentStatuses s1)) by (eapply lookup_lt_Some, Ha1).
  assert (Ha2 : assignmentStatuses s2 !! i = Some (set_workTimeoutId None a0))
    by (rewrite Hl2; apply list_lookup_insert_eq, Hi).
  rewrite (bind_eq _ _ _ _ _ (updateAssignment_eq _ _ _ _ _ _ Hs2 Ha2)).
  set (s3 := with_assignments
               (<[i := set_status "submitted" (set_workTimeoutId None a0)]>
                  (assignmentStatuses s2)) s2).
  assert (Hlt : this < length (heap w2)) by (eapply lookup_lt_Some, Hs2).
  assert (Ha3 : assignmentStatuses s3 !! i
                = Some (set_status "submitted" (set_workTimeoutId None a0))).
  { simpl. apply list_lookup_insert_eq. rewrite Hl2, length_insert. exact Hi. }
  rewrite (bind_eq _ _ _ _ _
             (_notifyObserver_eq this i false _ s3 _ (heap_store _ _ _ Hlt) Ha3)).
  unfold bind, setTimeout, ret. simpl.
  eexists. split; [reflexivity|]. simpl. rewrite Hc2, Hc1. unfold notification. simpl.
  rewrite Ho2, Hf2, Ho1, Hn1. subst a0. rewrite (named_assignment_name name s).
  destruct (usable (observer s)); [|rewrite !app_nil_r; reflexivity].
  rewrite <- app_assoc. reflexivity.
Qed.

Lemma submitAssignment_logs_witness :
  ∃ w', submitAssignment 0 "HW1" Ada_new = Normal (tt, w')
        ∧ console w'
          = console Ada_new ++
            (if is_done (status (named_assignment "HW1" Ada)) then []
             else if usable (observer Ada)
             then released_line "HW1" Ada
                  ++ [("Observer → " ++ fullName Ada ++ " has submitted " ++ "HW1" ++ ".")%string]
             else []).
Proof. apply (submitAssignment_logs 0 "HW1" Ada_new Ada). reflexivity. Defined.

(** X23: what [updateAssignmentStatus(name, grade)] logs.  With an observer
    that can be notified it writes the released line when it had to create
    the assignment and then, only when [grade] is a number, one line
    "Observer → <full name> has passed <name>" (grade above 50) or "... has
    failed <name>" (otherwise), without a final period; with any other
    observer it writes nothing. *)
Theorem updateAssignmentStatus_logs this name grade w s :
  heap w !! this = Some s →
  ∃ w', updateAssignmentStatus this name grade w = Normal (tt, w')
        ∧ console w'
          = console w ++
            (if usable (observer s)
             then released_line name s
                  ++ match grade with
                     | num g =>
                         [("Observer → " ++ fullName s
                           ++ (if gt g (of_Z 50) then " has passed " else " has failed ")
                           ++ name)%string]
                     | _ => []
                     end
             else []).
Proof.
  intros Hs.
  destruct (find_or_create_log this name w s Hs)
    as (i & w1 & s1 & E1 & Hs1 & Ha1 & Ho1 & Hn1 & Hc1).
  set (a0 := named_assignment name s) in *.
  unfold updateAssignmentStatus. rewrite (bind_eq _ _ _ _ _ E1).
  destruct grade as [| |b|g|st|z| | |];
    try (exists w1; split; [reflexivity|]; rewrite Hc1;
         destruct (usable _); rewrite ?app_nil_r; reflexivity).
  rewrite (bind_eq _ _ _ _ _ (updateAssignment_eq _ _ _ _ _ _ Hs1 Ha1)).
  set (s2 := with_assignments (<[i := setGrade g a0]> (assignmentStatuses s1)) s1).
  assert (Hlt : this < length (heap w1)) by (eapply lookup_lt_Some, Hs1).
  assert (Hi : i < length (assignmentStatuses s1)) by (eapply lookup_lt_Some, Ha1).
  assert (Ha2 : assignmentStatuses s2 !! i = Some (setGrade g a0))
    by (simpl; apply list_lookup_insert_eq, Hi).
  rewrite (bind_eq _ _ _ _ _
             (_notifyObserver_eq this i false _ s2 _ (heap_store _ _ _ Hlt) Ha2)).
  set (w2 := with_console _ _).
  assert (Hs2 : heap w2 !! this = Some s2) by (apply heap_store, Hlt).
  rewrite (bind_eq _ _ _ _ _ (_recalculateOverallGrade_eq this w2 s2 Hs2)).
  eexists. split; [reflexivity|]. simpl. rewrite Hc1. unfold notification.
  change (observer s2) with (observer s1). change (fullName s2) with (fullName s1).
  rewrite Ho1, Hn1.
  change (assignmentName (setGrade g a0)) with (assignmentName a0).
  subst a0. rewrite (named_assignment_name name s), setGrade_status.
  destruct (usable (observer s)); [|rewrite !app_nil_r; reflexivity].
  rewrite <- app_assoc. destruct (gt g (of_Z 50)); reflexivity.
Qed.

Lemma updateAssignmentStatus_logs_witness :
  ∃ w', updateAssignmentStatus 0 "HW1" (num (of_Z 50)) Ada_new = Normal (tt, w')
        ∧ console w'
          = console Ada_new ++
            (if usable (observer Ada)
             then released_line "HW1" Ada
                  ++ [("Observer → " ++ fullName Ada
                       ++ (if gt (of_Z 50) (of_Z 50) then " has passed " else " has failed ")
                       ++ "HW1")%string]
             else []).
Proof.
  apply (updateAssignmentStatus_logs 0 "HW1" (num (of_Z 50)) Ada_new Ada). reflexivity.
Defined.

(** ** Cancelling the auto-submit timer *)

(** What [startWorking] does once it has its assignment. *)
Lemma work_eq this i name w s a :
  heap w !! this = Some s → assignmentStatuses s !! i = Some a →
  ∃ w',
    (updateAssignment this i (set_status "working") ;;
     _notifyObserver this i false ;;
     clear_work_timer this i ;;
     let! id := setTimeout (auto_submit this i name) 500 in
     updateAssignment this i (set_workTimeoutId (Some id))) w = Normal (tt, w')
    ∧ heap w'
      = <[this := with_assignments
                    (<[i := set_workTimeoutId (Some (next_timer w)) (set_status "working" a)]>
                       (assignmentStatuses s)) s]> (heap w)
    ∧ timers w'
      = cleared (_workTimeoutId a) (timers w)
        ++ [mkTimer (next_timer w) (auto_submit this i name) 500]
    ∧ next_timer w' = Pos.succ (next_timer w).
Proof.
  intros Hs Ha.
  rewrite (bind_eq _ _ _ _ _ (updateAssignment_eq _ _ _ _ _ _ Hs Ha)).
  set (s2 := with_assignments (<[i := set_status "working" a]> (assignmentStatuses s)) s).
  assert (Hlt : this < length (heap w)) by (eapply lookup_lt_Some, Hs).
  assert (Hi : i < length (assignmentStatuses s)) by (eapply lookup_lt_Some, Ha).
  assert (Ha2 : assignmentStatuses s2 !! i = Some (set_status "working" a))
    by (simpl; apply list_lookup_insert_eq, Hi).
  rewrite (bind_eq _ _ _ _ _
             (_notifyObserver_eq this i false _ s2 _ (heap_store _ _ _ Hlt) Ha2)).
  rewrite (rearm_eq this i name 500 _ s2 (set_status "working" a));
    [|simpl; apply list_lookup_insert_eq; exact Hlt|exact Ha2].
  eexists. split; [reflexivity|]. simpl.
  rewrite !list_insert_insert_eq. auto.
Qed.

(** What [submitAssignment] does once it has found its assignment not
    submitted yet. *)
Lemma submit_eq this i w s a :
  heap w !! this = Some s → assignmentStatuses s !! i = Some a →
  ∃ w',
    (cancel_work_timer this i ;;
     updateAssignment this i (set_status "submitted") ;;
     _notifyObserver this i false ;;
     let! _ := setTimeout (auto_grade this i) 500 in ret tt) w = Normal (tt, w')
    ∧ heap w'
      = <[this := with_assignments
                    (<[i := set_status "submitted" (set_workTimeoutId None a)]>
                       (assignmentStatuses s)) s]> (heap w)
    ∧ timers w'
      = cleared (_workTimeoutId a) (timers w) ++ [mkTimer (next_timer w) (auto_grade this i) 500]
    ∧ next_timer w' = Pos.succ (next_timer w).
Proof.
  intros Hs Ha.
  assert (Hlt : this < length (heap w)) by (eapply lookup_lt_Some, Hs).
  assert (Hi : i < length (assignmentStatuses s)) by (eapply lookup_lt_Some, Ha).
  assert (∃ w1 s1,
            cancel_work_timer this i w = Normal (tt, w1)
            ∧ heap w1 = <[this := s1]> (heap w)
            ∧ s1 = with_assignments
                     (<[i := set_workTimeoutId None a]> (assignmentStatuses s)) s
            ∧ timers w1 = cleared (_workTimeoutId a) (timers w)
            ∧ next_timer w1 = next_timer w) as (w1 & s1 & E1 & Hh1 & -> & Ht1 & Hn1).
  { unfold cancel_work_timer.
    rewrite (bind_eq _ _ _ _ _ (getAssignment_eq _ _ _ _ _ Hs Ha)).
    destruct (_workTimeoutId a) as [id|] eqn:Hid.
    - unfold bind at 1. simpl.
      rewrite (updateAssignment_eq this i _ _ s a) by assumption.
      eexists _, _. split; [reflexivity|]. simpl. auto.
    - exists w, (with_assignments (<[i := set_workTimeoutId None a]> (assignmentStatuses s)) s).
      split; [reflexivity|]. split; [|auto].
      assert (Ea : set_workTimeoutId None a = a)
        by (destruct a; simpl in *; subst; reflexivity).
      rewrite Ea, (list_insert_id _ _ _ Ha).
      assert (Es : with_assignments (assignmentStatuses s) s = s) by (destruct s; reflexivity).
      rewrite Es. symmetry. apply list_insert_id, Hs. }
  rewrite (bind_eq _ _ _ _ _ E1).
  set (s1 := with_assignments (<[i := set_workTimeoutId None a]> (assignmentStatuses s)) s)
    in *.
  assert (Hs1 : heap w1 !! this = Some s1)
    by (rewrite Hh1; apply list_lookup_insert_eq, Hlt).
  assert (Ha1 : assignmentStatuses s1 !! i = Some (set_workTimeoutId None a))
    by (simpl; apply list_lookup_insert_eq, Hi).
  rewrite (bind_eq _ _ _ _ _ (updateAssignment_eq _ _ _ _ _ _ Hs1 Ha1)).
  set (s2 := with_assignments
               (<[i := set_status "submitted" (set_workTimeoutId None a)]>
                  (assignmentStatuses s1)) s1).
  assert (Hlt1 : this < length (heap w1)) by (eapply lookup_lt_Some, Hs1).
  assert (Ha2 : assignmentStatuses s2 !! i
                = Some (set_status "submitted" (set_workTimeoutId None a))).
  { simpl. apply list_lookup_insert_eq. rewrite length_insert. exact Hi. }
  rewrite (bind_eq _ _ _ _ _
             (_notifyObserver_eq this i false _ s2 _ (heap_store _ _ _ Hlt1) Ha2)).
  unfold bind, setTimeout, ret. simpl.
  eexists. split; [reflexivity|]. simpl.
  rewrite Hh1, Ht1, Hn1, !list_insert_insert_eq.
  split; [|auto]. f_equal. subst s2 s1. simpl. rewrite list_insert_insert_eq. reflexivity.
Qed.

Lemma unarmed_put (s : Student) i a' :
  unarmed_when_submitted s →
  (status a' = "submitted" → _workTimeoutId a' = None) →
  unarmed_when_submitted (with_assignments (<[i := a']> (assignmentStatuses s)) s).
Proof.
  intros HQ Ha' j a Hj Hst. simpl in Hj. destruct (decide (j = i)) as [->|Hne].
  - destruct (decide (i < length (assignmentStatuses s))) as [Hlt|Hge].
    + rewrite list_lookup_insert_eq in Hj by exact Hlt. injection Hj as <-. auto.
    + rewrite list_insert_ge in Hj by lia. eapply HQ; eauto.
  - rewrite list_lookup_insert_ne in Hj by auto. eapply HQ; eauto.
Qed.

Lemma unarmed_work this i name :
  respects (keeps (all_students unarmed_when_submitted))
    (updateAssignment this i (set_status "working") ;;
     _notifyObserver this i false ;;
     clear_work_timer this i ;;
     let! id := setTimeout (auto_submit this i name) 500 in
     updateAssignment this i (set_workTimeoutId (Some id))).
Proof.
  intros w u w' H HQ. pose proof H as H0.
  apply bind_inv in H0 as (u1 & w1 & H1 & _).
  apply updateAssignment_inv in H1 as (s & a & Hs & Ha & _).
  destruct (work_eq this i name w s a Hs Ha) as (w2 & E & Hh & _).
  rewrite E in H. injection H as H. subst w'.
  intros r s' Hr. rewrite Hh in Hr.
  eapply (all_students_store _ this _ w HQ); [|exact Hr].
  apply unarmed_put; [eapply HQ, Hs | discriminate].
Qed.

Lemma unarmed_submit this i :
  respects (keeps (all_students unarmed_when_submitted))
    (cancel_work_timer this i ;;
     updateAssignment this i (set_status "submitted") ;;
     _notifyObserver this i false ;;
     let! _ := setTimeout (auto_grade this i) 500 in ret tt).
Proof.
  intros w u w' H HQ. pose proof H as H0.
  apply bind_inv in H0 as (u1 & w1 & H1 & _).
  apply bind_inv in H1 as (a & w0 & H1 & _).
  apply getAssignment_inv in H1 as (_ & s & Hs & Ha).
  destruct (submit_eq this i w s a Hs Ha) as (w2 & E & Hh & _).
  rewrite E in H. injection H as H. subst w'.
  intros r s' Hr. rewrite Hh in Hr.
  eapply (all_students_store _ this _ w HQ); [|exact Hr].
  apply unarmed_put; [eapply HQ, Hs | reflexivity].
Qed.

Lemma reachable_unarmed w : reachable w → all_students unarmed_when_submitted w.
Proof.
  induction 1 as [o|w c w' _ IH [_ Hexec]].
  { intros r s Hr. simpl in Hr. discriminate Hr. }
  assert (Hc : respects (keeps (all_students unarmed_when_submitted)) (exec c));
    [|exact (Hc w tt w' Hexec IH)].
  assert (Hheap : ∀ w1 w2, heap w2 = heap w1 →
                           keeps (all_students unarmed_when_submitted) w1 w2)
    by (intros w1 w2; apply inv_heap).
  apply across_exec; try apply _;
    try (first [ apply aside_addStudent | apply aside_removeStudent
               | apply aside_clearTimeout | apply aside_releaseAssignmentsParallel ];
         try apply _; intros; apply Hheap; reflexivity).
  - intros w1 lines. apply Hheap. reflexivity.
  - apply inv_find_or_create. intros s name HQ _ j a Hj Hst. simpl in Hj.
    apply lookup_app_Some in Hj as [Hj|[_ Hj]]; [eapply HQ; eauto|].
    apply list_lookup_singleton_Some in Hj as [_ <-]. discriminate Hst.
  - intros this i. apply inv_updateAssignment. intros s a HQ _.
    apply unarmed_put; [exact HQ | discriminate].
  - intros this i. apply inv_updateAssignment. intros s a HQ _.
    apply unarmed_put; [exact HQ | reflexivity].
  - apply inv_grading. intros s i a g HQ _.
    apply (unarmed_put s i (setGrade g a) HQ). simpl.
    destruct (gt g (of_Z 50)); discriminate.
  - apply inv__recalculateOverallGrade. intros s HQ. exact HQ.
  - apply inv_setFullName. intros s name HQ. exact HQ.
  - apply inv_setEmail. intros s email HQ. exact HQ.
  - apply inv_alloc_Student. intros fn em o j a Hj. discriminate Hj.
  - apply unarmed_work.
  - apply unarmed_submit.
Qed.

(** C4 (as amended): every assignment has at most one pending auto-submit
    timer at any time, and that timer is the one identified by the
    assignment's [_workTimeoutId] handle; a transition that supersedes a
    pending auto-submit has cancelled it: a submitted assignment holds no
    handle and has no auto-submit timer pending, and [startWorking] and
    [submitAssignment] remove from the table the auto-submit timer that was
    pending for their assignment. *)
Theorem one_auto_submit_timer w :
  reachable w →
  (∀ this i t1 t2 name1 name2,
     t1 ∈ timers w → t2 ∈ timers w →
     timer_callback t1 = auto_submit this i name1 →
     timer_callback t2 = auto_submit this i name2 →
     t1 = t2
     ∧ ∃ a, assignment_at w this i = Some a ∧ _workTimeoutId a = Some (timer_id t1))
  ∧ (∀ this i a,
       assignment_at w this i = Some a → status a = "submitted" →
       _workTimeoutId a = None
       ∧ ∀ t name, t ∈ timers w → timer_callback t ≠ auto_submit this i name)
  ∧ (∀ this name s i w',
       heap w !! this = Some s →
       find_index (has_name name) (assignmentStatuses s) = Some i →
       startWorking this name w = Normal (tt, w') →
       ∀ t n, t ∈ timers w → timer_callback t = auto_submit this i n → t ∉ timers w')
  ∧ (∀ this name s i a w',
       heap w !! this = Some s →
       find_index (has_name name) (assignmentStatuses s) = Some i →
       assignmentStatuses s !! i = Some a → is_done (status a) = false →
       submitAssignment this name w = Normal (tt, w') →
       ∀ t n, t ∈ timers w → timer_callback t = auto_submit this i n → t ∉ timers w').
Proof.
  intros Hw. destruct (reachable_timers_ok w Hw) as (Hnd & Hfresh & Hh).
  assert (Hgone : ∀ this i s a t n,
             heap w !! this = Some s → assignmentStatuses s !! i = Some a →
             t ∈ timers w → timer_callback t = auto_submit this i n →
             t ∉ cleared (_workTimeoutId a) (timers w)).
  { intros this i s a t n Hs Ha Ht Hcb Hin.
    destruct (Hh t this i n Ht Hcb) as (a0 & Ha0 & Hid).
    apply assignment_at_Some in Ha0 as (s0 & Hs0 & Ha0).
    assert (a0 = a) by congruence. subst a0. rewrite Hid in Hin. simpl in Hin.
    apply without_sub in Hin as [_ Hne]. contradiction. }
  split; [|split; [|split]].
  - intros this i t1 t2 name1 name2 H1 H2 C1 C2.
    destruct (Hh t1 this i name1 H1 C1) as (a1 & Ha1 & Hid1).
    destruct (Hh t2 this i name2 H2 C2) as (a2 & Ha2 & Hid2).
    split; [|eauto].
    apply (NoDup_fmap_inj timer_id (timers w)); auto. congruence.
  - intros this i a Ha Hst.
    apply assignment_at_Some in Ha as (s & Hs & Ha).
    pose proof (reachable_unarmed w Hw this s Hs i a Ha Hst) as Hnone.
    split; [exact Hnone|]. intros t name Ht Hcb.
    destruct (Hh t this i name Ht Hcb) as (a0 & Ha0 & Hid).
    apply assignment_at_Some in Ha0 as (s0 & Hs0 & Ha0).
    assert (a0 = a) by congruence. subst a0. rewrite Hnone in Hid. discriminate Hid.
  - intros this name s i w' Hs Hi E t n Ht Hcb Hin.
    destruct (find_index_Some _ _ _ Hi) as (a & Ha & _).
    unfold startWorking in E.
    rewrite (bind_eq _ _ _ _ _ (find_or_create_found _ _ _ _ _ Hs Hi)) in E.
    destruct (work_eq this i name w s a Hs Ha) as (w2 & E2 & _ & Htimers & _).
    rewrite E2 in E. injection E as E. subst w'. rewrite Htimers in Hin.
    apply elem_of_app in Hin as [Hin|Hin]; [exact (Hgone _ _ _ _ _ _ Hs Ha Ht Hcb Hin)|].
    apply list_elem_of_singleton in Hin. subst t. specialize (Hfresh _ Ht). simpl in Hfresh. lia.
  - intros this name s i a w' Hs Hi Ha Hd E t n Ht Hcb Hin.
    unfold submitAssignment in E.
    rewrite (bind_eq _ _ _ _ _ (find_or_create_found _ _ _ _ _ Hs Hi)) in E.
    rewrite (bind_eq _ _ _ _ _ (getAssignment_eq _ _ _ _ _ Hs Ha)) in E. rewrite Hd in E.
    destruct (submit_eq this i w s a Hs Ha) as (w2 & E2 & _ & Htimers & _).
    rewrite E2 in E. injection E as E. subst w'. rewrite Htimers in Hin.
    apply elem_of_app in Hin as [Hin|Hin]; [exact (Hgone _ _ _ _ _ _ Hs Ha Ht Hcb Hin)|].
    apply list_elem_of_singleton in Hin. subst t. discriminate Hcb.
Qed.

Lemma one_auto_submit_timer_witness :
  ∃ w', submitAssignment 0 "HW1" Ada_two_timers = Normal (tt, w')
        ∧ mkTimer 2 (auto_submit 0 0 "HW1") 500 ∈ timers Ada_two_timers
        ∧ mkTimer 2 (auto_submit 0 0 "HW1") 500 ∉ timers w'.
Proof.
  destruct (one_auto_submit_timer Ada_two_timers Ada_two_timers_reachable)
    as (_ & _ & _ & H).
  eexists. split; [reflexivity|]. split; [right; left|].
  eapply (H 0 "HW1" _ 0 _ _ eq_refl eq_refl eq_refl eq_refl eq_refl); [right; left | reflexivity].
Defined.

(** ** Grading by hand touches one assignment *)

(** [updateAssignmentStatus(name, g)] with a number [g] leaves every other
    assignment object as it was: those of the other Students, and those of
    another name. *)
Lemma updateAssignmentStatus_others r name g w w' this i a :
  updateAssignmentStatus r name (num g) w = Normal (tt, w') →
  assignment_at w this i = Some a →
  r ≠ this ∨ name ≠ assignmentName a →
  assignment_at w' this i = Some a.
Proof.
  intros E Ha Hother.
  assert (∃ s, heap w !! r = Some s) as [s Hs].
  { destruct (heap w !! r) as [s|] eqn:Hs; [eauto|].
    unfold updateAssignmentStatus, find_or_create, _findAssignment, bind, getStudent in E.
    rewrite Hs in E. discriminate E. }
  assert (Hlt : r < length (heap w)) by (eapply lookup_lt_Some, Hs).
  assert (∃ i0 l1 a0 w1,
            find_or_create r name w = Normal (i0, w1)
            ∧ heap w1 = <[r := with_assignments l1 s]> (heap w)
            ∧ l1 !! i0 = Some a0 ∧ assignmentName a0 = name
            ∧ ∀ j x, assignmentStatuses s !! j = Some x → l1 !! j = Some x)
    as (i0 & l1 & a0 & w1 & E1 & Hh1 & Ha0 & Hn0 & Hl1).
  { destruct (find_index (has_name name) (assignmentStatuses s)) as [i0|] eqn:Hi.
    - destruct (find_index_Some _ _ _ Hi) as (a0 & Ha0 & Hn0 & _).
      exists i0, (assignmentStatuses s), a0, w.
      split; [eapply find_or_create_found; eauto|]. split.
      { assert (Es : with_assignments (assignmentStatuses s) s = s)
          by (destruct s; reflexivity).
        rewrite Es. symmetry. apply list_insert_id, Hs. }
      split; [exact Ha0|]. split; [apply has_name_true, Hn0 | auto].
    - exists (length (assignmentStatuses s)), (assignmentStatuses s ++ [new_Assignment name]),
        (new_Assignment name), (created r name s w).
      split; [apply find_or_create_new; auto|]. split; [reflexivity|].
      split; [apply list_lookup_middle; reflexivity|]. split; [reflexivity|].
      intros j x Hj. apply lookup_app_l_Some, Hj. }
  unfold updateAssignmentStatus in E. rewrite (bind_eq _ _ _ _ _ E1) in E.
  set (s1 := with_assignments l1 s) in *.
  assert (Hs1 : heap w1 !! r = Some s1) by (rewrite Hh1; apply list_lookup_insert_eq, Hlt).
  rewrite (bind_eq _ _ _ _ _ (updateAssignment_eq _ _ _ _ _ _ Hs1 Ha0)) in E.
  set (s2 := with_assignments (<[i0 := setGrade g a0]> (assignmentStatuses s1)) s1) in *.
  assert (Hlt1 : r < length (heap w1)) by (eapply lookup_lt_Some, Hs1).
  assert (Ha2 : assignmentStatuses s2 !! i0 = Some (setGrade g a0)).
  { simpl. apply list_lookup_insert_eq. eapply lookup_lt_Some, Ha0. }
  rewrite (bind_eq _ _ _ _ _
             (_notifyObserver_eq r i0 false _ s2 _ (heap_store _ _ _ Hlt1) Ha2)) in E.
  set (w2 := with_console _ _) in *.
  assert (Hs2 : heap w2 !! r = Some s2) by (apply heap_store, Hlt1).
  rewrite (bind_eq _ _ _ _ _ (_recalculateOverallGrade_eq r w2 s2 Hs2)) in E.
  injection E as E. subst w'.
  apply assignment_at_Some in Ha as (sa & Hsa & Ha).
  apply assignment_at_Some. simpl. rewrite Hh1, !list_insert_insert_eq.
  destruct (decide (this = r)) as [->|Hne].
  - assert (sa = s) by congruence. subst sa.
    eexists. split; [apply list_lookup_insert_eq, Hlt|]. simpl.
    assert (i ≠ i0).
    { intros ->. rewrite (Hl1 _ _ Ha) in Ha0. injection Ha0 as <-.
      destruct Hother as [H|H]; [contradiction | congruence]. }
    rewrite list_lookup_insert_ne by auto. apply Hl1, Ha.
  - exists sa. split; [|exact Ha]. rewrite list_lookup_insert_ne by auto. exact Hsa.
Qed.

(** C3 (as amended): once an assignment has been graded it stays graded, and
    its recorded grade is changed by no call other than
    [updateAssignmentStatus] with a grade of type "number" on its own Student
    and under its own name (grading another assignment, or another Student's,
    leaves it alone); the scheduled auto-grade task, run on a graded
    assignment, changes nothing at all. *)
Theorem graded_assignment_kept :
  (∀ w c w' this i a,
     step w c w' →
     assignment_at w this i = Some a → _graded a = true →
     ∃ a', assignment_at w' this i = Some a' ∧ _graded a' = true
           ∧ (¬ regrades c this a → _grade a' = _grade a))
  ∧ (∀ w this i a random_grade,
       assignment_at w this i = Some a → _graded a = true →
       run_auto_grade this i random_grade w = Normal (tt, w)).
Proof.
  split.
  - intros w c w' this i a Hstep Ha Hg.
    destruct (supplies_grade c) eqn:Hc.
    + destruct c as [| | |r name grade| | | | | | | | | | |]; try discriminate Hc.
      destruct grade as [| | |g| | | | |]; try discriminate Hc.
      destruct (decide (r = this ∧ name = assignmentName a)) as [[-> ->]|Hother].
      * apply step_changes, changes_graded_kept in Hstep.
        destruct (Hstep this i a Ha Hg) as (a' & Ha' & Hg' & _).
        exists a'. split; [exact Ha'|]. split; [exact Hg'|].
        intros Hno. exfalso. apply Hno. exists g. reflexivity.
      * destruct Hstep as [_ Hexec]. simpl in Hexec.
        exists a. split; [|auto].
        apply (updateAssignmentStatus_others r name g w w' this i a Hexec Ha).
        destruct (decide (r = this)) as [->|Hr]; [right | left; exact Hr].
        intros ->. apply Hother. auto.
    + apply step_changes, changes_graded_kept in Hstep.
      destruct (Hstep this i a Ha Hg) as (a' & Ha' & Hg' & He).
      exists a'. split; [exact Ha'|]. split; [exact Hg'|].
      intros _. apply He. rewrite Hc. reflexivity.
  - intros w this i a random_grade. apply run_auto_grade_graded.
Qed.

Lemma graded_assignment_kept_witness :
  (∃ w', step Ada_passed (call_updateAssignmentStatus 0 "HW2" (num (of_Z 30))) w'
         ∧ ∃ a', assignment_at w' 0 0 = Some a' ∧ _graded a' = true
                 ∧ (¬ regrades (call_updateAssignmentStatus 0 "HW2" (num (of_Z 30))) 0
                        (setGrade (of_Z 75) (new_Assignment "HW1")) →
                    _grade a' = Some (of_Z 75)))
  ∧ run_auto_grade 0 0 10 Ada_passed = Normal (tt, Ada_passed).
Proof.
  destruct graded_assignment_kept as [H1 H2]. split.
  - eexists. split; [split; reflexivity|].
    eapply (H1 Ada_passed (call_updateAssignmentStatus 0 "HW2" (num (of_Z 30))) _ 0 0).
    + split; reflexivity.
    + reflexivity.
    + reflexivity.
  - apply (H2 Ada_passed 0 0 (setGrade (of_Z 75) (new_Assignment "HW1")) 10%Z).
    + reflexivity.
    + reflexivity.
Defined.
